(** * A shallow embedding of infinitode.py (Session, Score, Leaderboard,
    Player, the expiring cache) and the verification of its specification. *)

From Stdlib Require Import String Ascii List ZArith Bool Lia.
Import ListNotations.
Open Scope string_scope.
Open Scope Z_scope.
Set Warnings "-register-all".

(** ** Python values and exceptions *)

(** The Python values that flow through the library: JSON payloads decoded
    by [r.json()], keyword dictionaries and call arguments.  JSON numbers
    are integers in every payload the library reads. *)
Inductive PyVal : Type :=
| PNone
| PBool (b : bool)
| PInt (z : Z)
| PStr (s : string)
| PList (l : list PyVal)
| PTuple (l : list PyVal)
| PDict (d : list (string * PyVal)).

(** Python truthiness ([bool(v)]). *)
Definition truthy (v : PyVal) : bool :=
  match v with
  | PNone => false
  | PBool b => b
  | PInt z => negb (Z.eqb z 0)
  | PStr s => negb (String.eqb s "")
  | PList l => negb (Nat.eqb (length l) 0)
  | PTuple l => negb (Nat.eqb (length l) 0)
  | PDict d => negb (Nat.eqb (length d) 0)
  end.

(** The exceptions raised along the library's paths: the builtin ones and
    the classes of [errors.py] (all subclasses of [InfinitodeError]). *)
Inductive Exc : Type :=
| TypeError
| ValueError
| KeyError
| IndexError
| AttributeError
| ContentTypeError
| InfinitodeError (msg : string)
| APIError (msg : string)
| BadArgument (msg : string)
| MissingSession (msg : string).

(** The class of an exception, forgetting its message. *)
Inductive ExcClass := CTypeError | CValueError | CKeyError | CIndexError
  | CAttributeError | CContentTypeError | CInfinitodeError | CAPIError | CBadArgument | CMissingSession.

Definition exc_class (e : Exc) : ExcClass :=
  match e with
  | TypeError => CTypeError
  | ValueError => CValueError
  | KeyError => CKeyError
  | IndexError => CIndexError
  | AttributeError => CAttributeError
  | ContentTypeError => CContentTypeError
  | InfinitodeError _ => CInfinitodeError
  | APIError _ => CAPIError
  | BadArgument _ => CBadArgument
  | MissingSession _ => CMissingSession
  end.

(** A computation that returns a value or raises. *)
Inductive result (A : Type) : Type :=
| Ok (a : A)
| Err (e : Exc).
Arguments Ok {A} a.
Arguments Err {A} e.

Definition rbind {A B} (r : result A) (f : A -> result B) : result B :=
  match r with
  | Ok a => f a
  | Err e => Err e
  end.

Notation "x <- r ;; k" := (rbind r (fun x => k))
  (at level 61, r at next level, right associativity).

(** ** String helpers: [str.replace], [str.split], [int(str)], [str(x)] *)

Fixpoint starts_with (p s : string) : bool :=
  match p, s with
  | EmptyString, _ => true
  | String a p', String b s' => Ascii.eqb a b && starts_with p' s'
  | _, _ => false
  end.

Fixpoint drop_chars (n : nat) (s : string) : string :=
  match n, s with
  | O, _ => s
  | S n', String _ s' => drop_chars n' s'
  | S _, EmptyString => EmptyString
  end.

Fixpoint replace_fuel (fuel : nat) (old new s : string) : string :=
  match fuel with
  | O => s
  | S f =>
      match s with
      | EmptyString => EmptyString
      | String c s' =>
          if starts_with old s
          then new ++ replace_fuel f old new (drop_chars (String.length old) s)
          else String c (replace_fuel f old new s')
      end
  end.

(** [s.replace(old, new)] for a non-empty [old]: every step consumes at
    least one character, so [String.length s] steps suffice. *)
Definition replace_all (old new s : string) : string :=
  replace_fuel (String.length s) old new s.

(** [s.split(sep)] for a one-character separator. *)
Fixpoint split_char (sep : ascii) (s : string) : list string :=
  match s with
  | EmptyString => [EmptyString]
  | String c s' =>
      match split_char sep s' with
      | [] => [String c EmptyString]
      | w :: ws => if Ascii.eqb c sep then EmptyString :: w :: ws else String c w :: ws
      end
  end.

Definition is_digit (c : ascii) : bool :=
  let n := nat_of_ascii c in (48 <=? n)%nat && (n <=? 57)%nat.

Fixpoint digits_value (acc : Z) (s : string) : option Z :=
  match s with
  | EmptyString => Some acc
  | String c s' =>
      if is_digit c
      then digits_value (acc * 10 + Z.of_nat (nat_of_ascii c - 48)) s'
      else None
  end.

Definition is_space (c : ascii) : bool :=
  match nat_of_ascii c with 32 | 9 | 10 | 13 => true | _ => false end%nat.

Fixpoint lstrip (s : string) : string :=
  match s with
  | String c s' => if is_space c then lstrip s' else s
  | EmptyString => EmptyString
  end.

Fixpoint rev_string (s : string) : string :=
  match s with
  | EmptyString => EmptyString
  | String c s' => rev_string s' ++ String c EmptyString
  end.

Definition strip (s : string) : string := rev_string (lstrip (rev_string (lstrip s))).

(** [int(s)] on a string: optional surrounding whitespace, an optional sign,
    then at least one decimal digit; anything else is a [ValueError]. *)
Definition py_int_of_string (s : string) : result Z :=
  let t := strip s in
  let '(sign, body) :=
    match t with
    | String "-" r => (-1, r)
    | String "+" r => (1, r)
    | _ => (1, t)
    end in
  match body with
  | EmptyString => Err ValueError
  | _ => match digits_value 0 body with
         | Some z => Ok (sign * z)
         | None => Err ValueError
         end
  end.

(** [int(v)] on a value. *)
Definition py_int (v : PyVal) : result Z :=
  match v with
  | PInt z => Ok z
  | PBool b => Ok (if b then 1 else 0)
  | PStr s => py_int_of_string s
  | _ => Err TypeError
  end.

Fixpoint digits_of_pos (fuel : nat) (n : Z) (acc : string) : string :=
  match fuel with
  | O => acc
  | S f =>
      let d := ascii_of_nat (Z.to_nat (n mod 10) + 48) in
      if n <? 10 then String d acc else digits_of_pos f (n / 10) (String d acc)
  end.

Definition z_to_string (z : Z) : string :=
  if z <? 0 then "-" ++ digits_of_pos 64 (- z) EmptyString
  else digits_of_pos 64 z EmptyString.

(** [str(v)] for the scalar values a map identifier can be; containers
    render starting with a bracket, which no level name does. *)
Definition py_str (v : PyVal) : string :=
  match v with
  | PNone => "None"
  | PBool true => "True"
  | PBool false => "False"
  | PInt z => z_to_string z
  | PStr s => s
  | PList _ => "[...]"
  | PTuple _ => "(...)"
  | PDict _ => "{...}"
  end.

(** ["literal" + v]: string concatenation raises [TypeError] unless [v] is a
    [str]. *)
Definition str_concat (s : string) (v : PyVal) : result string :=
  match v with
  | PStr t => Ok (s ++ t)
  | _ => Err TypeError
  end.

Fixpoint lookup {A} (k : string) (d : list (string * A)) : option A :=
  match d with
  | [] => None
  | (k', v) :: d' => if String.eqb k k' then Some v else lookup k d'
  end.

(** [d[k]] on a value: [KeyError] when absent, [TypeError] on a non-dict. *)
Definition getitem (v : PyVal) (k : string) : result PyVal :=
  match v with
  | PDict d => match lookup k d with Some x => Ok x | None => Err KeyError end
  | _ => Err TypeError
  end.

(** ** Calling a Python function: binding positional and keyword arguments *)

(** A parameter of a Python signature: its name, whether it is keyword-only
    (after [*]) and its default value, if any.  [V] is the type of the
    values passed. *)
Record Param (V : Type) := mkParam { pname : string; pkwonly : bool; pdefault : option V }.
Arguments mkParam {V} pname pkwonly pdefault.
Arguments pname {V} p.
Arguments pkwonly {V} p.
Arguments pdefault {V} p.

Definition req {V} (n : string) : Param V := mkParam n false None.
Definition kwreq {V} (n : string) : Param V := mkParam n true None.
Definition kwopt (n : string) : Param PyVal := mkParam n true (Some PNone).

Section Binding.
Context {V : Type}.

(** Positional arguments fill the leading parameters; a keyword naming an
    already filled parameter, a positional argument left over, or a required
    parameter left unfilled is a [TypeError]. *)
Fixpoint bind_params (params : list (Param V)) (pos : list V)
    (kw : list (string * V)) : result (list V) :=
  match params with
  | [] => match pos with [] => Ok [] | _ :: _ => Err TypeError end
  | p :: ps =>
      match pos with
      | v :: pos' =>
          if pkwonly p then Err TypeError
          else match lookup (pname p) kw with
               | Some _ => Err TypeError
               | None => vs <- bind_params ps pos' kw ;; Ok (v :: vs)
               end
      | [] =>
          v <- match lookup (pname p) kw with
               | Some v => Ok v
               | None => match pdefault p with Some d => Ok d | None => Err TypeError end
               end ;;
          vs <- bind_params ps [] kw ;;
          Ok (v :: vs)
      end
  end.

(** A call with positional arguments [pos] and keywords [kw]: a keyword that
    names no parameter is a [TypeError] ("got an unexpected keyword
    argument"). *)
Definition bind_call (params : list (Param V)) (pos : list V)
    (kw : list (string * V)) : result (list V) :=
  if forallb (fun kv => existsb (fun p => String.eqb (fst kv) (pname p)) params) kw
  then bind_params params pos kw
  else Err TypeError.

End Binding.

(** [f(..., k1=v1, ..., **d)]: [d] must be a mapping, and a key of [d] that
    repeats an explicit keyword is a [TypeError] ("got multiple values"). *)
Definition merge_kwargs (explicit : list (string * PyVal)) (d : PyVal)
    : result (list (string * PyVal)) :=
  match d with
  | PDict kv =>
      if existsb (fun e => match lookup (fst e) kv with Some _ => true | None => false end)
           explicit
      then Err TypeError else Ok (explicit ++ kv)%list
  | _ => Err TypeError
  end.

(** ** badge.py *)

Record Badge := mkBadge {
  icon_img : PyVal; icon_color : PyVal; overlay_img : PyVal; overlay_color : PyVal }.

Definition Badge_params : list (Param PyVal) :=
  [req "iconImg"; req "iconColor"; req "overlayImg"; req "overlayColor"].

(** [Badge.__init__]. *)
Definition Badge_init (pos : list PyVal) (kw : list (string * PyVal)) : result Badge :=
  args <- bind_call Badge_params pos kw ;;
  match args with
  | [a; b; c; d] => Ok (mkBadge a b c d)
  | _ => Err TypeError
  end.

(** ** score.py *)

Record Score := mkScore {
  s_method : PyVal; s_mapname : PyVal; s_mode : PyVal; s_difficulty : PyVal;
  s_playerid : PyVal; s_rank : Z; s_score : Z;
  s_has_pfp : PyVal; s_level : PyVal; s_nickname : PyVal;
  s_pinned_badge : option Badge; s_position : option Z; s_top : PyVal;
  s_total : option Z; s_player : PyVal }.

Definition Score_params : list (Param PyVal) :=
  [req "method"; req "mapname"; req "mode"; req "difficulty"; req "playerid";
   req "rank"; req "score";
   kwopt "hasPfp"; kwopt "level"; kwopt "nickname"; kwopt "pinnedBadge";
   kwopt "position"; kwopt "top"; kwopt "total"; kwopt "player"].

(** [int(v) if v is not None else None]. *)
Definition opt_int (v : PyVal) : result (option Z) :=
  match v with
  | PNone => Ok None
  | _ => z <- py_int v ;; Ok (Some z)
  end.

(** [Score.__init__]. *)
Definition Score_init (pos : list PyVal) (kw : list (string * PyVal)) : result Score :=
  args <- bind_call Score_params pos kw ;;
  match args with
  | [method; mapname; mode; difficulty; playerid; rank; score;
     hasPfp; level; nickname; pinnedBadge; position; top; total; player] =>
      r <- py_int rank ;;
      s <- py_int score ;;
      pb <- match pinnedBadge with
            | PNone => Ok None
            | PDict kv => b <- Badge_init [] kv ;; Ok (Some b)
            | _ => Err TypeError
            end ;;
      p <- opt_int position ;;
      t <- opt_int total ;;
      Ok (mkScore method mapname mode difficulty playerid r s
                  hasPfp level nickname pb p top t player)
  | _ => Err TypeError
  end.

(** [Score.from_payload]: [cls(method, mapname, mode, difficulty, playerid,
    **payload["player"])]. *)
Definition Score_from_payload (method mapname mode difficulty playerid payload : PyVal)
    : result Score :=
  score <- getitem payload "player" ;;
  kw <- merge_kwargs [] score ;;
  Score_init [method; mapname; mode; difficulty; playerid] kw.

(** ** leaderboard.py *)

Record Leaderboard := mkLeaderboard {
  lb_method : PyVal; lb_mapname : PyVal; lb_mode : PyVal; lb_difficulty : PyVal;
  lb_total : Z; lb_raw : PyVal; lb_date : PyVal; lb_season : option Z;
  lb_player : option Score; lb_scores : list Score }.

(** [Leaderboard.__init__]: [int(total)], [int(season)] unless [None], and
    an empty score list. *)
Definition Leaderboard_init (method mapname mode difficulty total raw date : PyVal)
    (player : option Score) (season : PyVal) : result Leaderboard :=
  t <- py_int total ;;
  s <- opt_int season ;;
  Ok (mkLeaderboard method mapname mode difficulty t raw date s player []).

(** Iterating a value with a [for] loop. *)
Definition py_iter (v : PyVal) : result (list PyVal) :=
  match v with
  | PList l => Ok l
  | PTuple l => Ok l
  | PDict kv => Ok (map (fun e => PStr (fst e)) kv)
  | PStr s => Ok (map (fun c => PStr (String c EmptyString)) (list_ascii_of_string s))
  | _ => Err TypeError
  end.

(** The loop [for rank, score in enumerate(xs, start=1): instance._append(
    Score(method, mapname, mode, difficulty, rank=rank, **score))]. *)
Fixpoint append_scores (method mapname mode difficulty : PyVal) (rank : Z)
    (xs : list PyVal) (acc : list Score) : result (list Score) :=
  match xs with
  | [] => Ok acc
  | x :: xs' =>
      kw <- merge_kwargs [("rank", PInt rank)] x ;;
      sc <- Score_init [method; mapname; mode; difficulty] kw ;;
      append_scores method mapname mode difficulty (rank + 1) xs' (acc ++ [sc])%list
  end.

(** [Leaderboard.from_payload]. *)
Definition Leaderboard_from_payload (method mapname mode difficulty playerid payload : PyVal)
    (date season : PyVal) : result Leaderboard :=
  player <- getitem payload "player" ;;
  total <- getitem player "total" ;;
  cond <- match playerid with
          | PNone => Ok false
          | _ =>
              sc <- getitem player "score" ;;
              if truthy sc then
                rk <- getitem player "rank" ;;
                if truthy rk then Ok (truthy total) else Ok false
              else Ok false
          end ;;
  player_score <- (if cond then
                     kw <- merge_kwargs [] player ;;
                     sc <- Score_init [method; mapname; mode; difficulty; playerid] kw ;;
                     Ok (Some sc)
                   else Ok None) ;;
  instance <- Leaderboard_init method mapname mode difficulty total payload date
                player_score season ;;
  lbs <- getitem payload "leaderboards" ;;
  xs <- py_iter lbs ;;
  scores <- append_scores method mapname mode difficulty 1 xs [] ;;
  Ok {| lb_method := lb_method instance; lb_mapname := lb_mapname instance;
        lb_mode := lb_mode instance; lb_difficulty := lb_difficulty instance;
        lb_total := lb_total instance; lb_raw := lb_raw instance;
        lb_date := lb_date instance; lb_season := lb_season instance;
        lb_player := lb_player instance; lb_scores := scores |}.

(** *** [Leaderboard.__getitem__] with a slice *)

(** CPython's [PySlice_Unpack] and [PySlice_AdjustIndices] for a slice
    [start:stop:step] over a sequence of length [len]: a zero step is a
    [ValueError]; missing bounds default by the sign of the step; negative
    bounds count from the end and bounds are clamped. *)
Definition slice_indices (len : Z) (start stop step : option Z) : result (Z * Z * Z) :=
  let st := match step with None => 1 | Some k => k end in
  if st =? 0 then Err ValueError else
  let adjust (v : Z) :=
    if v <? 0 then
      (if v + len <? 0 then (if st <? 0 then -1 else 0) else v + len)
    else if len <=? v then (if st <? 0 then len - 1 else len) else v in
  let b := match start with None => if st <? 0 then len - 1 else 0 | Some v => adjust v end in
  let e := match stop with None => if st <? 0 then -1 else len | Some v => adjust v end in
  Ok (b, e, st).

Definition slice_length (b e st : Z) : Z :=
  if st <? 0 then (if e <? b then (b - e - 1) / (- st) + 1 else 0)
  else (if b <? e then (e - b - 1) / st + 1 else 0).

Fixpoint take_steps {A} (l : list A) (i st : Z) (n : nat) : list A :=
  match n with
  | O => []
  | S n' =>
      match nth_error l (Z.to_nat i) with
      | Some x => x :: take_steps l (i + st) st n'
      | None => []
      end
  end.

(** [l[start:stop:step]]: a fresh list, [l] itself is left as it is. *)
Definition py_slice {A} (l : list A) (start stop step : option Z) : result (list A) :=
  idx <- slice_indices (Z.of_nat (length l)) start stop step ;;
  let '(b, e, st) := idx in
  Ok (take_steps l b st (Z.to_nat (slice_length b e st))).

Definition opt_to_pyval (o : option Z) : PyVal :=
  match o with None => PNone | Some z => PInt z end.

(** [Leaderboard.__getitem__(slice(start, stop, step))]: a new Leaderboard
    built from the parent's attributes, whose [_scores] is the sliced
    list. *)
Definition Leaderboard_getitem_slice (self : Leaderboard) (start stop step : option Z)
    : result Leaderboard :=
  lb <- Leaderboard_init (lb_method self) (lb_mapname self) (lb_mode self)
          (lb_difficulty self) (PInt (lb_total self)) (lb_raw self) (lb_date self)
          (lb_player self) (opt_to_pyval (lb_season self)) ;;
  scs <- py_slice (lb_scores self) start stop step ;;
  Ok {| lb_method := lb_method lb; lb_mapname := lb_mapname lb; lb_mode := lb_mode lb;
        lb_difficulty := lb_difficulty lb; lb_total := lb_total lb; lb_raw := lb_raw lb;
        lb_date := lb_date lb; lb_season := lb_season lb; lb_player := lb_player lb;
        lb_scores := scs |}.

(** ** core.py: argument checking *)

Definition LEVELS : list string :=
  [ "1.1"; "1.2"; "1.3"; "1.4"; "1.5"; "1.6"; "1.7"; "1.8"; "1.b1";
    "2.1"; "2.2"; "2.3"; "2.4"; "2.5"; "2.6"; "2.7"; "2.8"; "2.b1";
    "3.1"; "3.2"; "3.3"; "3.4"; "3.5"; "3.6"; "3.7"; "3.8"; "3.b1";
    "4.1"; "4.2"; "4.3"; "4.4"; "4.5"; "4.6"; "4.7"; "4.8"; "4.b1";
    "5.1"; "5.2"; "5.3"; "5.4"; "5.5"; "5.6"; "5.7"; "5.8"; "5.b1"; "5.b2";
    "6.1"; "6.2"; "6.3"; "6.4"; "6.5"; "rumble"; "dev"; "zecred";
    "DQ1"; "DQ3"; "DQ4"; "DQ5"; "DQ7"; "DQ8"; "DQ9"; "DQ10"; "DQ11"; "DQ12" ].

Definition str_in (s : string) (l : list string) : bool := existsb (String.eqb s) l.

(** [v in ("a", "b", ...)] for a tuple of strings. *)
Definition val_in (v : PyVal) (l : list string) : bool :=
  match v with PStr s => str_in s l | _ => false end.

(** The character class [[A-Z0-9]]. *)
Definition id_class (c : ascii) : bool :=
  let n := nat_of_ascii c in ((65 <=? n) && (n <=? 90) || (48 <=? n) && (n <=? 57))%nat.

Definition match_lit (c : ascii) (s : string) : option string :=
  match s with
  | String c' s' => if Ascii.eqb c c' then Some s' else None
  | EmptyString => None
  end.

(** [[A-Z0-9]{n}]. *)
Fixpoint match_class_n (n : nat) (s : string) : option string :=
  match n with
  | O => Some s
  | S n' =>
      match s with
      | String c s' => if id_class c then match_class_n n' s' else None
      | EmptyString => None
      end
  end.

Definition obind {A B} (o : option A) (f : A -> option B) : option B :=
  match o with Some a => f a | None => None end.

(** The group [([A-Z0-9]{4}-)]. *)
Definition match_group (s : string) : option string :=
  obind (match_class_n 4 s) (match_lit "-").

(** [ID_REGEX.match(s)] for [ID_REGEX = re.compile(r"U-([A-Z0-9]{4}-){2}[A-Z0-9]{6}")]:
    [re.match] anchors the pattern at the start of [s] only; the result is
    the text after the matched prefix.  The pattern has a single way to
    match, so no backtracking arises. *)
Definition ID_REGEX_match (s : string) : option string :=
  obind (match_lit "U" s) (fun r1 =>
  obind (match_lit "-" r1) (fun r2 =>
  obind (match_group r2) (fun r3 =>
  obind (match_group r3) (fun r4 =>
  match_class_n 6 r4)))).

(** [re.match] on a non-string argument raises [TypeError]. *)
Definition id_match (v : PyVal) : result bool :=
  match v with
  | PStr s => Ok (match ID_REGEX_match s with Some _ => true | None => false end)
  | _ => Err TypeError
  end.

(** [Session._kwarg_check]; [PNone] stands for an argument left out. *)
Definition _kwarg_check (mapname playerid mode difficulty : PyVal) : result unit :=
  _ <- (match mapname with
        | PNone => Ok tt
        | _ => if negb (str_in (py_str mapname) LEVELS) then
                 m <- str_concat "Invalid map: " mapname ;; Err (BadArgument m)
               else Ok tt
        end) ;;
  _ <- (match playerid with
        | PNone => Ok tt
        | _ => ok <- id_match playerid ;;
               if negb ok then
                 m <- str_concat "Invalid playerid: " playerid ;; Err (BadArgument m)
               else Ok tt
        end) ;;
  _ <- (match mode with
        | PNone => Ok tt
        | _ => if negb (val_in mode ["score"; "waves"]) then
                 m <- str_concat "Invalid mode (must be either 'score' or 'waves'): " mode ;;
                 Err (BadArgument m)
               else Ok tt
        end) ;;
  match difficulty with
  | PNone => Ok tt
  | _ => if negb (val_in difficulty ["EASY"; "NORMAL"; "ENDLESS_I"]) then
           m <- str_concat
                  "Invalid difficulty (must be one of 'EASY', 'NORMAL', 'ENDLESS_I': "
                  difficulty ;;
           Err (BadArgument m)
         else Ok tt
  end.

(** ** Calendar dates: [strftime("%Y-%m-%d")] and [strptime(s, "%Y-%m-%d")] *)

Definition pad2 (z : Z) : string :=
  if z <? 10 then "0" ++ z_to_string z else z_to_string z.

Definition pad4 (z : Z) : string :=
  if z <? 10 then "000" ++ z_to_string z
  else if z <? 100 then "00" ++ z_to_string z
  else if z <? 1000 then "0" ++ z_to_string z
  else z_to_string z.

(** [datetime(y, m, d).strftime("%Y-%m-%d")]. *)
Definition strftime_ymd (y m d : Z) : string := pad4 y ++ "-" ++ pad2 m ++ "-" ++ pad2 d.

(** The proleptic Gregorian date of a day count since 1970-01-01. *)
Definition civil_from_days (days : Z) : Z * Z * Z :=
  let z := days + 719468 in
  let era := z / 146097 in
  let doe := z - era * 146097 in
  let yoe := (doe - doe / 1460 + doe / 36524 - doe / 146096) / 365 in
  let doy := doe - (365 * yoe + yoe / 4 - yoe / 100) in
  let mp := (5 * doy + 2) / 153 in
  let d := doy - (153 * mp + 2) / 5 + 1 in
  let m := if mp <? 10 then mp + 3 else mp - 9 in
  let y := yoe + era * 400 in
  (if m <=? 2 then y + 1 else y, m, d).

(** [datetime.datetime.utcnow().strftime("%Y-%m-%d")] at POSIX time [now]. *)
Definition utc_today (now : Z) : string :=
  let '(y, m, d) := civil_from_days (now / 86400) in strftime_ymd y m d.

Definition is_leap (y : Z) : bool :=
  (y mod 4 =? 0) && negb (y mod 100 =? 0) || (y mod 400 =? 0).

Definition days_in_month (y m : Z) : Z :=
  match m with
  | 2 => if is_leap y then 29 else 28
  | 4 | 6 | 9 | 11 => 30
  | _ => 31
  end.

Definition digit_val (c : ascii) : Z := Z.of_nat (nat_of_ascii c - 48).

Definition in_range (c lo hi : ascii) : bool :=
  ((nat_of_ascii lo <=? nat_of_ascii c) && (nat_of_ascii c <=? nat_of_ascii hi))%nat.

(** [%Y] is [\d\d\d\d]. *)
Definition match_Y (s : string) : option (Z * string) :=
  match s with
  | String a (String b (String c (String d r))) =>
      if is_digit a && is_digit b && is_digit c && is_digit d
      then Some (digit_val a * 1000 + digit_val b * 100 + digit_val c * 10 + digit_val d, r)
      else None
  | _ => None
  end.

(** The alternatives of [%m], [1[0-2]|0[1-9]|[1-9]], in the order the
    regular expression tries them, with the text each leaves. *)
Definition alts_m (s : string) : list (Z * string) :=
  (match s with
   | String "1" (String c r) => if in_range c "0" "2" then [(10 + digit_val c, r)] else []
   | _ => [] end) ++
  (match s with
   | String "0" (String c r) => if in_range c "1" "9" then [(digit_val c, r)] else []
   | _ => [] end) ++
  (match s with
   | String c r => if in_range c "1" "9" then [(digit_val c, r)] else []
   | _ => [] end).

(** The alternatives of [%d], [3[01]|[12]\d|0[1-9]|[1-9]| [1-9]]. *)
Definition alts_d (s : string) : list (Z * string) :=
  (match s with
   | String "3" (String c r) => if in_range c "0" "1" then [(30 + digit_val c, r)] else []
   | _ => [] end) ++
  (match s with
   | String a (String c r) =>
       if in_range a "1" "2" && is_digit c then [(10 * digit_val a + digit_val c, r)] else []
   | _ => [] end) ++
  (match s with
   | String "0" (String c r) => if in_range c "1" "9" then [(digit_val c, r)] else []
   | _ => [] end) ++
  (match s with
   | String c r => if in_range c "1" "9" then [(digit_val c, r)] else []
   | _ => [] end) ++
  (match s with
   | String " " (String c r) => if in_range c "1" "9" then [(digit_val c, r)] else []
   | _ => [] end).

Fixpoint find_first {A B} (f : A -> option B) (l : list A) : option B :=
  match l with
  | [] => None
  | x :: l' => match f x with Some b => Some b | None => find_first f l' end
  end.

(** [datetime.datetime.strptime(s, "%Y-%m-%d")]: [None] is the
    [ValueError] it raises.  The regular expression [_strptime] builds is
    matched at the start of [s] (leftmost alternative first); text left over
    ("unconverted data remains"), year 0 or a day beyond the month is a
    [ValueError]. *)
Definition strptime_ymd (s : string) : option (Z * Z * Z) :=
  match match_Y s with
  | None => None
  | Some (y, r) =>
      match match_lit "-" r with
      | None => None
      | Some r1 =>
          match find_first
                  (fun mr => match match_lit "-" (snd mr) with
                             | Some r3 => match alts_d r3 with
                                          | dr :: _ => Some (fst mr, fst dr, snd dr)
                                          | [] => None
                                          end
                             | None => None
                             end) (alts_m r1) with
          | None => None
          | Some (m, d, rest) =>
              if String.eqb rest "" && (1 <=? y) && (d <=? days_in_month y m)
              then Some (y, m, d) else None
          end
      end
  end.

(** ** More string helpers for the profile page *)

Fixpoint split_fuel (fuel : nat) (sep s cur : string) : list string :=
  match fuel with
  | O => [cur ++ s]
  | S f =>
      match s with
      | EmptyString => [cur]
      | String c s' =>
          if starts_with sep s
          then cur :: split_fuel f sep (drop_chars (String.length sep) s) EmptyString
          else split_fuel f sep s' (cur ++ String c EmptyString)
      end
  end.

(** [s.split(sep)] for a non-empty [sep]. *)
Definition split_str (sep s : string) : list string :=
  split_fuel (S (String.length s)) sep s EmptyString.

(** [l[i]] with Python's negative indices; [IndexError] out of range. *)
Definition py_nth {A} (l : list A) (i : Z) : result A :=
  let j := if i <? 0 then Z.of_nat (length l) + i else i in
  if j <? 0 then Err IndexError
  else match nth_error l (Z.to_nat j) with Some x => Ok x | None => Err IndexError end.

(** [s[start:stop]] on a string. *)
Definition str_slice (s : string) (start stop : option Z) : string :=
  match py_slice (list_ascii_of_string s) start stop None with
  | Ok cs => string_of_list_ascii cs
  | Err _ => EmptyString
  end.

Fixpoint contains (sub s : string) : bool :=
  starts_with sub s ||
  match s with
  | EmptyString => false
  | String _ s' => contains sub s'
  end.

(** [utils.try_int]: [int(string)], or [default] on [ValueError]. *)
Definition try_int (s : string) (default : Z) : Z :=
  match py_int_of_string s with Ok z => z | Err _ => default end.

Definition lower (c : ascii) : ascii :=
  let n := nat_of_ascii c in
  if ((65 <=? n) && (n <=? 90))%nat then ascii_of_nat (n + 32) else c.

Fixpoint lower_str (s : string) : string :=
  match s with
  | EmptyString => EmptyString
  | String c s' => String (lower c) (lower_str s')
  end.

(** [\s+] (greedy; the text after it never starts with white space in the
    patterns below, so no backtracking into it arises). *)
Fixpoint match_spaces_fuel (fuel : nat) (s : string) : string :=
  match fuel with
  | O => s
  | S f =>
      match s with
      | String c s' =>
          if is_space c || Nat.eqb (nat_of_ascii c) 11 || Nat.eqb (nat_of_ascii c) 12
          then match_spaces_fuel f s' else s
      | EmptyString => s
      end
  end.

Definition match_spaces (s : string) : option string :=
  let r := match_spaces_fuel (String.length s) s in
  if Nat.eqb (String.length r) (String.length s) then None else Some r.

(** The month names of [%B] in the C locale, longest first as [_strptime]
    orders its alternatives; matching ignores case. *)
Definition month_names : list (string * Z) :=
  [("september", 9); ("december", 12); ("february", 2); ("november", 11);
   ("january", 1); ("october", 10); ("august", 8); ("april", 4);
   ("march", 3); ("june", 6); ("july", 7); ("may", 5)].

Definition alts_B (s : string) : list (Z * string) :=
  flat_map (fun nm => if starts_with (fst nm) (lower_str s)
                      then [(snd nm, drop_chars (String.length (fst nm)) s)] else [])
           month_names.

(** [datetime.datetime.strptime(s, "%d %B %Y")]; [None] is the
    [ValueError]. *)
Definition strptime_dBY (s : string) : option (Z * Z * Z) :=
  let after_day (dr : Z * string) : option (Z * Z * Z * string) :=
    match match_spaces (snd dr) with
    | None => None
    | Some r1 =>
        find_first
          (fun mr => match match_spaces (snd mr) with
                     | None => None
                     | Some r2 => match match_Y r2 with
                                  | Some (y, r3) => Some (fst dr, fst mr, y, r3)
                                  | None => None
                                  end
                     end) (alts_B r1)
    end in
  match find_first after_day (alts_d s) with
  | None => None
  | Some (d, m, y, rest) =>
      if String.eqb rest "" && (1 <=? y) && (d <=? days_in_month y m)
      then Some (y, m, d) else None
  end.

(** ** The profile page and [Session._parse_player] *)

(** The parsed profile page, as the selector queries of [_parse_player] see
    it (the HTML parser itself is bs4's).  [None] is a [select_one] that
    found nothing; a missing attribute is [None] as well. *)
Record Img := mkImg { img_src : option string; img_color : option string }.

(** A [div[width="800"][height="40"]]: the texts of its labels, and whether
    it has a [label[i18n="not_ranked"]]. *)
Record Row := mkRow { row_labels : list string; row_not_ranked : bool }.

(** The season box: the text of its first label, and its level div with
    that div's [data] attribute. *)
Record SeasonBox := mkSeasonBox {
  sb_label : option string; sb_level_div : option (option string) }.

Record ProfileDoc := mkProfileDoc {
  d_nickname : option string;           (** [label:not([i18n])], its text *)
  d_totals : option (list string);      (** the totals div, its labels' texts *)
  d_comments : list string;             (** every HTML comment *)
  d_xp : option (option string);        (** the XP div, its first label's text *)
  d_season : option SeasonBox;          (** the season XP div *)
  d_rows : list Row;                    (** every per-level row div *)
  d_badges : list (list Img);           (** every badge div, its imgs *)
  d_tables : list (list (option string)) (** every footer table, [.string] of its labels *)
}.

(** The values [_parse_player] stores in its dict [t], key by key. *)
Record ProfileFields := mkProfileFields {
  f_playerid : string; f_nickname : string;
  f_total_score : PyVal; f_total_rank : PyVal; f_total_top : PyVal;
  f_level : Z; f_xp : Z; f_xp_max : Z;
  f_season_xp : Z; f_season_xp_max : Z; f_season_level : Z;
  f_levels : list (string * Score);
  f_badges : list (string * (string * string));
  f_replays : Z; f_issues : Z; f_created_at : string }.

Definition set_key {A} (k : string) (v : A) (d : list (string * A)) : list (string * A) :=
  if existsb (fun e => String.eqb (fst e) k) d
  then map (fun e => if String.eqb (fst e) k then (k, v) else e) d
  else (d ++ [(k, v)])%list.

Definition opt_attr {A} (o : option A) (e : Exc) : result A :=
  match o with Some a => Ok a | None => Err e end.

(** The [for x in comments] loop with its [else] clause. *)
Definition parse_level (comments : list string) : result Z :=
  match find (contains "Level:") comments with
  | None => Ok 1
  | Some x =>
      p <- py_nth (split_str ">" x) 3 ;;
      q <- py_nth (split_str "<" p) 0 ;;
      py_int_of_string q
  end.

(** One per-level row; [level] and [nickname] are [t["level"]] and
    [t["nickname"]]. *)
Definition parse_row (playerid nickname : string) (level_no : Z) (x : Row)
    : result (string * Score) :=
  let level_data := row_labels x in
  level <- py_nth level_data 0 ;;
  vals <- (if negb (row_not_ranked x) then
             l2 <- py_nth level_data 2 ;; rank <- py_int_of_string (replace_all "," "" l2) ;;
             l1 <- py_nth level_data 1 ;; score <- py_int_of_string (replace_all "," "" l1) ;;
             l3 <- py_nth level_data 3 ;;
             total <- py_int_of_string (replace_all "," "" (replace_all "/ " "" l3)) ;;
             top <- py_nth level_data (-1) ;;
             Ok (rank, score, total, top)
           else Ok (0, 0, 0, "-%")) ;;
  let '(rank, score, total, top) := vals in
  sc <- Score_init [PStr "player"; PStr level; PStr "score"; PStr "NORMAL"; PStr playerid]
          [("rank", PInt rank); ("score", PInt score); ("total", PInt total);
           ("top", PStr top); ("level", PInt level_no); ("nickname", PStr nickname)] ;;
  Ok (level, sc).

Fixpoint parse_rows (playerid nickname : string) (level_no : Z) (rows : list Row)
    (levels : list (string * Score)) : result (list (string * Score)) :=
  match rows with
  | [] => Ok levels
  | x :: rows' =>
      e <- parse_row playerid nickname level_no x ;;
      parse_rows playerid nickname level_no rows' (set_key (fst e) (snd e) levels)
  end.

Definition rarities : list string :=
  ["not-received"; "common"; "rare"; "very-rare"; "epic"; "legendary"; "supreme"; "artifact"].

(** One badge div. *)
Definition parse_badge (icos : list string) (imgs : list Img)
    (badges : list (string * (string * string))) : result (list (string * (string * string))) :=
  img0 <- py_nth imgs 0 ;;
  src0 <- opt_attr (img_src img0) KeyError ;;
  rar <- py_nth (split_str "bg-" src0) 1 ;;
  if str_in rar rarities then
    img1 <- py_nth imgs 1 ;;
    src1 <- opt_attr (img_src img1) KeyError ;;
    ico <- py_nth (split_str "icon-" src1) 1 ;;
    if str_in ico (app icos [("youtube-author-" ++ rar)%string;
                             ("season-level-" ++ rar ++ "-2")%string])
       || String.eqb (str_slice ico None (Some 8)) "season-1"
    then
      imgl <- py_nth imgs (-1) ;;
      col <- opt_attr (img_color imgl) KeyError ;;
      Ok (set_key ico (rar, col) badges)
    else Ok badges
  else Ok badges.

Fixpoint parse_badges (icos : list string) (divs : list (list Img))
    (badges : list (string * (string * string))) : result (list (string * (string * string))) :=
  match divs with
  | [] => Ok badges
  | x :: divs' => b <- parse_badge icos x badges ;; parse_badges icos divs' b
  end.

Definition label_string (labels : list (option string)) (i : Z) : result string :=
  l <- py_nth labels i ;; opt_attr l AttributeError.

(** The body of [Session._parse_player] up to its last line: the values of
    the dict [t].  The keys of [t] are set in the same order on every path,
    so [t] is [player_kwargs] of the returned fields. *)
Definition parse_player_fields (doc : ProfileDoc) (playerid : string) : result ProfileFields :=
  nickname <- opt_attr (d_nickname doc) AttributeError ;;
  let totals :=
    match d_totals doc with
    | None => Ok (PInt 0, PInt 0, PInt 0)
    | Some labels =>
        if (4 <=? length labels)%nat then
          l1 <- py_nth labels 1 ;; l2 <- py_nth labels 2 ;; l3 <- py_nth labels 3 ;;
          Ok (PInt (try_int (replace_all "," "" l1) 0),
              PInt (try_int (replace_all "," "" l2) 0),
              PStr (replace_all "- Top " "" l3))
        else Ok (PInt 0, PInt 0, PStr "0%")
    end in
  tot <- totals ;;
  let '(total_score, total_rank, total_top) := tot in
  level <- parse_level (d_comments doc) ;;
  xp_div <- opt_attr (d_xp doc) (BadArgument ("Invalid playerid: " ++ playerid)) ;;
  xp_text <- opt_attr xp_div AttributeError ;;
  let xp_data := split_str " / " xp_text in
  x0 <- py_nth xp_data 0 ;; xp <- py_int_of_string x0 ;;
  x1 <- py_nth xp_data 1 ;; xp_max <- py_int_of_string x1 ;;
  season <- (match d_season doc with
             | None => Ok (0, 500, 1)
             | Some sb =>
                 txt <- opt_attr (sb_label sb) AttributeError ;;
                 let borders := split_str " / " txt in
                 b0 <- py_nth borders 0 ;; season_xp <- py_int_of_string b0 ;;
                 b1 <- py_nth borders 1 ;; season_xp_max <- py_int_of_string b1 ;;
                 season_level <- (match sb_level_div sb with
                                  | None => Ok 1
                                  | Some data =>
                                      dv <- opt_attr data KeyError ;;
                                      p <- py_nth (split_str ":" dv) 1 ;;
                                      py_int_of_string p
                                  end) ;;
                 Ok (season_xp, season_xp_max, season_level)
             end) ;;
  let '(season_xp, season_xp_max, season_level) := season in
  levels <- parse_rows playerid nickname level (tl (d_rows doc)) [] ;;
  let icos := ["daily-game"; "invited-players"; "killed-enemies"; "mined-resources";
               "skillful"; "of-merit"; "beta-tester-season-2";
               "high-leveled-" ++ z_to_string (if level <? 100 then level / 10 else 10)] in
  badges <- parse_badges icos (d_badges doc) [] ;;
  labels <- py_nth (d_tables doc) (-1) ;;
  r <- label_string labels (-3) ;;
  let replays_l := split_str " " r in
  replays <- (if negb (Nat.eqb (length replays_l) 4) then Ok 0
              else w <- py_nth replays_l 3 ;; py_int_of_string w) ;;
  i <- label_string labels (-2) ;;
  let issues_l := split_str " " i in
  issues <- (if negb (Nat.eqb (length issues_l) 6) then Ok 0
             else w <- py_nth issues_l 0 ;; py_int_of_string (str_slice w (Some 3) None)) ;;
  c <- label_string labels (-1) ;;
  after <- py_nth (split_str "ned " c) 1 ;;
  let sp := split_str " " after in
  sp0 <- py_nth sp 0 ;;
  let day := if Nat.eqb (String.length (str_slice sp0 None (Some 2))) 2
             then str_slice sp0 None (Some (-2))
             else "0" ++ str_slice sp0 None (Some 2) in
  sp2 <- py_nth sp (-2) ;; sp1 <- py_nth sp (-1) ;;
  created <- opt_attr (strptime_dBY (day ++ " " ++ sp2 ++ " " ++ sp1)) ValueError ;;
  let '(cy, cm, cd) := created in
  Ok (mkProfileFields playerid nickname total_score total_rank total_top level xp xp_max
        season_xp season_xp_max season_level levels badges replays issues
        (strftime_ymd cy cm cd)).

(** ** player.py *)

(** The values a [Player] can be built from: plain values, the per-level
    Score dict and the badge dict. *)
Inductive Obj : Type :=
| OVal (v : PyVal)
| OScores (m : list (string * Score))
| OBadges (m : list (string * (string * string))).

(** The dict [t] of [_parse_player], in its key order. *)
Definition player_kwargs (f : ProfileFields) : list (string * Obj) :=
  [("playerid", OVal (PStr (f_playerid f))); ("nickname", OVal (PStr (f_nickname f)));
   ("total_score", OVal (f_total_score f)); ("total_rank", OVal (f_total_rank f));
   ("total_top", OVal (f_total_top f)); ("level", OVal (PInt (f_level f)));
   ("xp", OVal (PInt (f_xp f))); ("xp_max", OVal (PInt (f_xp_max f)));
   ("season_xp", OVal (PInt (f_season_xp f)));
   ("season_xp_max", OVal (PInt (f_season_xp_max f)));
   ("season_level", OVal (PInt (f_season_level f)));
   ("levels", OScores (f_levels f)); ("badges", OBadges (f_badges f));
   ("replays", OVal (PInt (f_replays f))); ("issues", OVal (PInt (f_issues f)));
   ("created_at", OVal (PStr (f_created_at f)))].

(** The state of [_daily_quest] and [_skill_point]: the [MISSING] sentinel
    before any fetch, then what the fetch stored ([None] or a Score). *)
Inductive Lazy : Type :=
| MISSING
| Fetched (o : option Score).

Record Player := mkPlayer {
  p_beta : Obj; p_playerid : Obj; p_nickname : Obj; p_levels : Obj; p_level : Obj;
  p_xp : Obj; p_xp_max : Obj; p_season_level : Obj; p_season_xp : Obj;
  p_season_xp_max : Obj; p_badges : Obj; p_total_score : Z; p_total_rank : Z;
  p_total_top : Obj; p_replays : Obj; p_issues : Obj; p_created_at : Obj;
  p_daily_quest : Lazy; p_skill_point : Lazy }.

Definition Player_params : list (Param Obj) :=
  [req "beta"; req "playerid"; req "nickname";
   kwreq "levels"; kwreq "level"; kwreq "xp"; kwreq "xp_max"; kwreq "season_level";
   kwreq "season_xp"; kwreq "season_xp_max"; kwreq "badges"; kwreq "total_score";
   kwreq "total_rank"; kwreq "total_top"; kwreq "replays"; kwreq "issues";
   kwreq "created_at"].

Definition obj_int (o : Obj) : result Z :=
  match o with OVal v => py_int v | _ => Err TypeError end.

(** [Player.__init__]. *)
Definition Player_init (pos : list Obj) (kw : list (string * Obj)) : result Player :=
  args <- bind_call Player_params pos kw ;;
  match args with
  | [beta; playerid; nickname; levels; level; xp; xp_max; season_level; season_xp;
     season_xp_max; badges; total_score; total_rank; total_top; replays; issues;
     created_at] =>
      ts <- obj_int total_score ;;
      tr <- obj_int total_rank ;;
      Ok (mkPlayer beta playerid nickname levels level xp xp_max season_level season_xp
                   season_xp_max badges ts tr total_top replays issues created_at
                   MISSING MISSING)
  | _ => Err TypeError
  end.

(** [Session._parse_player]: its last line calls [Player] with the dict [t] as keywords. *)
Definition _parse_player (doc : ProfileDoc) (playerid : string) : result Player :=
  f <- parse_player_fields doc playerid ;;
  Player_init [] (player_kwargs f).

(** The [daily_quest] and [skill_point] properties. *)
Definition Player_daily_quest (p : Player) : result (option Score) :=
  match p_daily_quest p with
  | MISSING => Err (InfinitodeError
                 "This score has not been fetched yet. Use ~.fetch_daily_quest first.")
  | Fetched o => Ok o
  end.

Definition Player_skill_point (p : Player) : result (option Score) :=
  match p_skill_point p with
  | MISSING => Err (InfinitodeError
                 "This score has not been fetched yet. Use ~.fetch_skill_point first.")
  | Fetched o => Ok o
  end.

(** ** core.py: the Session *)

(** An outgoing request: verb, URL and form data. *)
Record Request := mkRequest { rq_verb : string; rq_url : string; rq_data : list (string * PyVal) }.

(** A response to a POST: HTTP status and the result of [r.json()] ([None]
    when the body is not JSON). *)
Record Response := mkResponse { status : Z; json : option PyVal }.

(** A response to a GET of a profile page: HTTP status and the parsed page. *)
Record PageResponse := mkPageResponse { page_status : Z; page_doc : ProfileDoc }.

(** The state of a [Session]: the clock read by [time.time()], the requests
    sent through the client so far, the warnings logged, and the
    [_cooldown] / cached leaderboards of the operations that cache. *)
Record SessionState := mkSessionState {
  clock : Z;
  sent : list Request;
  warnings : list string;
  cd_Leaderboards : list (string * Z);
  c_Leaderboards : list (string * Leaderboard);
  cd_DailyQuestLeaderboards : list (string * Z);
  c_DailyQuestLeaderboards : list (string * Leaderboard);
  cd_SkillPointLeaderboard : Z;
  c_SkillPointLeaderboard : option Leaderboard }.

(** [Session.__init__]: every cooldown 0, every cache empty. *)
Definition new_session (now : Z) : SessionState :=
  mkSessionState now [] [] [] [] [] [] 0 None.

Definition log_request (rq : Request) (s : SessionState) : SessionState :=
  mkSessionState (clock s) (sent s ++ [rq])%list (warnings s) (cd_Leaderboards s)
    (c_Leaderboards s) (cd_DailyQuestLeaderboards s) (c_DailyQuestLeaderboards s)
    (cd_SkillPointLeaderboard s) (c_SkillPointLeaderboard s).

Definition log_warning (w : string) (s : SessionState) : SessionState :=
  mkSessionState (clock s) (sent s) (warnings s ++ [w])%list (cd_Leaderboards s)
    (c_Leaderboards s) (cd_DailyQuestLeaderboards s) (c_DailyQuestLeaderboards s)
    (cd_SkillPointLeaderboard s) (c_SkillPointLeaderboard s).

(** [self._Leaderboards[key] = lb; self._cooldown["Leaderboards"][key] = time.time()]. *)
Definition store_Leaderboards (key : string) (lb : Leaderboard) (s : SessionState) : SessionState :=
  mkSessionState (clock s) (sent s) (warnings s)
    (set_key key (clock s) (cd_Leaderboards s)) (set_key key lb (c_Leaderboards s))
    (cd_DailyQuestLeaderboards s) (c_DailyQuestLeaderboards s)
    (cd_SkillPointLeaderboard s) (c_SkillPointLeaderboard s).

Definition store_DailyQuestLeaderboards (date : string) (lb : Leaderboard) (s : SessionState)
    : SessionState :=
  mkSessionState (clock s) (sent s) (warnings s) (cd_Leaderboards s) (c_Leaderboards s)
    (set_key date (clock s) (cd_DailyQuestLeaderboards s))
    (set_key date lb (c_DailyQuestLeaderboards s))
    (cd_SkillPointLeaderboard s) (c_SkillPointLeaderboard s).

Definition store_SkillPointLeaderboard (lb : Leaderboard) (s : SessionState) : SessionState :=
  mkSessionState (clock s) (sent s) (warnings s) (cd_Leaderboards s) (c_Leaderboards s)
    (cd_DailyQuestLeaderboards s) (c_DailyQuestLeaderboards s) (clock s) (Some lb).

(** The Session operations: state passing with exceptions. *)
Definition M (A : Type) : Type := SessionState -> result A * SessionState.

Definition mret {A} (a : A) : M A := fun s => (Ok a, s).
Definition mlift {A} (r : result A) : M A := fun s => (r, s).
Definition mbind {A B} (m : M A) (f : A -> M B) : M B :=
  fun s => let (r, s') := m s in
           match r with Ok a => f a s' | Err e => (Err e, s') end.
Definition get_state : M SessionState := fun s => (Ok s, s).
Definition modify (f : SessionState -> SessionState) : M unit := fun s => (Ok tt, f s).

Notation "x <-- m ;;; k" := (mbind m (fun x => k))
  (at level 61, m at next level, right associativity).

Definition dict_get {A} (k : string) (d : list (string * A)) (default : A) : A :=
  match lookup k d with Some v => v | None => default end.

(** [self._post]'s handling of the response: [raise_for_status] raises for
    a status of 400 or more; then [payload["status"] == "success"]. *)
Definition post_result (r : Response) : result PyVal :=
  if negb (status r <? 400) then Err (APIError "Something went wrong. Try again later")
  else match json r with
       | None => Err ContentTypeError
       | Some payload =>
           st <- getitem payload "status" ;;
           if val_in st ["success"] then Ok payload
           else msg <- getitem payload "message" ;;
                Err (APIError ("Error response from server: " ++ py_str msg))
       end.

(** A datetime, or any other object given as [date]. *)
Inductive DateArg : Type :=
| ANone
| ADatetime (y m d : Z)
| AVal (v : PyVal).

(** The POST request of [Session._post]. *)
Definition api_request (arg : string) (data : list (string * PyVal)) : Request :=
  mkRequest "POST" ("https://infinitode.prineside.com/?m=api&a=" ++ arg
                    ++ "&apiv=1&g=com.prineside.tdi2&v=282") data.

(** The profile page URL of [Session.player]. *)
Definition profile_url (playerid : PyVal) : string :=
  "https://infinitode.prineside.com/xdx/index.php?url=profile/view&id=" ++ py_str playerid.

Section Session.

(** The HTTP client: the response to each POST, and to each GET. *)
Variable post_transport : Request -> Response.
Variable get_transport : string -> PageResponse.

(** [Session._post]. *)
Definition _post (arg : string) (data : list (string * PyVal)) : M PyVal :=
  fun s =>
    let rq := api_request arg data in
    (post_result (post_transport rq), log_request rq s).

Definition basic_levels_data (mapname playerid mode difficulty : PyVal) : list (string * PyVal) :=
  [("gamemode", PStr "BASIC_LEVELS"); ("difficulty", difficulty); ("playerid", playerid);
   ("mapname", PStr (py_str mapname)); ("mode", mode)].

(** [Session.leaderboards_rank]. *)
Definition leaderboards_rank (mapname playerid mode difficulty : PyVal) : M Score :=
  _ <-- mlift (_kwarg_check mapname playerid mode difficulty) ;;;
  payload <-- _post "getLeaderboardsRank" (basic_levels_data mapname playerid mode difficulty) ;;;
  mlift (Score_from_payload (PStr "leaderboards_rank") mapname mode difficulty playerid payload).

(** [Session.leaderboards]. *)
Definition leaderboards (mapname playerid mode difficulty : PyVal) : M Leaderboard :=
  _ <-- mlift (_kwarg_check mapname playerid mode difficulty) ;;;
  let key := py_str difficulty ++ py_str mode ++ py_str mapname in
  s <-- get_state ;;;
  if negb (truthy playerid) && (clock s <? dict_get key (cd_Leaderboards s) 0 + 60) then
    mlift (opt_attr (lookup key (c_Leaderboards s)) KeyError)
  else
    payload <-- _post "getLeaderboards" (basic_levels_data mapname playerid mode difficulty) ;;;
    lb <-- mlift (Leaderboard_from_payload (PStr "leaderboards") mapname mode difficulty
                   playerid payload PNone PNone) ;;;
    match lb_player lb with
    | None => _ <-- modify (store_Leaderboards key lb) ;;; mret lb
    | Some _ => mret lb
    end.

(** [Session.runtime_leaderboards]. *)
Definition runtime_leaderboards (mapname playerid mode difficulty : PyVal) : M Leaderboard :=
  _ <-- mlift (_kwarg_check mapname playerid mode difficulty) ;;;
  payload <-- _post "getRuntimeLeaderboards"
                (basic_levels_data mapname playerid mode difficulty) ;;;
  mlift (Leaderboard_from_payload (PStr "runtime_leaderboards") mapname mode difficulty
           playerid payload PNone PNone).

(** [Session.skill_point_leaderboard]. *)
Definition skill_point_leaderboard (playerid : PyVal) : M Leaderboard :=
  s <-- get_state ;;;
  let fetch :=
    payload <-- _post "getSkillPointLeaderboard" [("playerid", playerid)] ;;;
    lb <-- mlift (Leaderboard_from_payload (PStr "skill_point_leaderboard") (PStr "SP")
                   (PStr "score") (PStr "NORMAL") playerid payload PNone PNone) ;;;
    match lb_player lb with
    | None => _ <-- modify (store_SkillPointLeaderboard lb) ;;; mret lb
    | Some _ => mret lb
    end in
  match playerid with
  | PNone =>
      if clock s <? cd_SkillPointLeaderboard s + 60
      then mlift (opt_attr (c_SkillPointLeaderboard s) AttributeError)
      else fetch
  | _ => _ <-- mlift (_kwarg_check PNone playerid PNone PNone) ;;; fetch
  end.

(** The date handling at the top of [Session.daily_quest_leaderboards]:
    [None] becomes today's UTC date, a datetime is formatted, any other
    value goes through [strptime], and its [ValueError] is caught: the
    warning is logged when [warning == True] and today's UTC date is used. *)
Definition normalize_date (date : DateArg) (warning : bool) : M string :=
  fun s =>
    match date with
    | ANone => (Ok (utc_today (clock s)), s)
    | ADatetime y m d => (Ok (strftime_ymd y m d), s)
    | AVal (PStr str) =>
        match strptime_ymd str with
        | Some _ => (Ok str, s)
        | None =>
            (Ok (utc_today (clock s)),
             if warning
             then log_warning ("Invalid date in daily_quest_leaderboards (Use YYYY-MM-DD format): "
                               ++ str) s
             else s)
        end
    | AVal _ => (Err TypeError, s)
    end.

(** [Session.daily_quest_leaderboards]. *)
Definition daily_quest_leaderboards (date : DateArg) (playerid : PyVal) (warning : bool)
    : M Leaderboard :=
  d <-- normalize_date date warning ;;;
  s <-- get_state ;;;
  if negb (truthy playerid) && (clock s <? dict_get d (cd_DailyQuestLeaderboards s) 0 + 60)
  then mlift (opt_attr (lookup d (c_DailyQuestLeaderboards s)) KeyError)
  else
    _ <-- mlift (match playerid with
                 | PNone => Ok tt
                 | _ => _kwarg_check PNone playerid PNone PNone
                 end) ;;;
    payload <-- _post "getDailyQuestLeaderboards" [("date", PStr d); ("playerid", playerid)] ;;;
    lb <-- mlift (Leaderboard_from_payload (PStr "daily_quest_leaderboards") (PStr "DQ")
                   (PStr "score") (PStr "NORMAL") playerid payload (PStr d) PNone) ;;;
    match lb_player lb with
    | None => _ <-- modify (store_DailyQuestLeaderboards d lb) ;;; mret lb
    | Some _ => mret lb
    end.

(** [Session.player]: after the argument check, a GET of the profile page;
    a status of 400 or more is [APIError("Bad Gateway.")], and every
    exception of [_parse_player] becomes [BadArgument]. *)
Definition player (playerid : PyVal) : M Player :=
  _ <-- mlift (_kwarg_check PNone playerid PNone PNone) ;;;
  let url := profile_url playerid in
  r <-- (fun s => (Ok (get_transport url), log_request (mkRequest "GET" url []) s)) ;;;
  if negb (page_status r <? 400) then mlift (Err (APIError "Bad Gateway."))
  else
    match _parse_player (page_doc r) (py_str playerid) with
    | Ok p => mret p
    | Err _ => mlift (m <- str_concat "Invalid playerid: " playerid ;; Err (BadArgument m))
    end.

End Session.

(** ** Lazily fetched Scores of a Player *)

Definition with_daily_quest (p : Player) (v : Lazy) : Player :=
  mkPlayer (p_beta p) (p_playerid p) (p_nickname p) (p_levels p) (p_level p) (p_xp p)
    (p_xp_max p) (p_season_level p) (p_season_xp p) (p_season_xp_max p) (p_badges p)
    (p_total_score p) (p_total_rank p) (p_total_top p) (p_replays p) (p_issues p)
    (p_created_at p) v (p_skill_point p).

Definition with_skill_point (p : Player) (v : Lazy) : Player :=
  mkPlayer (p_beta p) (p_playerid p) (p_nickname p) (p_levels p) (p_level p) (p_xp p)
    (p_xp_max p) (p_season_level p) (p_season_xp p) (p_season_xp_max p) (p_badges p)
    (p_total_score p) (p_total_rank p) (p_total_top p) (p_replays p) (p_issues p)
    (p_created_at p) (p_daily_quest p) v.

(** [if self._daily_quest:]: [MISSING] and [None] are falsy, a Score is
    truthy. *)
Definition lazy_truthy (v : Lazy) : bool :=
  match v with Fetched (Some _) => true | _ => false end.

(** The signatures of [Session.daily_quest_leaderboards] and
    [Session.skill_point_leaderboard] (after [self]). *)
Definition daily_quest_leaderboards_params : list (Param Obj) :=
  [mkParam "date" false (Some (OVal PNone)); mkParam "playerid" false (Some (OVal PNone));
   mkParam "warning" false (Some (OVal (PBool true)))].

Definition skill_point_leaderboard_params : list (Param Obj) :=
  [mkParam "playerid" false (Some (OVal PNone))].

(** [warning == True]. *)
Definition eq_True (v : PyVal) : bool :=
  match v with PBool b => b | PInt 1 => true | _ => false end.

(** [Player.fetch_daily_quest]: the Session is [None] or the state of a
    Session.  The result, the updated Player and the Session state. *)
Definition fetch_daily_quest (post : Request -> Response) (self : Player) (session : option SessionState)
    : result (option Score) * Player * option SessionState :=
  if lazy_truthy (p_daily_quest self) then
    (Player_daily_quest self, self, session)
  else
    match session with
    | None =>
        match p_daily_quest self with
        | Fetched None => (Ok None, self, None)
        | _ => (Err (InfinitodeError
                       "You need to provide a Session to fetch the daily quest score."),
                self, None)
        end
    | Some s =>
        match bind_call daily_quest_leaderboards_params []
                [("playerid", p_playerid self); ("beta", p_beta self)] with
        | Err e => (Err e, self, Some s)
        | Ok [OVal date; OVal pid; OVal warning] =>
            let date' := match date with PNone => ANone | v => AVal v end in
            match daily_quest_leaderboards post date' pid (eq_True warning) s with
            | (Ok lb, s') =>
                let self' := with_daily_quest self (Fetched (lb_player lb)) in
                (Ok (lb_player lb), self', Some s')
            | (Err e, s') => (Err e, self, Some s')
            end
        | Ok _ => (Err TypeError, self, Some s)
        end
    end.

(** [Player.fetch_skill_point]. *)
Definition fetch_skill_point (post : Request -> Response) (self : Player) (session : option SessionState)
    : result (option Score) * Player * option SessionState :=
  if lazy_truthy (p_skill_point self) then
    (Player_skill_point self, self, session)
  else
    match session with
    | None =>
        match p_skill_point self with
        | Fetched None => (Ok None, self, None)
        | _ => (Err (InfinitodeError
                       "You need to provide a Session to fetch the skill point score."),
                self, None)
        end
    | Some s =>
        match bind_call skill_point_leaderboard_params []
                [("playerid", p_playerid self); ("beta", p_beta self)] with
        | Err e => (Err e, self, Some s)
        | Ok [OVal pid] =>
            match skill_point_leaderboard post pid s with
            | (Ok lb, s') =>
                let self' := with_skill_point self (Fetched (lb_player lb)) in
                (Ok (lb_player lb), self', Some s')
            | (Err e, s') => (Err e, self, Some s')
            end
        | Ok _ => (Err TypeError, self, Some s)
        end
    end.

(** ** utils.py: [async_expiring_cache] *)

(** [hash(v)] succeeds: lists and dicts are unhashable. *)
Fixpoint hashable (v : PyVal) : bool :=
  match v with
  | PList _ | PDict _ => false
  | PTuple l => forallb hashable l
  | _ => true
  end.

(** [==] on hashable values: [True == 1] and [False == 0]; tuples compare
    element-wise. *)
Fixpoint py_eq (a b : PyVal) : bool :=
  match a, b with
  | PNone, PNone => true
  | PBool x, PBool y => Bool.eqb x y
  | PBool x, PInt z | PInt z, PBool x => Z.eqb z (if x then 1 else 0)
  | PInt x, PInt y => Z.eqb x y
  | PStr x, PStr y => String.eqb x y
  | PTuple xs, PTuple ys =>
      (fix all2 (l1 l2 : list PyVal) : bool :=
         match l1, l2 with
         | [], [] => true
         | x :: l1', y :: l2' => py_eq x y && all2 l1' l2'
         | _, _ => false
         end) xs ys
  | _, _ => false
  end.

(** The task handed out for the [n]-th call of the wrapped function. *)
Definition Task := nat.

(** The closure state of one decorated function: its [cache] dict (key,
    task, timestamp) and the calls of [func] made so far (positional and keyword arguments). *)
Record CacheState := mkCacheState {
  cache : list (PyVal * (Task * Z));
  invocations : list (list PyVal * list (string * PyVal)) }.

Fixpoint cache_lookup (key : PyVal) (c : list (PyVal * (Task * Z))) : option (Task * Z) :=
  match c with
  | [] => None
  | (k, v) :: c' => if py_eq k key then Some v else cache_lookup key c'
  end.

(** [cache[key] = v]: an equal key already present keeps its slot. *)
Definition cache_set (key : PyVal) (v : Task * Z) (c : list (PyVal * (Task * Z)))
    : list (PyVal * (Task * Z)) :=
  if existsb (fun e => py_eq (fst e) key) c
  then map (fun e => if py_eq (fst e) key then (fst e, v) else e) c
  else (c ++ [(key, v)])%list.

(** The key: the positional arguments followed by the [(name, value)] pairs
    of [kwargs.items()], all in one tuple. *)
Definition cache_key (args : list PyVal) (kwargs : list (string * PyVal)) : PyVal :=
  PTuple (args ++ map (fun kv => PTuple [PStr (fst kv); snd kv]) kwargs)%list.

(** The [wrapper] of [async_expiring_cache(seconds)] at time
    [now]: an unhashable key makes [key in cache] raise [TypeError]; a fresh
    entry returns its task; otherwise [func] is called (the call is well
    formed for its signature, so it creates a coroutine), wrapped in a new
    task and stored with the time. *)
Definition wrapper (seconds : Z) (args : list PyVal) (kwargs : list (string * PyVal))
    (now : Z) (st : CacheState) : result Task * CacheState :=
  let key := cache_key args kwargs in
  let invoke :=
    let value := length (invocations st) in
    (Ok value, mkCacheState (cache_set key (value, now) (cache st))
                            (invocations st ++ [(args, kwargs)])%list) in
  if negb (hashable key) then (Err TypeError, st)
  else match cache_lookup key (cache st) with
       | Some (value, timestamp) => if now <? timestamp + seconds then (Ok value, st) else invoke
       | None => invoke
       end.

(** ** leaderboard.py: iteration, indexing, length and lookup *)

(** [Leaderboard_iterator]: the score list and the index of the next score. *)
Record Leaderboard_iterator := mkLeaderboard_iterator {
  it_scores : list Score; it_index : Z }.

(** [Leaderboard.__iter__]. *)
Definition Leaderboard_iter (self : Leaderboard) : Leaderboard_iterator :=
  mkLeaderboard_iterator (lb_scores self) 0.

(** [Leaderboard_iterator.__next__]: the Score and the advanced iterator;
    [None] is the [StopIteration] raised when [self._scores[self._index]]
    raises [IndexError] (the index is then left as it is). *)
Definition Leaderboard_iterator_next (self : Leaderboard_iterator)
    : option Score * Leaderboard_iterator :=
  match py_nth (it_scores self) (it_index self) with
  | Ok sc => (Some sc, mkLeaderboard_iterator (it_scores self) (it_index self + 1))
  | Err _ => (None, self)
  end.

(** A [for] loop over an iterator: the Scores it yields until
    [StopIteration], and the iterator afterwards; [fuel] bounds the number
    of [__next__] calls. *)
Fixpoint iter_collect (fuel : nat) (it : Leaderboard_iterator)
    : list Score * Leaderboard_iterator :=
  match fuel with
  | O => ([], it)
  | S f =>
      match Leaderboard_iterator_next it with
      | (Some sc, it') => let '(rest, it'') := iter_collect f it' in (sc :: rest, it'')
      | (None, it') => ([], it')
      end
  end.

(** The key of [Leaderboard.__getitem__]: a value, or a [slice]. *)
Inductive LbKey : Type :=
| KVal (v : PyVal)
| KSlice (start stop step : option Z).

(** [Leaderboard.__getitem__]: [isinstance(key, int)] holds for ints and
    bools; a slice gives a new Leaderboard; any other key is a [KeyError]. *)
Definition Leaderboard_getitem (self : Leaderboard) (key : LbKey) : result (Score + Leaderboard) :=
  match key with
  | KVal (PInt i) => sc <- py_nth (lb_scores self) i ;; Ok (inl sc)
  | KVal (PBool b) => sc <- py_nth (lb_scores self) (if b then 1 else 0) ;; Ok (inl sc)
  | KVal _ => Err KeyError
  | KSlice start stop step =>
      lb <- Leaderboard_getitem_slice self start stop step ;; Ok (inr lb)
  end.

(** [Leaderboard.__len__] and [Leaderboard.is_empty]. *)
Definition Leaderboard_len (self : Leaderboard) : Z := Z.of_nat (length (lb_scores self)).

Definition Leaderboard_is_empty (self : Leaderboard) : bool :=
  match lb_scores self with [] => true | _ :: _ => false end.

(** Python's [==] on plain values: [True == 1], lists and tuples compare
    element-wise, dicts as mappings (their keys are distinct). *)
Fixpoint py_equal (a b : PyVal) : bool :=
  match a, b with
  | PNone, PNone => true
  | PBool x, PBool y => Bool.eqb x y
  | PBool x, PInt z => Z.eqb z (if x then 1 else 0)
  | PInt z, PBool x => Z.eqb z (if x then 1 else 0)
  | PInt x, PInt y => Z.eqb x y
  | PStr x, PStr y => String.eqb x y
  | PList xs, PList ys | PTuple xs, PTuple ys =>
      (fix all2 (l1 l2 : list PyVal) : bool :=
         match l1, l2 with
         | [], [] => true
         | x :: l1', y :: l2' => py_equal x y && all2 l1' l2'
         | _, _ => false
         end) xs ys
  | PDict xs, PDict ys =>
      Nat.eqb (length xs) (length ys) &&
      (fix go (l : list (string * PyVal)) : bool :=
         match l with
         | [] => true
         | (k, v) :: l' =>
             match lookup k ys with Some w => py_equal v w | None => false end && go l'
         end) xs
  | _, _ => false
  end.

(** What [getattr(score, attr, None)] finds: a plain value, an object that
    equals no plain value (a Badge, a bound method), or nothing. *)
Inductive AttrVal : Type :=
| AttrPy (v : PyVal)
| AttrObj
| AttrMissing.

(** The attributes of a Score: its properties, its slots (the slot [raw]
    is never assigned, so it is missing), and its methods. *)
Definition Score_attrs (sc : Score) : list (string * AttrVal) :=
  let badge := match s_pinned_badge sc with None => AttrPy PNone | Some _ => AttrObj end in
  [("method", AttrPy (s_method sc)); ("_method", AttrPy (s_method sc));
   ("mapname", AttrPy (s_mapname sc)); ("_mapname", AttrPy (s_mapname sc));
   ("mode", AttrPy (s_mode sc)); ("_mode", AttrPy (s_mode sc));
   ("difficulty", AttrPy (s_difficulty sc)); ("_difficulty", AttrPy (s_difficulty sc));
   ("playerid", AttrPy (s_playerid sc)); ("_playerid", AttrPy (s_playerid sc));
   ("rank", AttrPy (PInt (s_rank sc))); ("_rank", AttrPy (PInt (s_rank sc)));
   ("score", AttrPy (PInt (s_score sc))); ("_score", AttrPy (PInt (s_score sc)));
   ("has_pfp", AttrPy (s_has_pfp sc)); ("_has_pfp", AttrPy (s_has_pfp sc));
   ("level", AttrPy (s_level sc)); ("_level", AttrPy (s_level sc));
   ("nickname", AttrPy (s_nickname sc)); ("_nickname", AttrPy (s_nickname sc));
   ("pinned_badge", badge); ("_pinned_badge", badge);
   ("position", AttrPy (opt_to_pyval (s_position sc)));
   ("_position", AttrPy (opt_to_pyval (s_position sc)));
   ("top", AttrPy (s_top sc)); ("_top", AttrPy (s_top sc));
   ("_total", AttrPy (opt_to_pyval (s_total sc)));
   ("player", AttrPy (s_player sc)); ("_player", AttrPy (s_player sc));
   ("fetch_player", AttrObj); ("format_score", AttrObj); ("print_score", AttrObj);
   ("from_payload", AttrObj)].

Definition Score_attr_names : list string :=
  ["method"; "_method"; "mapname"; "_mapname"; "mode"; "_mode"; "difficulty";
   "_difficulty"; "playerid"; "_playerid"; "rank"; "_rank"; "score"; "_score";
   "has_pfp"; "_has_pfp"; "level"; "_level"; "nickname"; "_nickname"; "pinned_badge";
   "_pinned_badge"; "position"; "_position"; "top"; "_top"; "_total"; "player"; "_player";
   "fetch_player"; "format_score"; "print_score"; "from_payload"].

(** [getattr(x, attr, val) == val] with the default [None]. *)
Definition attr_equals (a : AttrVal) (val : PyVal) : bool :=
  match a with
  | AttrPy v => py_equal v val
  | AttrObj => false
  | AttrMissing => py_equal PNone val
  end.

Section GetScore.

(** The attributes whose names start with two underscores ([__doc__],
    [__slots__], [__class__], ...) are left unspecified. *)
Variable dunder_attr : string -> Score -> AttrVal.

(** [getattr(x, attr, None)] on a Score. *)
Definition Score_getattr (x : Score) (attr : string) : AttrVal :=
  if starts_with "__" attr then dunder_attr attr x
  else match lookup attr (Score_attrs x) with Some a => a | None => AttrMissing end.

(** [Leaderboard.get_score]: [next((x for x in self._scores if getattr(x,
    attr, None) == val), None)]. *)
Definition Leaderboard_get_score (self : Leaderboard) (attr : string) (val : PyVal)
    : option Score :=
  find (fun x => attr_equals (Score_getattr x attr) val) (lb_scores self).

End GetScore.

(** ** score.py: [Score.format_score] *)

Fixpoint spaces (n : nat) : string :=
  match n with O => EmptyString | S n' => String " " (spaces n') end.

(** [format(s, "<w")]: [s] padded on the right to width [w], never cut. *)
Definition pad_right (w : nat) (s : string) : string := s ++ spaces (w - String.length s).

(** A comma after every third digit, on the digits in reverse order. *)
Fixpoint group3 (cs : list ascii) : list ascii :=
  match cs with
  | a :: b :: c :: ((_ :: _) as rest) => a :: b :: c :: ","%char :: group3 rest
  | _ => cs
  end.

(** [format(n, ">0,")]: the decimal digits of [n] grouped by three with
    commas, the sign in front. *)
Definition format_thousands (n : Z) : string :=
  let ds := list_ascii_of_string (z_to_string (Z.abs n)) in
  let g := string_of_list_ascii (rev (group3 (rev ds))) in
  if n <? 0 then "-" ++ g else g.

Section FormatScore.

(** [format(v, "<22")] for a list or tuple nickname of 21 or more items
    formats its repr; that case is left unspecified. *)
Variable format_seq_nickname : PyVal -> Z -> Z -> result string.

(** [Score.format_score]: ["#{:<5} {:<22} {:>0,}".format(rank, nickname
    cut to 19 characters and "..." when it has 21 or more, score)]. *)
Definition Score_format_score (self : Score) : result string :=
  match s_nickname self with
  | PNone =>
      Err (InfinitodeError
             "The score is not valid for formatting (There is no nickname attached to this score).")
  | PStr n =>
      let nick := if (String.length n <? 21)%nat then n
                  else str_slice n None (Some 19) ++ "..." in
      Ok ("#" ++ pad_right 5 (z_to_string (s_rank self)) ++ " " ++ pad_right 22 nick
          ++ " " ++ format_thousands (s_score self))
  | PList _ | PTuple _ => format_seq_nickname (s_nickname self) (s_rank self) (s_score self)
  | _ => Err TypeError
  end.

End FormatScore.

(** ** player.py: [Player.score] *)

(** [Player.score(mapname)] on a Player whose [_levels] is the dict of
    Scores [levels] and whose [_playerid] is [playerid]: the Score returned
    and [_levels] afterwards.  A map without a Score gets a zero Score,
    which is stored. *)
Definition Player_score (levels : list (string * Score)) (playerid : PyVal) (mapname : string)
    : result Score * list (string * Score) :=
  match lookup mapname levels with
  | Some sc => (Ok sc, levels)
  | None =>
      match Score_init [PStr "player"; PStr mapname; PStr "score"; PStr "NORMAL"; playerid]
              [("rank", PInt 0); ("score", PInt 0); ("total", PInt 0); ("top", PStr "-%")] with
      | Ok sc => (Ok sc, set_key mapname sc levels)
      | Err e => (Err e, levels)
      end
  end.

(** ** Time passing between two Session calls *)

(** [time.time()] has grown by [dt]. *)
Definition advance (dt : Z) (s : SessionState) : SessionState :=
  mkSessionState (clock s + dt) (sent s) (warnings s) (cd_Leaderboards s) (c_Leaderboards s)
    (cd_DailyQuestLeaderboards s) (c_DailyQuestLeaderboards s)
    (cd_SkillPointLeaderboard s) (c_SkillPointLeaderboard s).

(** ** Sample inputs *)

Definition sample_pid : string := "U-AB12-CD34-EF5678".

(** A leaderboard payload with five entries. *)
Definition sample_lb_payload : PyVal :=
  PDict [("status", PStr "success"); ("player", PDict [("total", PInt 500)]);
         ("leaderboards",
          PList (map (fun sc => PDict [("playerid", PStr sample_pid); ("score", PStr sc)])
                     ["900"; "800"; "700"; "600"; "500"]))].

(** A profile page with a level row marked "not ranked" and no season box. *)
Definition sample_page : ProfileDoc :=
  mkProfileDoc (Some "Sprylos") (Some ["Total"; "1,234"; "56"; "- Top 5%"])
    ["<label>Level:</label><label>42</label>"] (Some (Some "120 / 500")) None
    [mkRow ["Level"] false; mkRow ["1.1"; "9,999"; "3"; "/ 1,000"; "1%"] false;
     mkRow ["1.2"] true]
    [[mkImg (Some "badge-bg-epic") None; mkImg (Some "badge-icon-skillful") None;
      mkImg None (Some "ff0000")]]
    [[Some "Replays"; Some "Verified replays count 12"; Some "abc3 replays failed to be verified";
      Some "Joined 5th March 2021"]].

(** The Score [_parse_player] builds for a row marked "not ranked". *)
Definition not_ranked_score (level playerid nickname : string) (level_no : Z) : Score :=
  mkScore (PStr "player") (PStr level) (PStr "score") (PStr "NORMAL") (PStr playerid)
    0 0 PNone (PInt level_no) (PStr nickname) None None (PStr "-%") (Some 0) PNone.

(** * Properties *)

(** ** Helper lemmas *)

Lemma rbind_ok {A B} (a : A) (f : A -> result B) : rbind (Ok a) f = f a.
Proof. reflexivity. Qed.

Lemma rbind_err {A B} (e : Exc) (f : A -> result B) : rbind (Err e) f = Err e.
Proof. reflexivity. Qed.

(** [Player] called with keywords only, none of them [beta], raises
    [TypeError]: [beta] is a required parameter. *)
Lemma Player_init_kwargs_TypeError (f : ProfileFields) :
  Player_init [] (player_kwargs f) = Err TypeError.
Proof. destruct f; reflexivity. Qed.

Lemma parse_player_never_ok (doc : ProfileDoc) (pid : string) :
  exists e, _parse_player doc pid = Err e.
Proof.
  unfold _parse_player.
  destruct (parse_player_fields doc pid) as [f | e].
  - exists TypeError. apply Player_init_kwargs_TypeError.
  - exists e. reflexivity.
Qed.

(** The matchers of [ID_REGEX] only look at a prefix of their input. *)
Lemma match_lit_app (c : ascii) (s t r : string) :
  match_lit c s = Some t -> match_lit c (s ++ r) = Some (t ++ r).
Proof.
  destruct s as [| c' s']; simpl; [discriminate |].
  destruct (Ascii.eqb c c'); congruence.
Qed.

Lemma match_class_n_app (n : nat) : forall (s t r : string),
  match_class_n n s = Some t -> match_class_n n (s ++ r) = Some (t ++ r).
Proof.
  induction n as [| n IH]; intros s t r H; simpl in *.
  - congruence.
  - destruct s as [| c s']; [discriminate |]. simpl.
    destruct (id_class c); [apply IH; exact H | discriminate].
Qed.

Lemma match_group_app (s t r : string) :
  match_group s = Some t -> match_group (s ++ r) = Some (t ++ r).
Proof.
  unfold match_group, obind.
  destruct (match_class_n 4 s) as [u |] eqn:E; [| discriminate].
  rewrite (match_class_n_app 4 s u r E). apply match_lit_app.
Qed.

Lemma ID_REGEX_match_app (s t r : string) :
  ID_REGEX_match s = Some t -> ID_REGEX_match (s ++ r) = Some (t ++ r).
Proof.
  unfold ID_REGEX_match, obind.
  destruct (match_lit "U" s) as [r1 |] eqn:E1; [| discriminate].
  rewrite (match_lit_app _ _ _ r E1).
  destruct (match_lit "-" r1) as [r2 |] eqn:E2; [| discriminate].
  rewrite (match_lit_app _ _ _ r E2).
  destruct (match_group r2) as [r3 |] eqn:E3; [| discriminate].
  rewrite (match_group_app _ _ r E3).
  destruct (match_group r3) as [r4 |] eqn:E4; [| discriminate].
  rewrite (match_group_app _ _ r E4).
  apply match_class_n_app.
Qed.

Lemma kwarg_check_pid_ok (v : PyVal) :
  id_match v = Ok true -> _kwarg_check PNone v PNone PNone = Ok tt.
Proof.
  intros H. destruct v; try discriminate.
  unfold _kwarg_check. cbn beta iota.
  rewrite H. reflexivity.
Qed.

(** ** C1: failures of an HTTP request *)

(** C1 (counterexample). A 503 response and a 200 response whose payload
    status is ["error"] make [_post] raise exceptions of one and the same
    class, [APIError]: the two failure kinds are not distinct error types. *)
Lemma C1_same_error_class :
  let data := [("playerid", PNone)] in
  let r1 := fst (_post (fun _ => mkResponse 503 None) "getSkillPointLeaderboard" data
                   (new_session 0)) in
  let r2 := fst (_post (fun _ => mkResponse 200
                          (Some (PDict [("status", PStr "error");
                                        ("message", PStr "Unknown player")])))
                   "getSkillPointLeaderboard" data (new_session 0)) in
  r1 = Err (APIError "Something went wrong. Try again later") /\
  r2 = Err (APIError "Error response from server: Unknown player") /\
  exists e1 e2, r1 = Err e1 /\ r2 = Err e2 /\ exc_class e1 = exc_class e2.
Proof.
  simpl. split; [reflexivity | split; [reflexivity |]].
  do 2 eexists. split; [reflexivity | split; [reflexivity | reflexivity]].
Qed.

(** C1 (amended). For a POST request, a response with status 400 or more
    raises [APIError("Something went wrong. Try again later")]; a response
    below 400 whose payload status is not ["success"] raises
    [APIError("Error response from server: " + message)]; and a profile
    GET with status 400 or more raises [APIError("Bad Gateway.")].  All of
    them are of the single class [APIError]. *)
Theorem C1_post_errors_are_APIError
    (post1 post2 : Request -> Response) (get : string -> PageResponse)
    (arg : string) (data : list (string * PyVal)) (s : SessionState)
    (code2 : Z) (payload st : PyVal) (m pid : string) :
  400 <= status (post1 (api_request arg data)) ->
  post2 (api_request arg data) = mkResponse code2 (Some payload) -> code2 < 400 ->
  getitem payload "status" = Ok st -> val_in st ["success"] = false ->
  getitem payload "message" = Ok (PStr m) ->
  id_match (PStr pid) = Ok true -> 400 <= page_status (get (profile_url (PStr pid))) ->
  fst (_post post1 arg data s) = Err (APIError "Something went wrong. Try again later") /\
  fst (_post post2 arg data s) = Err (APIError ("Error response from server: " ++ m)) /\
  fst (player get (PStr pid) s) = Err (APIError "Bad Gateway.") /\
  exc_class (APIError "Something went wrong. Try again later")
    = exc_class (APIError ("Error response from server: " ++ m)).
Proof.
  intros H1 H2 Hc Hst Hne Hmsg Hid Hg.
  split; [| split; [| split]].
  - unfold _post, post_result. simpl.
    destruct (status _ <? 400) eqn:E; [apply Z.ltb_lt in E; lia | reflexivity].
  - unfold _post, post_result. simpl. rewrite H2. simpl.
    destruct (code2 <? 400) eqn:E; [| apply Z.ltb_ge in E; lia]. simpl.
    rewrite Hst. simpl. rewrite Hne, Hmsg. reflexivity.
  - unfold player, mbind, mlift. rewrite (kwarg_check_pid_ok _ Hid).
    cbn beta iota zeta.
    destruct (page_status _ <? 400) eqn:E; [apply Z.ltb_lt in E; lia | reflexivity].
  - reflexivity.
Qed.

(** Instance of C1 (amended): a 503 answer, a 200 answer with status
    ["error"], and a 502 answer to the profile GET. *)
Lemma C1_witness :
  fst (_post (fun _ => mkResponse 503 None) "getSkillPointLeaderboard" [("playerid", PNone)]
         (new_session 0))
    = Err (APIError "Something went wrong. Try again later") /\
  fst (_post (fun _ => mkResponse 200 (Some (PDict [("status", PStr "error");
                                                   ("message", PStr "Unknown player")])))
         "getSkillPointLeaderboard" [("playerid", PNone)] (new_session 0))
    = Err (APIError ("Error response from server: " ++ "Unknown player")) /\
  fst (player (fun _ => mkPageResponse 502 (mkProfileDoc None None [] None None [] [] []))
         (PStr "U-AB12-CD34-EF5678") (new_session 0)) = Err (APIError "Bad Gateway.") /\
  exc_class (APIError "Something went wrong. Try again later")
    = exc_class (APIError ("Error response from server: " ++ "Unknown player")).
Proof.
  apply (C1_post_errors_are_APIError
           (fun _ => mkResponse 503 None)
           (fun _ => mkResponse 200 (Some (PDict [("status", PStr "error");
                                                 ("message", PStr "Unknown player")])))
           (fun _ => mkPageResponse 502 (mkProfileDoc None None [] None None [] [] []))
           "getSkillPointLeaderboard" [("playerid", PNone)] (new_session 0)
           200 (PDict [("status", PStr "error"); ("message", PStr "Unknown player")])
           (PStr "error") "Unknown player" "U-AB12-CD34-EF5678");
  first [reflexivity | simpl; lia].
Defined.

(** ** C2: [Session.player] never returns a Player *)

(** [Session.player] returns no Player, whatever its argument and the page. *)
Lemma player_never_ok (get : string -> PageResponse) (v : PyVal) (s : SessionState) (p : Player) :
  fst (player get v s) <> Ok p.
Proof.
  unfold player, mbind, mlift.
  destruct (_kwarg_check PNone v PNone PNone); [| discriminate].
  cbn beta iota zeta.
  destruct (page_status _ <? 400); [| discriminate].
  destruct (parse_player_never_ok (page_doc (get (profile_url v))) (py_str v)) as [e He].
  rewrite He. destruct (str_concat _ v); discriminate.
Qed.

(** C2. For a valid player identifier and any profile page served with a
    status below 400, [Session.player] raises [BadArgument("Invalid
    playerid: ...")]: [_parse_player] ends by calling [Player] with its dict [t], [t] has no
    [beta] key although [beta] is a required parameter of [Player], and
    the resulting exception becomes [BadArgument]. *)
Theorem C2_player_raises_BadArgument (get : string -> PageResponse) (s : SessionState)
    (pid : string) :
  id_match (PStr pid) = Ok true ->
  page_status (get (profile_url (PStr pid))) < 400 ->
  fst (player get (PStr pid) s) = Err (BadArgument ("Invalid playerid: " ++ pid)).
Proof.
  intros Hid Hst.
  unfold player, mbind, mlift. rewrite (kwarg_check_pid_ok _ Hid).
  cbn beta iota zeta.
  destruct (page_status _ <? 400) eqn:E; [| apply Z.ltb_ge in E; lia].
  destruct (parse_player_never_ok (page_doc (get (profile_url (PStr pid)))) (py_str (PStr pid)))
    as [e He].
  rewrite He. reflexivity.
Qed.

(** Instance of C2: a well-formed profile page. *)
Lemma C2_witness :
  fst (player (fun _ => mkPageResponse 200
         (mkProfileDoc (Some "Sprylos") (Some ["Total"; "1,234"; "56"; "- Top 5%"])
            ["<label>Level:</label><label>42</label>"] (Some (Some "120 / 500")) None
            [mkRow ["Level"] false; mkRow ["1.1"; "9,999"; "3"; "/ 1,000"; "1%"] false]
            [] [[Some "Verified replays count 12"; Some "abc3 replays failed to be verified";
                 Some "Joined 5th March 2021"]]))
         (PStr "U-AB12-CD34-EF5678") (new_session 0))
  = Err (BadArgument ("Invalid playerid: " ++ "U-AB12-CD34-EF5678")).
Proof.
  apply C2_player_raises_BadArgument; [reflexivity | simpl; lia].
Defined.

(** ** C3: argument validation of the map, mode and difficulty *)

Lemma val_in_PStr (x : string) (l : list string) : val_in (PStr x) l = str_in x l.
Proof. reflexivity. Qed.

Lemma py_str_PStr (x : string) : py_str (PStr x) = x.
Proof. reflexivity. Qed.

(** Valid string arguments pass the check. *)
Lemma kwarg_check_valid_triple (m mode difficulty : string) :
  str_in m LEVELS = true -> str_in mode ["score"; "waves"] = true ->
  str_in difficulty ["EASY"; "NORMAL"; "ENDLESS_I"] = true ->
  _kwarg_check (PStr m) PNone (PStr mode) (PStr difficulty) = Ok tt.
Proof.
  intros Hm Hmo Hd. unfold _kwarg_check. cbn beta iota.
  rewrite !val_in_PStr, py_str_PStr, Hm, Hmo, Hd. reflexivity.
Qed.

(** A map name given as a string outside [LEVELS] raises [BadArgument]
    before any request. *)
Lemma leaderboards_rank_bad_map_str (post : Request -> Response) (s : SessionState)
    (m : string) (pid mode difficulty : PyVal) :
  str_in m LEVELS = false ->
  leaderboards_rank post (PStr m) pid mode difficulty s
    = (Err (BadArgument ("Invalid map: " ++ m)), s).
Proof.
  intros Hm. unfold leaderboards_rank, mbind, mlift, _kwarg_check.
  cbn beta iota. rewrite py_str_PStr, Hm. reflexivity.
Qed.

(** C3 (failing input). The map name is typed [Any] and checked as
    [str(mapname)], but the error message is built as ["Invalid map: " +
    mapname]: for the map name [7] every operation that takes one raises
    [TypeError] instead of [BadArgument] (still before any request). *)
Theorem C3_int_mapname_raises_TypeError (post : Request -> Response) (s : SessionState) :
  leaderboards_rank post (PInt 7) (PStr "U-AB12-CD34-EF5678") (PStr "score") (PStr "NORMAL") s
    = (Err TypeError, s) /\
  leaderboards post (PInt 7) PNone (PStr "score") (PStr "NORMAL") s = (Err TypeError, s) /\
  runtime_leaderboards post (PInt 7) (PStr "U-AB12-CD34-EF5678") (PStr "score")
    (PStr "NORMAL") s = (Err TypeError, s).
Proof. split; [reflexivity | split; reflexivity]. Qed.

(** ** C4: player identifier validation *)

(** C4 (failing input). [ID_REGEX.match] anchors only at the start: any
    valid identifier followed by any text (extra characters, or a longer
    last segment) passes the player identifier check. *)
Theorem C4_trailing_text_accepted (s rest : string) :
  ID_REGEX_match s = Some "" ->
  _kwarg_check PNone (PStr (s ++ rest)) PNone PNone = Ok tt.
Proof.
  intros H. apply kwarg_check_pid_ok. unfold id_match.
  rewrite (ID_REGEX_match_app s "" rest H). reflexivity.
Qed.

(** Instance of C4: ["U-AB12-CD34-EF5678xyz"] (lowercase extra text) is
    accepted. *)
Lemma C4_witness :
  _kwarg_check PNone (PStr ("U-AB12-CD34-EF5678" ++ "xyz")) PNone PNone = Ok tt.
Proof. apply C4_trailing_text_accepted. reflexivity. Defined.

(** ** C5: the expiring cache *)

Lemma py_eq_refl : forall v : PyVal, hashable v = true -> py_eq v v = true.
Proof.
  fix IH 1. intros v H. destruct v as [| b | z | str | l | l | d]; simpl in *.
  - reflexivity.
  - destruct b; reflexivity.
  - apply Z.eqb_refl.
  - apply String.eqb_refl.
  - discriminate.
  - induction l as [| x l IHl]; [reflexivity |].
    simpl in H. apply andb_true_iff in H as [Hx Hl].
    rewrite (IH x Hx). simpl. apply IHl. exact Hl.
  - discriminate.
Qed.

Lemma cache_lookup_set (key : PyVal) (v : Task * Z) (c : list (PyVal * (Task * Z))) :
  hashable key = true -> cache_lookup key (cache_set key v c) = Some v.
Proof.
  intros Hk. unfold cache_set.
  destruct (existsb (fun e => py_eq (fst e) key) c) eqn:E.
  - induction c as [| [k w] c IHc]; simpl in *; [discriminate |].
    destruct (py_eq k key) eqn:Ek; simpl; rewrite ?Ek; [reflexivity |].
    apply IHc. exact E.
  - induction c as [| [k w] c IHc]; simpl in *.
    + rewrite (py_eq_refl key Hk). reflexivity.
    + destruct (py_eq k key); [discriminate |]. apply IHc. exact E.
Qed.

(** A first call for a key absent from the cache calls the function; an
    identical call within the window returns the same task without a new
    call. *)
Lemma wrapper_hit_within_window (sec t0 t1 : Z) (args : list PyVal)
    (kw : list (string * PyVal)) (st : CacheState) :
  hashable (cache_key args kw) = true ->
  cache_lookup (cache_key args kw) (cache st) = None ->
  t1 < t0 + sec ->
  let '(r1, st1) := wrapper sec args kw t0 st in
  let '(r2, st2) := wrapper sec args kw t1 st1 in
  r1 = Ok (length (invocations st)) /\ r2 = r1 /\
  invocations st2 = (invocations st ++ [(args, kw)])%list.
Proof.
  intros Hh Hn Ht. unfold wrapper at 1. rewrite Hh, Hn. simpl negb. cbn iota zeta.
  unfold wrapper. rewrite Hh. simpl negb. cbn iota zeta. simpl cache.
  rewrite (cache_lookup_set _ _ _ Hh).
  destruct (t1 <? t0 + sec) eqn:E; [| apply Z.ltb_ge in E; lia].
  simpl. auto.
Qed.

(** Once the window of an entry has passed, the next identical call calls
    the function again and overwrites the entry. *)
Lemma wrapper_miss_after_window (sec now : Z) (args : list PyVal)
    (kw : list (string * PyVal)) (st : CacheState) (v : Task) (t : Z) :
  hashable (cache_key args kw) = true ->
  cache_lookup (cache_key args kw) (cache st) = Some (v, t) ->
  t + sec <= now ->
  wrapper sec args kw now st
  = (Ok (length (invocations st)),
     mkCacheState (cache_set (cache_key args kw) (length (invocations st), now) (cache st))
                  (invocations st ++ [(args, kw)])%list).
Proof.
  intros Hh Hl Ht. unfold wrapper. rewrite Hh, Hl. simpl negb. cbn iota zeta.
  destruct (now <? t + sec) eqn:E; [apply Z.ltb_lt in E; lia | reflexivity].
Qed.

(** C5 (failing input). The key flattens the positional arguments and the
    keyword items into one tuple: [f(("a", 1))] and [f(a=1)], two calls
    with different arguments, get the same key, so the second returns the
    first one's task and the function is called once. *)
Theorem C5_positional_and_keyword_share_slot :
  let '(r1, st1) := wrapper 60 [PTuple [PStr "a"; PInt 1]] [] 0 (mkCacheState [] []) in
  let '(r2, st2) := wrapper 60 [] [("a", PInt 1)] 1 st1 in
  r1 = Ok 0%nat /\ r2 = Ok 0%nat /\ length (invocations st2) = 1%nat.
Proof. vm_compute. auto. Qed.

(** ** C6: which leaderboard results are cached *)

Lemma id_match_truthy (v : PyVal) : id_match v = Ok true -> truthy v = true.
Proof.
  destruct v as [| | | str | | |]; try discriminate. simpl.
  destruct str as [| c str]; [discriminate | reflexivity].
Qed.

(** Without a player id, [from_payload] leaves [player] as [None]. *)
Lemma from_payload_anonymous_no_player (method mapname mode difficulty payload date season : PyVal)
    (lb : Leaderboard) :
  Leaderboard_from_payload method mapname mode difficulty PNone payload date season = Ok lb ->
  lb_player lb = None.
Proof.
  unfold Leaderboard_from_payload.
  destruct (getitem payload "player") as [pl |]; cbn; [| discriminate].
  destruct (getitem pl "total") as [tot |]; cbn; [| discriminate].
  destruct (Leaderboard_init method mapname mode difficulty tot payload date None season)
    as [inst |] eqn:Ei; cbn; [| discriminate].
  destruct (getitem payload "leaderboards"); cbn; [| discriminate].
  destruct (py_iter _); cbn; [| discriminate].
  destruct (append_scores _ _ _ _ _ _ _); cbn; [| discriminate].
  intros H. injection H as <-. simpl.
  unfold Leaderboard_init in Ei.
  destruct (py_int tot); cbn in Ei; [| discriminate].
  destruct (opt_int season); cbn in Ei; [| discriminate].
  injection Ei as <-. reflexivity.
Qed.

(** [normalize_date] at most logs a warning. *)
Lemma normalize_date_state (date : DateArg) (w : bool) (s : SessionState) :
  let s0 := snd (normalize_date date w s) in
  clock s0 = clock s /\ sent s0 = sent s /\
  cd_DailyQuestLeaderboards s0 = cd_DailyQuestLeaderboards s /\
  c_DailyQuestLeaderboards s0 = c_DailyQuestLeaderboards s.
Proof.
  destruct date as [| y m d | v]; simpl; auto.
  destruct v; simpl; auto.
  destruct (strptime_ymd _); simpl; auto.
  destruct w; simpl; auto.
Qed.

(** A [leaderboards] call with a player id sends one request and does not
    read the cache; its result is stored exactly when its [player] is
    [None]. *)
Lemma leaderboards_with_playerid (post : Request -> Response)
    (mapname pid mode difficulty : PyVal) (s : SessionState) :
  truthy pid = true -> _kwarg_check mapname pid mode difficulty = Ok tt ->
  let key := py_str difficulty ++ py_str mode ++ py_str mapname in
  let '(r, s') := leaderboards post mapname pid mode difficulty s in
  sent s' = (sent s ++ [api_request "getLeaderboards"
                          (basic_levels_data mapname pid mode difficulty)])%list /\
  c_Leaderboards s' = match r with
                      | Ok lb => match lb_player lb with
                                 | None => set_key key lb (c_Leaderboards s)
                                 | Some _ => c_Leaderboards s
                                 end
                      | Err _ => c_Leaderboards s
                      end.
Proof.
  intros Ht Hc. unfold leaderboards, mbind, mlift, get_state. rewrite Hc.
  cbn beta iota zeta. rewrite Ht. cbn [negb andb]. cbn beta iota zeta.
  unfold _post. cbn beta iota zeta.
  destruct (post_result _) as [payload |]; cbn beta iota zeta; [| auto].
  destruct (Leaderboard_from_payload _ _ _ _ _ _ _ _) as [lb |]; cbn beta iota zeta; [| auto].
  destruct (lb_player lb) eqn:E; cbn; rewrite ?E; auto.
Qed.

(** The same for [daily_quest_leaderboards], keyed by the date. *)
Lemma daily_quest_with_playerid (post : Request -> Response) (date : DateArg)
    (pid : PyVal) (w : bool) (s : SessionState) (d : string) :
  id_match pid = Ok true -> fst (normalize_date date w s) = Ok d ->
  let '(r, s') := daily_quest_leaderboards post date pid w s in
  sent s' = (sent s ++ [api_request "getDailyQuestLeaderboards"
                          [("date", PStr d); ("playerid", pid)]])%list /\
  c_DailyQuestLeaderboards s' = match r with
                                | Ok lb => match lb_player lb with
                                           | None => set_key d lb (c_DailyQuestLeaderboards s)
                                           | Some _ => c_DailyQuestLeaderboards s
                                           end
                                | Err _ => c_DailyQuestLeaderboards s
                                end.
Proof.
  intros Hid Hd. pose proof (normalize_date_state date w s) as [_ [Hs [_ Hc]]].
  unfold daily_quest_leaderboards, mbind, mlift, get_state.
  destruct (normalize_date date w s) as [r0 s0]. simpl in Hd, Hs, Hc. subst r0.
  cbn beta iota zeta. rewrite (id_match_truthy _ Hid). cbn [negb andb]. cbn beta iota zeta.
  assert (Hk : match pid with PNone => Ok tt | _ => _kwarg_check PNone pid PNone PNone end
               = Ok tt).
  { destruct pid; try discriminate. apply kwarg_check_pid_ok. exact Hid. }
  rewrite Hk. cbn beta iota zeta.
  unfold _post. cbn beta iota zeta.
  destruct (post_result _) as [payload |]; cbn beta iota zeta; [| simpl; rewrite Hs; auto].
  destruct (Leaderboard_from_payload _ _ _ _ _ _ _ _) as [lb |]; cbn beta iota zeta;
    [| simpl; rewrite Hs; auto].
  destruct (lb_player lb) eqn:E; cbn; rewrite Hs, ?Hc, ?E; auto.
Qed.

(** C6 (counterexample). A [leaderboards] call with a player id whose
    response has [player = {"total": 10, "score": 0, "rank": 0}] (a player
    with no ranked score) is stored in the cache under the key of the
    anonymous call. *)
Lemma C6_personalized_response_cached :
  let payload := PDict [("status", PStr "success");
                        ("player", PDict [("total", PInt 10); ("score", PInt 0);
                                          ("rank", PInt 0)]);
                        ("leaderboards", PList [])] in
  let '(r, s') := leaderboards (fun _ => mkResponse 200 (Some payload)) (PStr "1.1")
                    (PStr sample_pid) (PStr "score") (PStr "NORMAL") (new_session 100) in
  (exists lb, r = Ok lb /\ c_Leaderboards s' = [("NORMALscore1.1", lb)]) /\
  length (sent s') = 1%nat.
Proof. vm_compute. split; [eexists; split; reflexivity | reflexivity]. Qed.

(** C6 (amended). A [leaderboards] or [daily_quest_leaderboards] call with a
    player id never reads the cache and sends exactly one request; its
    result is stored in the cache exactly when the result's [player] is
    [None] (the player has no ranked score: [score], [rank] or [total] is
    falsy).  A result fetched without a player id always has [player =
    None], so anonymous results are always stored. *)
Theorem C6_cache_store_rule (post : Request -> Response)
    (mapname pid mode difficulty : PyVal) (date : DateArg) (w : bool)
    (s : SessionState) (d : string) :
  id_match pid = Ok true ->
  _kwarg_check mapname pid mode difficulty = Ok tt ->
  fst (normalize_date date w s) = Ok d ->
  (let key := py_str difficulty ++ py_str mode ++ py_str mapname in
   let '(r, s') := leaderboards post mapname pid mode difficulty s in
   sent s' = (sent s ++ [api_request "getLeaderboards"
                           (basic_levels_data mapname pid mode difficulty)])%list /\
   c_Leaderboards s' = match r with
                       | Ok lb => match lb_player lb with
                                  | None => set_key key lb (c_Leaderboards s)
                                  | Some _ => c_Leaderboards s
                                  end
                       | Err _ => c_Leaderboards s
                       end) /\
  (let '(r, s') := daily_quest_leaderboards post date pid w s in
   sent s' = (sent s ++ [api_request "getDailyQuestLeaderboards"
                           [("date", PStr d); ("playerid", pid)]])%list /\
   c_DailyQuestLeaderboards s' = match r with
                                 | Ok lb => match lb_player lb with
                                            | None => set_key d lb (c_DailyQuestLeaderboards s)
                                            | Some _ => c_DailyQuestLeaderboards s
                                            end
                                 | Err _ => c_DailyQuestLeaderboards s
                                 end) /\
  (forall (method payload date' season : PyVal) (lb : Leaderboard),
     Leaderboard_from_payload method mapname mode difficulty PNone payload date' season
       = Ok lb -> lb_player lb = None).
Proof.
  intros Hid Hc Hd. split; [| split].
  - apply leaderboards_with_playerid; [apply id_match_truthy |]; assumption.
  - apply daily_quest_with_playerid; assumption.
  - intros method payload date' season lb. apply from_payload_anonymous_no_player.
Qed.

(** Instance of C6 (amended): the request of the counterexample, and a
    daily quest request for an ISO date. *)
Lemma C6_witness :
  let post := fun _ : Request => mkResponse 200 (Some (PDict [("status", PStr "success");
                        ("player", PDict [("total", PInt 10); ("score", PInt 0);
                                          ("rank", PInt 0)]);
                        ("leaderboards", PList [])])) in
  id_match (PStr sample_pid) = Ok true /\
  _kwarg_check (PStr "1.1") (PStr sample_pid) (PStr "score") (PStr "NORMAL") = Ok tt /\
  fst (normalize_date (AVal (PStr "2024-02-29")) true (new_session 100)) = Ok "2024-02-29" /\
  ((let key := py_str (PStr "NORMAL") ++ py_str (PStr "score") ++ py_str (PStr "1.1") in
    let '(r, s') := leaderboards post (PStr "1.1") (PStr sample_pid) (PStr "score")
                      (PStr "NORMAL") (new_session 100) in
    sent s' = (sent (new_session 100) ++ [api_request "getLeaderboards"
                (basic_levels_data (PStr "1.1") (PStr sample_pid) (PStr "score")
                   (PStr "NORMAL"))])%list /\
    c_Leaderboards s' = match r with
                        | Ok lb => match lb_player lb with
                                   | None => set_key key lb (c_Leaderboards (new_session 100))
                                   | Some _ => c_Leaderboards (new_session 100)
                                   end
                        | Err _ => c_Leaderboards (new_session 100)
                        end) /\
   (let '(r, s') := daily_quest_leaderboards post (AVal (PStr "2024-02-29")) (PStr sample_pid)
                      true (new_session 100) in
    sent s' = (sent (new_session 100) ++ [api_request "getDailyQuestLeaderboards"
                [("date", PStr "2024-02-29"); ("playerid", PStr sample_pid)]])%list /\
    c_DailyQuestLeaderboards s'
      = match r with
        | Ok lb => match lb_player lb with
                   | None => set_key "2024-02-29" lb (c_DailyQuestLeaderboards (new_session 100))
                   | Some _ => c_DailyQuestLeaderboards (new_session 100)
                   end
        | Err _ => c_DailyQuestLeaderboards (new_session 100)
        end) /\
   (forall (method payload date' season : PyVal) (lb : Leaderboard),
      Leaderboard_from_payload method (PStr "1.1") (PStr "score") (PStr "NORMAL") PNone
        payload date' season = Ok lb -> lb_player lb = None)).
Proof.
  intros post.
  assert (H1 : id_match (PStr sample_pid) = Ok true) by reflexivity.
  assert (H2 : _kwarg_check (PStr "1.1") (PStr sample_pid) (PStr "score") (PStr "NORMAL")
               = Ok tt) by reflexivity.
  assert (H3 : fst (normalize_date (AVal (PStr "2024-02-29")) true (new_session 100))
               = Ok "2024-02-29") by reflexivity.
  split; [exact H1 | split; [exact H2 | split; [exact H3 |]]].
  exact (C6_cache_store_rule post (PStr "1.1") (PStr sample_pid) (PStr "score")
           (PStr "NORMAL") (AVal (PStr "2024-02-29")) true (new_session 100) "2024-02-29"
           H1 H2 H3).
Defined.

(** ** C7: slicing a Leaderboard *)

Lemma skipn_nth_error {A} (l : list A) : forall k : nat,
  skipn k l = match nth_error l k with Some x => x :: skipn (S k) l | None => [] end.
Proof.
  induction l as [| a l IH]; intros [| k]; simpl; auto.
Qed.

(** With step 1, [take_steps] is a contiguous run of the list. *)
Lemma take_steps_one {A} (l : list A) : forall (n : nat) (b : Z), 0 <= b ->
  take_steps l b 1 n = firstn n (skipn (Z.to_nat b) l).
Proof.
  induction n as [| n IH]; intros b Hb; [reflexivity |].
  simpl. rewrite (skipn_nth_error l (Z.to_nat b)).
  destruct (nth_error l (Z.to_nat b)); [| reflexivity].
  simpl. f_equal. rewrite IH by lia.
  replace (Z.to_nat (b + 1)) with (S (Z.to_nat b)) by lia. reflexivity.
Qed.

Ltac ltb_cases :=
  repeat match goal with
         | |- context [if ?c then _ else _] =>
             let E := fresh "E" in
             destruct c eqn:E;
             try apply Z.ltb_lt in E; try apply Z.ltb_ge in E;
             try apply Z.leb_le in E; try apply Z.leb_gt in E
         end.

(** With no step or step 1, the adjusted start is not negative. *)
Lemma slice_indices_step_one (len : Z) (start stop step : option Z) (b e k : Z) :
  0 <= len -> (step = None \/ step = Some 1) ->
  slice_indices len start stop step = Ok (b, e, k) -> k = 1 /\ 0 <= b.
Proof.
  intros Hl Hs. unfold slice_indices.
  destruct Hs as [-> | ->]; cbn beta iota zeta; simpl (1 =? 0); cbn iota;
    intros H; injection H as Hb He Hk; subst;
    (split; [reflexivity |]); destruct start as [v |]; simpl; ltb_cases; lia.
Qed.

Lemma slice_indices_ok (len : Z) (start stop step : option Z) :
  step <> Some 0 -> exists b e k, slice_indices len start stop step = Ok (b, e, k).
Proof.
  intros Hs. unfold slice_indices.
  destruct (match step with None => 1 | Some k => k end =? 0) eqn:E.
  - exfalso. apply Z.eqb_eq in E. destruct step; simpl in E; [subst; auto | discriminate].
  - eauto.
Qed.

(** C7 (counterexample). The Leaderboard [from_payload] builds from five
    entries has ranks 1..5; slicing it with step -1 gives the ranks 5..1,
    not in the parent's order; a zero step raises [ValueError]. *)
Lemma C7_reverse_slice :
  exists lb lb',
    Leaderboard_from_payload (PStr "leaderboards") (PStr "1.1") (PStr "score")
      (PStr "NORMAL") PNone sample_lb_payload PNone PNone = Ok lb /\
    map s_rank (lb_scores lb) = [1; 2; 3; 4; 5] /\
    Leaderboard_getitem_slice lb None None (Some (-1)) = Ok lb' /\
    map s_rank (lb_scores lb') = [5; 4; 3; 2; 1] /\
    Leaderboard_getitem_slice lb None None (Some 0) = Err ValueError.
Proof.
  do 2 eexists. split; [vm_compute; reflexivity |].
  split; [vm_compute; reflexivity |].
  split; [vm_compute; reflexivity |].
  split; vm_compute; reflexivity.
Qed.

(** With a negative step, the adjusted bounds lie in [-1, len - 1]. *)
Lemma slice_indices_neg (len : Z) (start stop : option Z) (k b e k' : Z) :
  0 <= len -> k < 0 ->
  slice_indices len start stop (Some k) = Ok (b, e, k') ->
  k' = k /\ -1 <= b <= len - 1 /\ -1 <= e <= len - 1.
Proof.
  intros Hl Hk. unfold slice_indices. cbn beta iota zeta.
  replace (k =? 0) with false by (symmetry; apply Z.eqb_neq; lia).
  replace (k <? 0) with true by (symmetry; apply Z.ltb_lt; lia).
  intros H; injection H as Hb He Hk'; subst.
  split; [reflexivity |]. destruct start as [v |]; destruct stop as [w |];
    ltb_cases; lia.
Qed.

(** With a negative step, every index the slice visits is in range. *)
Lemma slice_neg_range (len b e k : Z) (j : nat) :
  k < 0 -> -1 <= b <= len - 1 -> -1 <= e <= len - 1 ->
  (j < Z.to_nat (slice_length b e k))%nat -> 0 <= b + k * Z.of_nat j < len.
Proof.
  intros Hk Hb He Hj. unfold slice_length in Hj.
  replace (k <? 0) with true in Hj by (symmetry; apply Z.ltb_lt; lia).
  destruct (e <? b) eqn:E; [apply Z.ltb_lt in E | simpl in Hj; lia].
  set (q := (b - e - 1) / (- k)) in *.
  assert (Hq0 : 0 <= q) by (apply Z.div_pos; lia).
  assert (Hq : (- k) * q <= b - e - 1) by (apply Z.mul_div_le; lia).
  assert (HjZ : Z.of_nat j <= q) by lia.
  nia.
Qed.

(** [take_steps] picks the elements at [b], [b + st], [b + 2 st], ... *)
Lemma take_steps_map {A} (l : list A) (st : Z) : forall (n : nat) (b : Z),
  (forall j, (j < n)%nat -> 0 <= b + st * Z.of_nat j < Z.of_nat (length l)) ->
  map Some (take_steps l b st n)
  = map (fun j => nth_error l (Z.to_nat (b + st * Z.of_nat j))) (seq 0 n).
Proof.
  induction n as [| n IH]; intros b H; [reflexivity |].
  assert (H0 := H 0%nat ltac:(lia)). simpl Z.of_nat in H0.
  simpl take_steps.
  destruct (nth_error l (Z.to_nat b)) as [x |] eqn:E;
    [| apply nth_error_None in E; lia].
  simpl seq. simpl map. rewrite Z.mul_0_r, Z.add_0_r, E. f_equal.
  rewrite IH.
  - rewrite <- seq_shift, map_map. apply map_ext. intros j.
    rewrite Nat2Z.inj_succ. f_equal. f_equal. ring.
  - intros j Hj. specialize (H (S j) ltac:(lia)).
    rewrite Nat2Z.inj_succ in H. lia.
Qed.

Lemma firstn_snoc {A} (l : list A) : forall (m : nat) (x : A),
  nth_error l m = Some x -> firstn (S m) l = (firstn m l ++ [x])%list.
Proof.
  induction l as [| a l IH]; intros [| m] x H; simpl in H; try discriminate.
  - injection H as <-. reflexivity.
  - change (firstn (S (S m)) (a :: l)) with (a :: firstn (S m) l).
    rewrite (IH m x H). reflexivity.
Qed.

(** Stepping by -1 from index [m - 1] down takes the first [m] elements
    in reverse. *)
Lemma take_steps_rev {A} (l : list A) : forall m : nat, (m <= length l)%nat ->
  take_steps l (Z.of_nat m - 1) (-1) m = rev (firstn m l).
Proof.
  induction m as [| m IH]; intros Hm; [reflexivity |].
  cbn [take_steps].
  replace (Z.to_nat (Z.of_nat (S m) - 1)) with m by lia.
  destruct (nth_error l m) as [x |] eqn:E; [| apply nth_error_None in E; lia].
  rewrite (firstn_snoc l m x E), rev_app_distr. cbn [rev app].
  replace (Z.of_nat (S m) - 1 + -1) with (Z.of_nat m - 1) by lia.
  rewrite IH by lia. reflexivity.
Qed.

(** C7 (amended). Slicing a Leaderboard with a zero step raises
    [ValueError]. With any other step it gives a new Leaderboard with the
    parent's method, mapname, mode, difficulty, total, raw payload, date,
    player and season, whose scores are Python's slice of the parent's
    scores: with no step or step 1 a contiguous run of the parent's scores
    in their order; with a negative step [k] the parent's scores at the
    indices [b], [b + k], [b + 2k], ..., which decrease, so the order is
    reversed, and [[::-1]] is exactly the reversed list. *)
Theorem C7_slice_keeps_metadata (lb : Leaderboard) (start stop step : option Z) :
  (step = Some 0 -> Leaderboard_getitem_slice lb start stop step = Err ValueError) /\
  (step <> Some 0 ->
  exists lb', Leaderboard_getitem_slice lb start stop step = Ok lb' /\
    lb_method lb' = lb_method lb /\ lb_mapname lb' = lb_mapname lb /\
    lb_mode lb' = lb_mode lb /\ lb_difficulty lb' = lb_difficulty lb /\
    lb_total lb' = lb_total lb /\ lb_raw lb' = lb_raw lb /\ lb_date lb' = lb_date lb /\
    lb_player lb' = lb_player lb /\ lb_season lb' = lb_season lb /\
    py_slice (lb_scores lb) start stop step = Ok (lb_scores lb') /\
    ((step = None \/ step = Some 1) ->
     exists b n, lb_scores lb' = firstn n (skipn b (lb_scores lb))) /\
    (forall k, step = Some k -> k < 0 ->
     exists b n,
       (forall j, (j < n)%nat -> 0 <= b + k * Z.of_nat j < Z.of_nat (length (lb_scores lb))) /\
       map Some (lb_scores lb')
       = map (fun j => nth_error (lb_scores lb) (Z.to_nat (b + k * Z.of_nat j))) (seq 0 n)) /\
    (step = Some (-1) -> start = None -> stop = None -> lb_scores lb' = rev (lb_scores lb))).
Proof.
  assert (Hseason : opt_int (opt_to_pyval (lb_season lb)) = Ok (lb_season lb))
    by (destruct (lb_season lb); reflexivity).
  split.
  { intros ->. unfold Leaderboard_getitem_slice, Leaderboard_init. simpl py_int.
    rewrite rbind_ok, Hseason, rbind_ok, rbind_ok.
    unfold py_slice, slice_indices. reflexivity. }
  intros Hs.
  destruct (slice_indices_ok (Z.of_nat (length (lb_scores lb))) start stop step Hs)
    as [b [e [k Hi]]].
  unfold Leaderboard_getitem_slice, Leaderboard_init. simpl py_int. rewrite rbind_ok.
  rewrite Hseason, rbind_ok, rbind_ok.
  unfold py_slice. rewrite Hi, rbind_ok. cbn beta iota zeta.
  eexists. split; [reflexivity |].
  simpl. do 10 (split; [reflexivity |]).
  split; [| split].
  - intros Hst.
    destruct (slice_indices_step_one _ _ _ _ _ _ _ (Zle_0_nat _) Hst Hi) as [-> Hb].
    exists (Z.to_nat b), (Z.to_nat (slice_length b e 1)).
    apply take_steps_one. exact Hb.
  - intros k0 -> Hk0.
    destruct (slice_indices_neg _ _ _ _ _ _ _ (Zle_0_nat _) Hk0 Hi) as [-> [Hb He]].
    exists b, (Z.to_nat (slice_length b e k0)).
    split.
    + intros j Hj. exact (slice_neg_range _ _ _ _ j Hk0 Hb He Hj).
    + apply take_steps_map. intros j Hj. exact (slice_neg_range _ _ _ _ j Hk0 Hb He Hj).
  - intros -> -> ->.
    set (l := lb_scores lb) in *.
    unfold slice_indices in Hi. cbn beta iota zeta in Hi.
    change (-1 =? 0) with false in Hi. change (-1 <? 0) with true in Hi.
    cbn iota in Hi. injection Hi as <- <- <-.
    unfold slice_length. change (-1 <? 0) with true. cbn iota.
    destruct (-1 <? Z.of_nat (length l) - 1) eqn:E.
    + apply Z.ltb_lt in E. change (- -1) with 1. rewrite Z.div_1_r.
      replace (Z.to_nat (Z.of_nat (length l) - 1 - -1 - 1 + 1)) with (length l) by lia.
      rewrite take_steps_rev by lia. rewrite firstn_all. reflexivity.
    + apply Z.ltb_ge in E.
      destruct l as [| x l']; [reflexivity | simpl length in E; lia].
Qed.

(** Instance of C7 (amended): the five-score Leaderboard sliced [1:3] keeps
    its metadata and gets the scores of ranks 2 and 3; sliced [::0] it
    raises [ValueError]. *)
Lemma C7_witness :
  exists lb lb',
    Leaderboard_from_payload (PStr "leaderboards") (PStr "1.1") (PStr "score")
      (PStr "NORMAL") PNone sample_lb_payload PNone PNone = Ok lb /\
    map s_rank (lb_scores lb) = [1; 2; 3; 4; 5] /\
    Leaderboard_getitem_slice lb (Some 1) (Some 3) None = Ok lb' /\
    map s_rank (lb_scores lb') = [2; 3] /\
    lb_mapname lb' = lb_mapname lb /\ lb_mode lb' = lb_mode lb /\
    lb_difficulty lb' = lb_difficulty lb /\ lb_total lb' = lb_total lb /\
    Leaderboard_getitem_slice lb None None (Some 0) = Err ValueError.
Proof.
  destruct (Leaderboard_from_payload (PStr "leaderboards") (PStr "1.1") (PStr "score")
              (PStr "NORMAL") PNone sample_lb_payload PNone PNone) as [lb |] eqn:El;
    [| vm_compute in El; discriminate].
  assert (Hs : (None : option Z) <> Some 0) by discriminate.
  destruct (proj2 (C7_slice_keeps_metadata lb (Some 1) (Some 3) None) Hs)
    as [lb' [Hg [_ [Hm [Hmo [Hd [Ht _]]]]]]].
  pose proof (proj1 (C7_slice_keeps_metadata lb None None (Some 0)) eq_refl) as Hz.
  exists lb, lb'. split; [reflexivity |].
  vm_compute in El. injection El as <-.
  split; [reflexivity |]. split; [exact Hg |].
  split; [vm_compute in Hg; injection Hg as <-; reflexivity |].
  auto.
Defined.

(** ** C8: the profile page mapping *)

(** A row marked "not ranked" gives the zero Score. *)
Lemma parse_row_not_ranked (playerid nickname level : string) (level_no : Z)
    (rest : list string) :
  parse_row playerid nickname level_no (mkRow (level :: rest) true)
  = Ok (level, not_ranked_score level playerid nickname level_no).
Proof. reflexivity. Qed.

(** Without a season box the season fields are 0, 500 and 1. *)
Lemma parse_player_fields_no_season (doc : ProfileDoc) (pid : string) (f : ProfileFields) :
  d_season doc = None -> parse_player_fields doc pid = Ok f ->
  f_season_xp f = 0 /\ f_season_xp_max f = 500 /\ f_season_level f = 1.
Proof.
  intros Hs H. unfold parse_player_fields in H. rewrite Hs in H.
  repeat (rewrite ?rbind_ok in H; cbn beta iota zeta in H;
          match type of H with
          | context [rbind ?m _] =>
              let E := fresh "E" in
              destruct m eqn:E; [| rewrite rbind_err in H; discriminate]
          | context [match ?t with pair _ _ => _ end] => destruct t
          end).
  injection H as <-. simpl. auto.
Qed.

(** C8 (failing input). On a profile page without a season box and with a
    level row marked "not ranked", the mapping computes season level 1, XP
    0 and XP max 500, and the zero Score for the row; but no Player is
    returned: [_parse_player] fails with [TypeError] and [Session.player]
    raises [BadArgument]. *)
Theorem C8_defaults_computed_but_no_Player :
  match parse_player_fields sample_page sample_pid with
  | Ok f => f_season_level f = 1 /\ f_season_xp f = 0 /\ f_season_xp_max f = 500 /\
            lookup "1.2" (f_levels f) = Some (not_ranked_score "1.2" sample_pid "Sprylos" 42)
  | Err _ => False
  end /\
  _parse_player sample_page sample_pid = Err TypeError /\
  fst (player (fun _ => mkPageResponse 200 sample_page) (PStr sample_pid) (new_session 0))
    = Err (BadArgument ("Invalid playerid: " ++ sample_pid)).
Proof.
  split; [| split].
  - vm_compute. repeat split.
  - vm_compute. reflexivity.
  - vm_compute. reflexivity.
Qed.

(** ** C9: the date of [daily_quest_leaderboards] *)

(** C9. A string date that [strptime] rejects does not raise: it becomes
    today's UTC date, the warning is logged when the flag is set, and the
    call then goes on as a call without a date; a parseable string or a
    datetime is used as given. *)
Theorem C9_unparsable_date_is_soft (post : Request -> Response) (str : string)
    (pid : PyVal) (w : bool) (s : SessionState) :
  strptime_ymd str = None ->
  let s_w := if w then log_warning ("Invalid date in daily_quest_leaderboards (Use YYYY-MM-DD format): "
                                    ++ str) s
             else s in
  normalize_date (AVal (PStr str)) w s = (Ok (utc_today (clock s)), s_w) /\
  warnings s_w = (warnings s ++ (if w then [String.append
                   "Invalid date in daily_quest_leaderboards (Use YYYY-MM-DD format): " str]
                 else []))%list /\
  daily_quest_leaderboards post (AVal (PStr str)) pid w s
    = daily_quest_leaderboards post ANone pid w s_w /\
  (forall y m d : Z, normalize_date (ADatetime y m d) w s = (Ok (strftime_ymd y m d), s)) /\
  (forall str' : string, strptime_ymd str' <> None ->
     normalize_date (AVal (PStr str')) w s = (Ok str', s)).
Proof.
  intros Hp s_w. split; [| split; [| split; [| split]]].
  - simpl. rewrite Hp. reflexivity.
  - subst s_w. destruct w; simpl; [reflexivity | symmetry; apply app_nil_r].
  - unfold daily_quest_leaderboards, mbind. simpl normalize_date. rewrite Hp.
    subst s_w. destruct w; reflexivity.
  - reflexivity.
  - intros str' H'. simpl. destruct (strptime_ymd str'); [reflexivity | congruence].
Qed.

(** Instance of C9: ["2023-02-29"] is not a date. *)
Lemma C9_witness :
  strptime_ymd "2023-02-29" = None /\
  normalize_date (AVal (PStr "2023-02-29")) true (new_session 1700000000)
    = (Ok (utc_today 1700000000),
       log_warning ("Invalid date in daily_quest_leaderboards (Use YYYY-MM-DD format): "
                    ++ "2023-02-29") (new_session 1700000000)).
Proof.
  assert (Hp : strptime_ymd "2023-02-29" = None) by (vm_compute; reflexivity).
  split; [exact Hp |].
  exact (proj1 (C9_unparsable_date_is_soft (fun _ => mkResponse 200 None) "2023-02-29"
                  PNone true (new_session 1700000000) Hp)).
Defined.

(** ** C10: the lazily fetched Scores *)

(** C10 (failing input). A Player starts with [MISSING] in both lazy
    fields, and the properties raise [InfinitodeError]; a fetch with a
    Session passes [beta=] to a Session method that has no such parameter,
    so it raises [TypeError] and leaves the Player as it was: the fields
    never leave [MISSING] and the properties keep raising. *)
Theorem C10_fetch_never_resolves (pos : list Obj) (kw : list (string * Obj)) (p : Player) :
  Player_init pos kw = Ok p ->
  p_daily_quest p = MISSING /\ p_skill_point p = MISSING /\
  Player_daily_quest p
    = Err (InfinitodeError "This score has not been fetched yet. Use ~.fetch_daily_quest first.") /\
  Player_skill_point p
    = Err (InfinitodeError "This score has not been fetched yet. Use ~.fetch_skill_point first.") /\
  (forall (post : Request -> Response) (s : SessionState),
     fetch_daily_quest post p (Some s) = (Err TypeError, p, Some s) /\
     fetch_skill_point post p (Some s) = (Err TypeError, p, Some s)).
Proof.
  intros H.
  assert (Hm : p_daily_quest p = MISSING /\ p_skill_point p = MISSING).
  { unfold Player_init in H.
    destruct (bind_call Player_params pos kw) as [args |]; cbn in H; [| discriminate].
    do 17 (destruct args as [| ? args]; [discriminate |]).
    destruct args; [| discriminate].
    destruct (obj_int _); cbn in H; [| discriminate].
    destruct (obj_int _); cbn in H; [| discriminate].
    injection H as <-. split; reflexivity. }
  destruct Hm as [Hd Hs].
  unfold Player_daily_quest, Player_skill_point, fetch_daily_quest, fetch_skill_point.
  rewrite Hd, Hs. repeat split; reflexivity.
Qed.

(** Instance of C10: the Player built from the sample page's fields with
    [beta=False] added. *)
Lemma C10_witness :
  match parse_player_fields sample_page sample_pid with
  | Ok f =>
      exists p, Player_init [] (("beta", OVal (PBool false)) :: player_kwargs f) = Ok p /\
        fetch_daily_quest (fun _ => mkResponse 200 None) p (Some (new_session 0))
          = (Err TypeError, p, Some (new_session 0)) /\
        Player_daily_quest p
          = Err (InfinitodeError
                   "This score has not been fetched yet. Use ~.fetch_daily_quest first.")
  | Err _ => False
  end.
Proof.
  destruct (parse_player_fields sample_page sample_pid) as [f |] eqn:Ef;
    [| vm_compute in Ef; discriminate].
  destruct (Player_init [] (("beta", OVal (PBool false)) :: player_kwargs f)) as [p |] eqn:Ep.
  - exists p. split; [reflexivity |].
    destruct (C10_fetch_never_resolves [] _ p Ep) as [_ [_ [Hq [_ Hf]]]].
    split; [exact (proj1 (Hf (fun _ => mkResponse 200 None) (new_session 0))) | exact Hq].
  - vm_compute in Ef. injection Ef as <-. vm_compute in Ep. discriminate.
Defined.

(** * Further properties of the code *)

(** ** Iterating and indexing a Leaderboard *)

Lemma py_nth_nat {A} (l : list A) (k : nat) :
  py_nth l (Z.of_nat k) = match nth_error l k with Some x => Ok x | None => Err IndexError end.
Proof.
  unfold py_nth. destruct (Z.of_nat k <? 0) eqn:E; [apply Z.ltb_lt in E; lia |].
  destruct (Z.of_nat k <? 0) eqn:E'; [apply Z.ltb_lt in E'; lia |].
  rewrite Nat2Z.id. reflexivity.
Qed.

Lemma iter_collect_from (l : list Score) : forall (fuel k : nat),
  (length l < k + fuel)%nat -> (k <= length l)%nat ->
  iter_collect fuel (mkLeaderboard_iterator l (Z.of_nat k))
  = (skipn k l, mkLeaderboard_iterator l (Z.of_nat (length l))).
Proof.
  induction fuel as [| fuel IH]; intros k Hf Hk; [lia |].
  simpl. unfold Leaderboard_iterator_next. simpl it_scores. simpl it_index.
  rewrite py_nth_nat. rewrite (skipn_nth_error l k).
  destruct (nth_error l k) as [x |] eqn:E.
  - replace (Z.of_nat k + 1) with (Z.of_nat (S k)) by lia.
    assert (k < length l)%nat by (apply nth_error_Some; congruence).
    rewrite IH by lia. reflexivity.
  - apply nth_error_None in E. replace k with (length l) by lia. reflexivity.
Qed.

(** Iterating over a Leaderboard ([for score in lb]) yields exactly its
    scores, in order; the exhausted iterator raises [StopIteration] on
    every further [next()] and stays exhausted. *)
Theorem Leaderboard_iteration_yields_scores (lb : Leaderboard) (fuel : nat) :
  (length (lb_scores lb) < fuel)%nat ->
  let '(ys, it) := iter_collect fuel (Leaderboard_iter lb) in
  ys = lb_scores lb /\ Leaderboard_iterator_next it = (None, it).
Proof.
  intros Hf. unfold Leaderboard_iter.
  change 0 with (Z.of_nat 0).
  rewrite iter_collect_from by lia. split; [reflexivity |].
  unfold Leaderboard_iterator_next. simpl. rewrite py_nth_nat.
  destruct (nth_error (lb_scores lb) (length (lb_scores lb))) eqn:E; [| reflexivity].
  assert (length (lb_scores lb) < length (lb_scores lb))%nat
    by (apply nth_error_Some; congruence). lia.
Qed.

Lemma Leaderboard_iteration_yields_scores_witness :
  (length (lb_scores (mkLeaderboard PNone PNone PNone PNone 0 PNone PNone None None
                        [not_ranked_score "1.1" sample_pid "a" 1;
                         not_ranked_score "1.2" sample_pid "b" 1])) < 3)%nat /\
  let lb := mkLeaderboard PNone PNone PNone PNone 0 PNone PNone None None
              [not_ranked_score "1.1" sample_pid "a" 1; not_ranked_score "1.2" sample_pid "b" 1] in
  let '(ys, it) := iter_collect 3 (Leaderboard_iter lb) in
  ys = lb_scores lb /\ Leaderboard_iterator_next it = (None, it).
Proof.
  split; [simpl; lia |].
  apply Leaderboard_iteration_yields_scores. simpl. lia.
Defined.

(** Indexing a Leaderboard with an int [i]: for [-len <= i < len] it is the
    score at position [i] (counted from the end when [i] is negative),
    otherwise [IndexError]; a bool indexes as 0 or 1; any key that is not
    an int, a bool or a slice raises [KeyError]. *)
Theorem Leaderboard_getitem_int (lb : Leaderboard) (i : Z) :
  let n := Leaderboard_len lb in
  (-n <= i < n ->
   exists sc, Leaderboard_getitem lb (KVal (PInt i)) = Ok (inl sc) /\
              nth_error (lb_scores lb) (Z.to_nat (if i <? 0 then n + i else i)) = Some sc) /\
  (i < -n \/ n <= i -> Leaderboard_getitem lb (KVal (PInt i)) = Err IndexError) /\
  (forall b : bool, Leaderboard_getitem lb (KVal (PBool b))
                    = Leaderboard_getitem lb (KVal (PInt (if b then 1 else 0)))) /\
  (forall v : PyVal, (forall z, v <> PInt z) -> (forall b, v <> PBool b) ->
     Leaderboard_getitem lb (KVal v) = Err KeyError).
Proof.
  intros n. unfold n, Leaderboard_len. split; [| split; [| split]].
  - intros Hi. unfold Leaderboard_getitem, py_nth.
    set (j := if i <? 0 then Z.of_nat (length (lb_scores lb)) + i else i).
    assert (Hj : 0 <= j < Z.of_nat (length (lb_scores lb)))
      by (unfold j; destruct (i <? 0) eqn:E;
          [apply Z.ltb_lt in E | apply Z.ltb_ge in E]; lia).
    destruct (j <? 0) eqn:E; [apply Z.ltb_lt in E; lia |].
    destruct (nth_error (lb_scores lb) (Z.to_nat j)) as [sc |] eqn:En.
    + exists sc. split; reflexivity.
    + apply nth_error_None in En. lia.
  - intros Hi. unfold Leaderboard_getitem, py_nth.
    destruct (i <? 0) eqn:E; [apply Z.ltb_lt in E | apply Z.ltb_ge in E].
    + destruct (Z.of_nat (length (lb_scores lb)) + i <? 0) eqn:E2;
        [reflexivity | apply Z.ltb_ge in E2; lia].
    + destruct (i <? 0) eqn:E2; [reflexivity |].
      destruct (nth_error (lb_scores lb) (Z.to_nat i)) eqn:En; [| reflexivity].
      assert (Z.to_nat i < length (lb_scores lb))%nat
        by (apply nth_error_Some; congruence). lia.
  - reflexivity.
  - intros v Hz Hb. destruct v; try reflexivity.
    + exfalso. exact (Hb b eq_refl).
    + exfalso. exact (Hz z eq_refl).
Qed.

Lemma firstn_skipn_length {A} (k a : nat) (l : list A) :
  length (firstn k (skipn a l)) = Nat.min k (length l - a).
Proof. rewrite length_firstn, length_skipn. reflexivity. Qed.

(** Slicing with non-negative bounds [lb[a:b]]: the new Leaderboard has
    [max(0, min(b, len) - min(a, len))] scores, so it is empty exactly when
    [b <= a] or [a >= len]. *)
Theorem Leaderboard_slice_len (lb : Leaderboard) (a b : Z) :
  0 <= a -> 0 <= b ->
  exists lb', Leaderboard_getitem lb (KSlice (Some a) (Some b) None) = Ok (inr lb') /\
    Leaderboard_len lb' = Z.max 0 (Z.min b (Leaderboard_len lb) - Z.min a (Leaderboard_len lb)) /\
    (Leaderboard_is_empty lb' = true <-> b <= a \/ Leaderboard_len lb <= a).
Proof.
  intros Ha Hb. unfold Leaderboard_len.
  set (n := Z.of_nat (length (lb_scores lb))).
  assert (Hseason : opt_int (opt_to_pyval (lb_season lb)) = Ok (lb_season lb))
    by (destruct (lb_season lb); reflexivity).
  assert (Hi : slice_indices n (Some a) (Some b) None = Ok (Z.min a n, Z.min b n, 1)).
  { unfold slice_indices. cbn beta iota zeta. simpl (1 =? 0). cbn iota.
    destruct (a <? 0) eqn:E1; [apply Z.ltb_lt in E1; lia |].
    destruct (b <? 0) eqn:E2; [apply Z.ltb_lt in E2; lia |].
    destruct (n <=? a) eqn:E3; [apply Z.leb_le in E3 | apply Z.leb_gt in E3];
    destruct (n <=? b) eqn:E4; [apply Z.leb_le in E4 | apply Z.leb_gt in E4 | apply Z.leb_le in E4 | apply Z.leb_gt in E4];
    simpl; repeat f_equal; lia. }
  unfold Leaderboard_getitem, Leaderboard_getitem_slice, Leaderboard_init.
  simpl py_int. rewrite rbind_ok, Hseason, rbind_ok, rbind_ok.
  unfold py_slice. fold n. rewrite Hi, rbind_ok. cbn beta iota zeta. rewrite rbind_ok.
  eexists. split; [reflexivity |]. simpl lb_scores.
  assert (Hn : 0 <= n) by lia.
  assert (Hl : slice_length (Z.min a n) (Z.min b n) 1 = Z.max 0 (Z.min b n - Z.min a n)).
  { unfold slice_length. change (1 <? 0) with false. cbn iota.
    destruct (Z.min a n <? Z.min b n) eqn:E; [apply Z.ltb_lt in E | apply Z.ltb_ge in E];
      rewrite ?Z.div_1_r; lia. }
  rewrite Hl, take_steps_one by lia.
  assert (Hlen : Z.of_nat (length (firstn (Z.to_nat (Z.max 0 (Z.min b n - Z.min a n)))
                                 (skipn (Z.to_nat (Z.min a n)) (lb_scores lb))))
                 = Z.max 0 (Z.min b n - Z.min a n)).
  { rewrite firstn_skipn_length. unfold n in *. lia. }
  split; [exact Hlen |].
  unfold Leaderboard_is_empty. simpl lb_scores.
  destruct (firstn _ _) as [| x xs] eqn:Ef; simpl in Hlen; split; intros H;
    solve [lia | discriminate | reflexivity].
Qed.

Lemma Leaderboard_slice_len_witness :
  0 <= 1 /\ 0 <= 10 /\
  exists lb', Leaderboard_getitem (mkLeaderboard PNone PNone PNone PNone 0 PNone PNone None None
                [not_ranked_score "1.1" sample_pid "a" 1; not_ranked_score "1.2" sample_pid "b" 1])
                (KSlice (Some 1) (Some 10) None) = Ok (inr lb') /\
    Leaderboard_len lb' = Z.max 0 (Z.min 10 2 - Z.min 1 2) /\
    (Leaderboard_is_empty lb' = true <-> 10 <= 1 \/ 2 <= 1).
Proof.
  split; [lia | split; [lia |]].
  apply (Leaderboard_slice_len (mkLeaderboard PNone PNone PNone PNone 0 PNone PNone None None
           [not_ranked_score "1.1" sample_pid "a" 1; not_ranked_score "1.2" sample_pid "b" 1])
           1 10); lia.
Defined.

(** ** Building a Leaderboard from a payload *)

Ltac rsplit H :=
  repeat (rewrite ?rbind_ok in H; cbn beta iota zeta in H;
          match type of H with
          | context [rbind ?m _] =>
              let E := fresh "E" in
              destruct m eqn:E; [| rewrite rbind_err in H; discriminate]
          end);
  rewrite ?rbind_ok in H; cbn beta iota zeta in H.

Lemma bind_params_pos {V} : forall (params : list (Param V)) pos kw vs,
  bind_params params pos kw = Ok vs -> firstn (length pos) vs = pos.
Proof.
  induction params as [| p0 ps IH]; intros pos kw vs H.
  - destruct pos; [injection H as <-; reflexivity | discriminate].
  - destruct pos as [| v0 pos']; [reflexivity |].
    cbn [bind_params] in H. destruct (pkwonly p0); [discriminate |].
    destruct (lookup (pname p0) kw); [discriminate |].
    destruct (bind_params ps pos' kw) as [vs' |] eqn:E; [| discriminate].
    rewrite rbind_ok in H. injection H as <-. simpl. f_equal. exact (IH _ _ _ E).
Qed.

Lemma bind_params_kw {V} : forall (params : list (Param V)) pos kw vs i p v,
  bind_params params pos kw = Ok vs -> nth_error params i = Some p ->
  (length pos <= i)%nat -> lookup (pname p) kw = Some v -> nth_error vs i = Some v.
Proof.
  induction params as [| p0 ps IH]; intros pos kw vs i p v H Hp Hi Hl.
  - destruct i; discriminate.
  - destruct pos as [| v0 pos'].
    + cbn [bind_params] in H. rsplit H. injection H as <-.
      destruct i as [| i']; simpl in Hp |- *.
      * injection Hp as <-. rewrite Hl in E. injection E as <-. reflexivity.
      * exact (IH _ _ _ _ _ _ E0 Hp ltac:(simpl; lia) Hl).
    + cbn [bind_params] in H. destruct (pkwonly p0); [discriminate |].
      destruct (lookup (pname p0) kw); [discriminate |].
      destruct (bind_params ps pos' kw) as [vs' |] eqn:E; [| discriminate].
      rewrite rbind_ok in H. injection H as <-.
      destruct i as [| i']; [simpl in Hi; lia |]. simpl in Hp |- *.
      exact (IH _ _ _ _ _ _ E Hp ltac:(simpl in Hi; lia) Hl).
Qed.

(** The call [Score(method, mapname, mode, difficulty, rank=r, **kv)]. *)
Lemma Score_init_rank_kw (a b c d : PyVal) (r : Z) kv sc :
  Score_init [a; b; c; d] (("rank", PInt r) :: kv) = Ok sc ->
  s_method sc = a /\ s_mapname sc = b /\ s_mode sc = c /\ s_difficulty sc = d /\ s_rank sc = r.
Proof.
  intros H. unfold Score_init, bind_call in H.
  destruct (forallb _ _); [| discriminate].
  destruct (bind_params Score_params [a; b; c; d] (("rank", PInt r) :: kv)) as [args |] eqn:E;
    [| discriminate].
  rewrite rbind_ok in H.
  pose proof (bind_params_pos _ _ _ _ E) as Hpos.
  pose proof (bind_params_kw Score_params _ _ _ 5 (req "rank") (PInt r) E eq_refl
                ltac:(simpl; lia) eq_refl) as Hr.
  destruct args as [| a0 [| a1 [| a2 [| a3 [| a4 [| a5 [| a6 [| a7 [| a8 [| a9
                   [| a10 [| a11 [| a12 [| a13 [| a14 [| ]]]]]]]]]]]]]]]];
    try (cbn in H; discriminate).
  simpl in Hpos. injection Hpos as -> -> -> ->. simpl in Hr. injection Hr as ->.
  rsplit H. injection H as <-. simpl. cbn in E0. injection E0 as ->. auto.
Qed.

Lemma append_scores_spec m mp mo d : forall xs (st : nat) acc scores,
  append_scores m mp mo d (Z.of_nat st) xs acc = Ok scores ->
  exists new, scores = (acc ++ new)%list /\
    map s_rank new = map Z.of_nat (seq st (length xs)) /\
    Forall (fun sc => s_method sc = m /\ s_mapname sc = mp /\ s_mode sc = mo /\
                      s_difficulty sc = d) new /\
    Forall (fun x => exists kv, x = PDict kv /\ lookup "rank" kv = None) xs.
Proof.
  induction xs as [| x xs IH]; intros st acc scores H.
  - injection H as <-. exists []. rewrite app_nil_r. repeat split; constructor.
  - cbn [append_scores] in H. rsplit H.
    assert (Hx : exists kv, x = PDict kv /\ lookup "rank" kv = None /\
                            a = ("rank", PInt (Z.of_nat st)) :: kv).
    { destruct x as [| b | z | s0 | l0 | l0 | kv]; try discriminate. unfold merge_kwargs in E. cbn in E.
      destruct (lookup "rank" kv) eqn:Hk; simpl in E; [discriminate |].
      injection E as <-. exists kv. auto. }
    destruct Hx as [kv [-> [Hr ->]]].
    destruct (Score_init_rank_kw _ _ _ _ _ _ _ E0) as [H1 [H2 [H3 [H4 H5]]]].
    replace (Z.of_nat st + 1) with (Z.of_nat (S st)) in H by lia.
    destruct (IH _ _ _ H) as [new [-> [Hrk [Hf Hk]]]].
    exists (a0 :: new). rewrite <- app_assoc. simpl. split; [reflexivity |].
    split; [rewrite H5, Hrk; reflexivity |].
    split; constructor; eauto.
Qed.

Lemma from_payload_scores m mp mo d pid payload date season lb :
  Leaderboard_from_payload m mp mo d pid payload date season = Ok lb ->
  exists lbs xs, getitem payload "leaderboards" = Ok lbs /\ py_iter lbs = Ok xs /\
    map s_rank (lb_scores lb) = map Z.of_nat (seq 1 (length xs)) /\
    Forall (fun sc => s_method sc = m /\ s_mapname sc = mp /\ s_mode sc = mo /\
                      s_difficulty sc = d) (lb_scores lb) /\
    Forall (fun x => exists kv, x = PDict kv /\ lookup "rank" kv = None) xs.
Proof.
  intros H. unfold Leaderboard_from_payload in H. rsplit H. injection H as <-. simpl.
  destruct (append_scores_spec m mp mo d _ 1 [] _ E6) as [new [-> [Hr [Hf Hk]]]].
  exists a4, a5. auto.
Qed.

Lemma find_ext {A} (f g : A -> bool) (l : list A) :
  (forall x, f x = g x) -> find f l = find g l.
Proof. intros Hfg. induction l as [| x l IH]; simpl; [reflexivity |]. rewrite Hfg, IH. reflexivity. Qed.

Lemma find_rank (l : list Score) : forall st,
  map s_rank l = map Z.of_nat (seq st (length l)) ->
  forall j, (st <= j < st + length l)%nat ->
  find (fun x => Z.eqb (s_rank x) (Z.of_nat j)) l = nth_error l (j - st).
Proof.
  induction l as [| x l IH]; intros st Hm j Hj; [simpl in Hj; lia |].
  simpl in Hm. injection Hm as Hx Hm. simpl. rewrite Hx.
  destruct (Nat.eq_dec j st) as [-> | Hne].
  - rewrite Z.eqb_refl, Nat.sub_diag. reflexivity.
  - destruct (Z.of_nat st =? Z.of_nat j) eqn:E; [apply Z.eqb_eq in E; lia |].
    replace (j - st)%nat with (S (j - S st)) by lia. simpl.
    apply (IH (S st) Hm). simpl in Hj. lia.
Qed.

(** [Leaderboard.from_payload] numbers the entries of
    [payload["leaderboards"]] 1, 2, ..., N in payload order (N the number of
    entries) and gives every score the Leaderboard's method, mapname, mode
    and difficulty; it succeeds only when every entry is a dict with no
    ["rank"] key (a ["rank"] key repeats the [rank=] keyword: [TypeError]). *)
Theorem Leaderboard_from_payload_ranks m mp mo d pid payload date season lb :
  Leaderboard_from_payload m mp mo d pid payload date season = Ok lb ->
  exists lbs xs, getitem payload "leaderboards" = Ok lbs /\ py_iter lbs = Ok xs /\
    map s_rank (lb_scores lb) = map Z.of_nat (seq 1 (length xs)) /\
    Forall (fun sc => s_method sc = m /\ s_mapname sc = mp /\ s_mode sc = mo /\
                      s_difficulty sc = d) (lb_scores lb) /\
    Forall (fun x => exists kv, x = PDict kv /\ lookup "rank" kv = None) xs.
Proof. apply from_payload_scores. Qed.

Lemma Leaderboard_from_payload_ranks_witness :
  exists lb, Leaderboard_from_payload (PStr "leaderboards") (PStr "1.1") (PStr "score")
      (PStr "NORMAL") PNone sample_lb_payload PNone PNone = Ok lb /\
  exists lbs xs, getitem sample_lb_payload "leaderboards" = Ok lbs /\ py_iter lbs = Ok xs /\
    map s_rank (lb_scores lb) = map Z.of_nat (seq 1 (length xs)) /\
    Forall (fun sc => s_method sc = PStr "leaderboards" /\ s_mapname sc = PStr "1.1" /\
                      s_mode sc = PStr "score" /\ s_difficulty sc = PStr "NORMAL") (lb_scores lb) /\
    Forall (fun x => exists kv, x = PDict kv /\ lookup "rank" kv = None) xs.
Proof.
  destruct (Leaderboard_from_payload (PStr "leaderboards") (PStr "1.1") (PStr "score")
              (PStr "NORMAL") PNone sample_lb_payload PNone PNone) as [lb |] eqn:El;
    [| vm_compute in El; discriminate].
  exists lb. split; [reflexivity |].
  exact (Leaderboard_from_payload_ranks _ _ _ _ _ _ _ _ lb El).
Defined.

(** On a Leaderboard built by [from_payload], [get_score("rank", k)] for
    [1 <= k <= len(lb)] is the [k]-th score, [lb[k - 1]]. *)
Theorem Leaderboard_get_score_rank (dunder_attr : string -> Score -> AttrVal)
    m mp mo d pid payload date season lb (k : Z) :
  Leaderboard_from_payload m mp mo d pid payload date season = Ok lb ->
  1 <= k <= Leaderboard_len lb ->
  Leaderboard_get_score dunder_attr lb "rank" (PInt k) = nth_error (lb_scores lb) (Z.to_nat (k - 1)).
Proof.
  intros H Hk. destruct (from_payload_scores _ _ _ _ _ _ _ _ _ H) as [lbs [xs [_ [_ [Hr _]]]]].
  assert (Hlen : length (lb_scores lb) = length xs)
    by (rewrite <- (length_map s_rank), Hr, length_map, length_seq; reflexivity).
  rewrite <- Hlen in Hr. unfold Leaderboard_get_score.
  rewrite (find_ext _ (fun x => Z.eqb (s_rank x) (Z.of_nat (Z.to_nat k)))) by
    (intros x; rewrite Z2Nat.id by lia; reflexivity).
  unfold Leaderboard_len in Hk.
  rewrite (find_rank _ 1 Hr) by lia. f_equal. lia.
Qed.

Lemma Leaderboard_get_score_rank_witness :
  exists lb, Leaderboard_from_payload (PStr "leaderboards") (PStr "1.1") (PStr "score")
      (PStr "NORMAL") PNone sample_lb_payload PNone PNone = Ok lb /\
    1 <= 3 <= Leaderboard_len lb /\
    Leaderboard_get_score (fun _ _ => AttrMissing) lb "rank" (PInt 3)
    = nth_error (lb_scores lb) (Z.to_nat (3 - 1)).
Proof.
  destruct (Leaderboard_from_payload (PStr "leaderboards") (PStr "1.1") (PStr "score")
              (PStr "NORMAL") PNone sample_lb_payload PNone PNone) as [lb |] eqn:El;
    [| vm_compute in El; discriminate].
  assert (Hk : 1 <= 3 <= Leaderboard_len lb)
    by (vm_compute in El; injection El as <-; vm_compute; split; discriminate).
  exists lb. split; [reflexivity |]. split; [exact Hk |].
  exact (Leaderboard_get_score_rank _ _ _ _ _ _ _ _ _ lb 3 El Hk).
Defined.

Lemma Score_attrs_missing (attr : string) (x : Score) :
  str_in attr Score_attr_names = false -> lookup attr (Score_attrs x) = None.
Proof.
  intros Hn. unfold str_in, Score_attr_names in Hn. cbn [existsb] in Hn.
  unfold Score_attrs. cbn [lookup].
  repeat match goal with
         | |- context [String.eqb attr ?s] =>
             destruct (String.eqb attr s); [cbn in Hn; discriminate |]
         end.
  reflexivity.
Qed.

(** [get_score(attr, val)] with an attribute a Score does not have (and
    whose name does not start with two underscores, e.g. ["total"]) compares
    [None == val]: it is the first score when [val] is [None] and [None]
    otherwise, whatever the scores are. *)
Theorem Leaderboard_get_score_unknown_attr (dunder_attr : string -> Score -> AttrVal)
    (lb : Leaderboard) (attr : string) (val : PyVal) :
  starts_with "__" attr = false -> str_in attr Score_attr_names = false ->
  Leaderboard_get_score dunder_attr lb attr val
  = if py_equal PNone val then hd_error (lb_scores lb) else None.
Proof.
  intros Hs Hn. unfold Leaderboard_get_score.
  rewrite (find_ext _ (fun _ => py_equal PNone val)).
  - destruct (py_equal PNone val) eqn:Ev.
    + destruct (lb_scores lb); simpl; rewrite ?Ev; reflexivity.
    + induction (lb_scores lb) as [| y l IH]; simpl; rewrite ?Ev; auto.
  - intros x. unfold Score_getattr. rewrite Hs, Score_attrs_missing by exact Hn. reflexivity.
Qed.

Lemma Leaderboard_get_score_unknown_attr_witness :
  starts_with "__" "total" = false /\ str_in "total" Score_attr_names = false /\
  Leaderboard_get_score (fun _ _ => AttrMissing)
    (mkLeaderboard PNone PNone PNone PNone 0 PNone PNone None None
       [not_ranked_score "1.1" sample_pid "a" 1; not_ranked_score "1.2" sample_pid "b" 1])
    "total" PNone
  = if py_equal PNone PNone then Some (not_ranked_score "1.1" sample_pid "a" 1) else None.
Proof.
  split; [reflexivity | split; [reflexivity |]].
  apply (Leaderboard_get_score_unknown_attr (fun _ _ => AttrMissing)
           (mkLeaderboard PNone PNone PNone PNone 0 PNone PNone None None
              [not_ranked_score "1.1" sample_pid "a" 1; not_ranked_score "1.2" sample_pid "b" 1])
           "total" PNone); reflexivity.
Defined.

(** ** Formatting a Score *)

Lemma str_length_app (s t : string) : String.length (s ++ t) = (String.length s + String.length t)%nat.
Proof. induction s as [| c s IH]; simpl; [reflexivity | rewrite IH; reflexivity]. Qed.

Lemma str_app_nil_r (s : string) : s ++ "" = s.
Proof. induction s as [| c s IH]; simpl; [reflexivity | rewrite IH; reflexivity]. Qed.

Lemma spaces_length (n : nat) : String.length (spaces n) = n.
Proof. induction n as [| n IH]; simpl; [reflexivity | rewrite IH; reflexivity]. Qed.

Lemma pad_right_length (w : nat) (s : string) :
  (String.length s <= w)%nat -> String.length (pad_right w s) = w.
Proof. intros H. unfold pad_right. rewrite str_length_app, spaces_length. lia. Qed.

Lemma prefix_app (s t : string) : String.prefix s (s ++ t) = true.
Proof.
  induction s as [| c s IH]; simpl; [destruct t; reflexivity |].
  destruct (Ascii.ascii_dec c c) as [_ | Hne]; [exact IH | congruence].
Qed.

Lemma digits_of_pos_length : forall fuel n acc (k : nat),
  0 <= n < 10 ^ Z.of_nat (S k) -> (k < fuel)%nat ->
  (String.length (digits_of_pos fuel n acc) <= S k + String.length acc)%nat.
Proof.
  induction fuel as [| f IH]; intros n acc k Hn Hf; [lia |].
  cbn [digits_of_pos]. destruct (n <? 10) eqn:E; [simpl; lia |].
  apply Z.ltb_ge in E. destruct k as [| k].
  - simpl in Hn. lia.
  - assert (Hd : 0 <= n / 10 < 10 ^ Z.of_nat (S k)).
    { split; [apply Z.div_pos; lia |].
      apply Z.div_lt_upper_bound; [lia |].
      replace (Z.of_nat (S (S k))) with (Z.succ (Z.of_nat (S k))) in Hn by lia.
      rewrite Z.pow_succ_r in Hn by lia. lia. }
    specialize (IH (n / 10) (String (ascii_of_nat (Z.to_nat (n mod 10) + 48)) acc) k Hd
                  ltac:(lia)).
    simpl in IH. lia.
Qed.

Lemma string_of_firstn (n : nat) (s : string) :
  string_of_list_ascii (firstn n (list_ascii_of_string s)) = substring 0 n s.
Proof.
  revert s. induction n as [| n IH]; intros s; [destruct s; reflexivity |].
  destruct s as [| c s]; [reflexivity |]. simpl. rewrite IH. reflexivity.
Qed.

Lemma substring_prefix_length (k : nat) (s : string) :
  (k <= String.length s)%nat -> String.length (substring 0 k s) = k.
Proof.
  revert s. induction k as [| k IH]; intros s H; [destruct s; reflexivity |].
  destruct s as [| c s]; simpl in H |- *; [lia | rewrite IH by lia; reflexivity].
Qed.

Lemma firstn_min_length {A} (m : nat) (l : list A) : firstn (Nat.min m (length l)) l = firstn m l.
Proof.
  revert l. induction m as [| m IH]; intros [| x l]; simpl; auto. f_equal. apply IH.
Qed.

Lemma str_slice_prefix (s : string) (k : Z) :
  0 <= k -> str_slice s None (Some k) = substring 0 (Z.to_nat k) s.
Proof.
  intros Hk. unfold str_slice, py_slice, slice_indices.
  set (l := list_ascii_of_string s). set (n := Z.of_nat (length l)).
  cbn beta iota zeta. change (1 =? 0) with false. change (1 <? 0) with false. cbn iota.
  destruct (k <? 0) eqn:E1; [apply Z.ltb_lt in E1; lia |].
  assert (He : (if n <=? k then n else k) = Z.min k n)
    by (destruct (n <=? k) eqn:E; [apply Z.leb_le in E | apply Z.leb_gt in E]; lia).
  rewrite He, rbind_ok. cbn beta iota zeta.
  assert (Hl : slice_length 0 (Z.min k n) 1 = Z.min k n).
  { unfold slice_length. change (1 <? 0) with false. cbn iota.
    destruct (0 <? Z.min k n) eqn:E; [apply Z.ltb_lt in E | apply Z.ltb_ge in E];
      rewrite ?Z.div_1_r; unfold n in *; lia. }
  rewrite Hl, take_steps_one by lia. simpl skipn.
  rewrite <- string_of_firstn. f_equal.
  assert (Hm : (Z.to_nat (Z.min k n) = Nat.min (Z.to_nat k) (length l))%nat) by (unfold n; lia).
  rewrite Hm. apply firstn_min_length.
Qed.

(** [Score.format_score] on a Score with a str nickname and a rank below
    100000 lays out fixed columns: ["#"], the rank padded to 5 characters,
    a space, the nickname column of exactly 22 characters (the nickname
    itself when it has at most 20 characters, else its first 19 characters
    and ["..."]), a space, and the score with thousands separators. *)
Theorem Score_format_score_columns (format_seq_nickname : PyVal -> Z -> Z -> result string)
    (sc : Score) (n : string) :
  s_nickname sc = PStr n -> 0 <= s_rank sc < 100000 ->
  exists rk nick,
    Score_format_score format_seq_nickname sc
      = Ok ("#" ++ rk ++ " " ++ nick ++ " " ++ format_thousands (s_score sc)) /\
    String.length rk = 5%nat /\ String.prefix (z_to_string (s_rank sc)) rk = true /\
    String.length nick = 22%nat /\
    ((String.length n <= 20)%nat -> String.prefix n nick = true) /\
    ((21 <= String.length n)%nat -> nick = substring 0 19 n ++ "...").
Proof.
  intros Hn Hr. unfold Score_format_score. rewrite Hn.
  assert (Hz : (String.length (z_to_string (s_rank sc)) <= 5)%nat).
  { unfold z_to_string. destruct (s_rank sc <? 0) eqn:E; [apply Z.ltb_lt in E; lia |].
    apply (digits_of_pos_length 64 _ EmptyString 4); [simpl; lia | lia]. }
  rewrite str_slice_prefix by lia. change (Z.to_nat 19) with 19%nat.
  eexists. eexists. split; [reflexivity |].
  split; [apply pad_right_length; exact Hz |].
  split; [apply prefix_app |].
  destruct (String.length n <? 21)%nat eqn:E;
    [apply Nat.ltb_lt in E | apply Nat.ltb_ge in E].
  - split; [apply pad_right_length; lia |].
    split; [intros _; apply prefix_app | intros; lia].
  - assert (Hs : String.length (substring 0 19 n ++ "...") = 22%nat).
    { rewrite str_length_app, substring_prefix_length by lia. reflexivity. }
    split; [apply pad_right_length; lia |].
    split; [intros; lia |]. intros _. unfold pad_right. rewrite Hs.
    simpl (22 - 22)%nat. cbn [spaces]. apply str_app_nil_r.
Qed.

Lemma Score_format_score_columns_witness :
  s_nickname (mkScore PNone PNone PNone PNone PNone 12345 1234567 PNone PNone
                (PStr "ThisNicknameIsWayTooLong") None None PNone None PNone)
    = PStr "ThisNicknameIsWayTooLong" /\
  0 <= 12345 < 100000 /\
  exists rk nick,
    Score_format_score (fun _ _ _ => Err TypeError)
      (mkScore PNone PNone PNone PNone PNone 12345 1234567 PNone PNone
         (PStr "ThisNicknameIsWayTooLong") None None PNone None PNone)
      = Ok ("#" ++ rk ++ " " ++ nick ++ " " ++ format_thousands 1234567) /\
    String.length rk = 5%nat /\ String.prefix (z_to_string 12345) rk = true /\
    String.length nick = 22%nat /\
    ((String.length "ThisNicknameIsWayTooLong" <= 20)%nat ->
       String.prefix "ThisNicknameIsWayTooLong" nick = true) /\
    ((21 <= String.length "ThisNicknameIsWayTooLong")%nat ->
       nick = substring 0 19 "ThisNicknameIsWayTooLong" ++ "...").
Proof.
  split; [reflexivity | split; [lia |]].
  exact (Score_format_score_columns (fun _ _ _ => Err TypeError)
           (mkScore PNone PNone PNone PNone PNone 12345 1234567 PNone PNone
              (PStr "ThisNicknameIsWayTooLong") None None PNone None PNone)
           "ThisNicknameIsWayTooLong" eq_refl ltac:(simpl; lia)).
Defined.

Lemma replace_comma_filter : forall fuel s, (String.length s <= fuel)%nat ->
  replace_fuel fuel "," "" s
  = string_of_list_ascii (filter (fun c => negb (Ascii.eqb c ","%char)) (list_ascii_of_string s)).
Proof.
  induction fuel as [| f IH]; intros s Hs.
  - destruct s; [reflexivity | simpl in Hs; lia].
  - destruct s as [| c s]; [reflexivity |]. simpl in Hs.
    cbn [replace_fuel starts_with list_ascii_of_string filter].
    rewrite andb_true_r, Ascii.eqb_sym.
    destruct (Ascii.eqb c ","%char); simpl; rewrite IH by lia; reflexivity.
Qed.

Lemma filter_rev {A} (f : A -> bool) (l : list A) : filter f (rev l) = rev (filter f l).
Proof.
  induction l as [| x l IH]; simpl; [reflexivity |].
  rewrite filter_app, IH. simpl. destruct (f x); simpl; [reflexivity | apply app_nil_r].
Qed.

Lemma filter_group3 : forall n (l : list ascii), (length l <= n)%nat ->
  filter (fun c => negb (Ascii.eqb c ","%char)) (group3 l)
  = filter (fun c => negb (Ascii.eqb c ","%char)) l.
Proof.
  induction n as [| n IH]; intros l Hl.
  - destruct l; [reflexivity | simpl in Hl; lia].
  - destruct l as [| a [| b [| c [| d rest]]]]; try reflexivity.
    change (group3 (a :: b :: c :: d :: rest))
      with (a :: b :: c :: ","%char :: group3 (d :: rest)).
    cbn [filter]. simpl (negb (Ascii.eqb "," ",")).
    rewrite IH by (simpl in Hl |- *; lia). reflexivity.
Qed.

Lemma filter_no_comma (l : list ascii) :
  Forall (fun c => c <> ","%char) l -> filter (fun c => negb (Ascii.eqb c ","%char)) l = l.
Proof.
  induction 1 as [| c l Hc _ IH]; simpl; [reflexivity |].
  destruct (Ascii.eqb c ","%char) eqn:E; [apply Ascii.eqb_eq in E; contradiction |].
  simpl. rewrite IH. reflexivity.
Qed.

Lemma digits_of_pos_no_comma : forall fuel n acc,
  Forall (fun c => c <> ","%char) (list_ascii_of_string acc) ->
  Forall (fun c => c <> ","%char) (list_ascii_of_string (digits_of_pos fuel n acc)).
Proof.
  assert (Hd : forall n, ascii_of_nat (Z.to_nat (n mod 10) + 48) <> ","%char).
  { intros n Heq. assert (Hm : 0 <= n mod 10 < 10) by (apply Z.mod_pos_bound; lia).
    apply (f_equal nat_of_ascii) in Heq. set (m := n mod 10) in *.
    assert (Hk : (Z.to_nat m < 10)%nat) by lia.
    rewrite Ascii.nat_ascii_embedding in Heq by lia.
    assert (Hc : nat_of_ascii ","%char = 44%nat) by reflexivity. lia. }
  induction fuel as [| f IH]; intros n acc Ha; [exact Ha |].
  cbn [digits_of_pos]. destruct (n <? 10).
  - simpl. constructor; [apply Hd | exact Ha].
  - apply IH. simpl. constructor; [apply Hd | exact Ha].
Qed.

(** [format(n, ",")] as [format_score] prints a score is [str(n)] with
    commas inserted: [.replace(",", "")] on it gives back [str(n)], for
    every int, negative ones included. *)
Theorem format_thousands_remove_commas (n : Z) :
  replace_all "," "" (format_thousands n) = z_to_string n.
Proof.
  unfold replace_all. rewrite replace_comma_filter by lia.
  set (keep := fun c => negb (Ascii.eqb c ","%char)).
  assert (Hds : Forall (fun c => c <> ","%char)
                  (list_ascii_of_string (digits_of_pos 64 (Z.abs n) EmptyString)))
    by (apply digits_of_pos_no_comma; constructor).
  assert (Hg : filter keep (list_ascii_of_string (string_of_list_ascii
                 (rev (group3 (rev (list_ascii_of_string (z_to_string (Z.abs n))))))))
               = list_ascii_of_string (digits_of_pos 64 (Z.abs n) EmptyString)).
  { rewrite list_ascii_of_string_of_list_ascii, filter_rev.
    unfold keep. rewrite (filter_group3 (length (rev (list_ascii_of_string
                   (z_to_string (Z.abs n)))))) by lia.
    rewrite filter_rev, rev_involutive.
    unfold z_to_string. destruct (Z.abs n <? 0) eqn:E; [apply Z.ltb_lt in E; lia |].
    apply filter_no_comma. exact Hds. }
  unfold format_thousands.
  destruct (n <? 0) eqn:E.
  - cbn [append list_ascii_of_string filter].
    change (keep "-"%char) with true. cbn iota. rewrite Hg.
    cbn [string_of_list_ascii]. rewrite string_of_list_ascii_of_string.
    unfold z_to_string. rewrite E. apply Z.ltb_lt in E.
    replace (Z.abs n) with (- n) by lia. reflexivity.
  - rewrite Hg, string_of_list_ascii_of_string.
    unfold z_to_string. rewrite E. apply Z.ltb_ge in E.
    replace (Z.abs n) with n by lia. reflexivity.
Qed.

(** ** [Player.score]: a memo of the Scores per map *)

Lemma lookup_app {A} (k : string) (d1 d2 : list (string * A)) :
  lookup k (d1 ++ d2) = match lookup k d1 with Some x => Some x | None => lookup k d2 end.
Proof.
  induction d1 as [| [k' v] d1 IH]; simpl; [reflexivity |].
  destruct (String.eqb k k'); [reflexivity | exact IH].
Qed.

Lemma lookup_none_existsb {A} (k : string) (d : list (string * A)) :
  existsb (fun e => String.eqb (fst e) k) d = false -> lookup k d = None.
Proof.
  induction d as [| [k' v] d IH]; simpl; intros H; [reflexivity |].
  apply orb_false_iff in H. destruct H as [H1 H2].
  rewrite String.eqb_sym, H1. apply IH, H2.
Qed.

Lemma lookup_set_key_same {A} (k : string) (v : A) (d : list (string * A)) :
  lookup k (set_key k v d) = Some v.
Proof.
  unfold set_key. destruct (existsb _ d) eqn:E.
  - induction d as [| [k' w] d IH]; simpl in *; [discriminate |].
    destruct (String.eqb k' k) eqn:Ek; simpl.
    + rewrite String.eqb_refl. reflexivity.
    + rewrite String.eqb_sym, Ek. apply IH, E.
  - rewrite lookup_app, lookup_none_existsb by exact E. simpl.
    rewrite String.eqb_refl. reflexivity.
Qed.

Lemma lookup_set_key_other {A} (k k' : string) (v : A) (d : list (string * A)) :
  k' <> k -> lookup k' (set_key k v d) = lookup k' d.
Proof.
  intros Hne. assert (Hf : String.eqb k' k = false) by (apply String.eqb_neq; exact Hne).
  unfold set_key. destruct (existsb _ d) eqn:E.
  - clear E. induction d as [| [a w] d IH]; simpl; [reflexivity |].
    destruct (String.eqb a k) eqn:Ea; simpl.
    + apply String.eqb_eq in Ea. subst a. rewrite Hf. exact IH.
    + destruct (String.eqb k' a); [reflexivity | exact IH].
  - rewrite lookup_app. destruct (lookup k' d); [reflexivity |]. simpl. rewrite Hf. reflexivity.
Qed.

(** [Player.score(mapname)] always returns a Score and memoizes it: a map
    already in [_levels] gives its stored Score and leaves [_levels] as it
    is; a missing map gets the zero Score ([rank=0, score=0, total=0,
    top="-%"], the player's id), stored under [mapname] with every other map
    untouched; a second call then returns the very same Score without
    changing [_levels]. *)
Theorem Player_score_memo (levels : list (string * Score)) (playerid playerid' : PyVal)
    (mapname : string) :
  let '(r, levels') := Player_score levels playerid mapname in
  exists sc, r = Ok sc /\
    lookup mapname levels' = Some sc /\
    (forall k, k <> mapname -> lookup k levels' = lookup k levels) /\
    match lookup mapname levels with
    | Some old => sc = old /\ levels' = levels
    | None => sc = mkScore (PStr "player") (PStr mapname) (PStr "score") (PStr "NORMAL")
                     playerid 0 0 PNone PNone PNone None None (PStr "-%") (Some 0) PNone
    end /\
    Player_score levels' playerid' mapname = (Ok sc, levels').
Proof.
  unfold Player_score at 1. destruct (lookup mapname levels) as [old |] eqn:El.
  - exists old. split; [reflexivity |]. split; [exact El |].
    split; [reflexivity |]. split; [split; reflexivity |].
    unfold Player_score. rewrite El. reflexivity.
  - set (z := mkScore (PStr "player") (PStr mapname) (PStr "score") (PStr "NORMAL")
                playerid 0 0 PNone PNone PNone None None (PStr "-%") (Some 0) PNone).
    assert (Hz : Score_init [PStr "player"; PStr mapname; PStr "score"; PStr "NORMAL"; playerid]
                   [("rank", PInt 0); ("score", PInt 0); ("total", PInt 0); ("top", PStr "-%")]
                 = Ok z) by reflexivity.
    rewrite Hz. exists z. split; [reflexivity |].
    split; [apply lookup_set_key_same |].
    split; [intros k Hk; apply lookup_set_key_other, Hk |].
    split; [reflexivity |].
    unfold Player_score. rewrite lookup_set_key_same. reflexivity.
Qed.

(** ** Fetching the lazy Scores without a Session *)

Lemma Player_init_missing (pos : list Obj) (kw : list (string * Obj)) (p : Player) :
  Player_init pos kw = Ok p -> p_daily_quest p = MISSING /\ p_skill_point p = MISSING.
Proof.
  intros H. unfold Player_init in H.
  destruct (bind_call Player_params pos kw) as [args |]; cbn in H; [| discriminate].
  do 17 (destruct args as [| ? args]; [discriminate |]).
  destruct args; [| discriminate].
  destruct (obj_int _); cbn in H; [| discriminate].
  destruct (obj_int _); cbn in H; [| discriminate].
  injection H as <-. split; reflexivity.
Qed.

(** On a Player as [Player.__init__] builds it, [fetch_daily_quest()] and
    [fetch_skill_point()] without a Session raise [InfinitodeError] asking
    for a Session, send no request and leave the Player as it was. *)
Theorem fetch_without_session_raises (pos : list Obj) (kw : list (string * Obj)) (p : Player)
    (post : Request -> Response) :
  Player_init pos kw = Ok p ->
  fetch_daily_quest post p None
    = (Err (InfinitodeError "You need to provide a Session to fetch the daily quest score."),
       p, None) /\
  fetch_skill_point post p None
    = (Err (InfinitodeError "You need to provide a Session to fetch the skill point score."),
       p, None).
Proof.
  intros H. destruct (Player_init_missing _ _ _ H) as [Hd Hs].
  unfold fetch_daily_quest, fetch_skill_point. rewrite Hd, Hs. split; reflexivity.
Qed.

Lemma fetch_without_session_raises_witness :
  match parse_player_fields sample_page sample_pid with
  | Ok f =>
      exists p, Player_init [] (("beta", OVal (PBool false)) :: player_kwargs f) = Ok p /\
        fetch_daily_quest (fun _ => mkResponse 200 None) p None
          = (Err (InfinitodeError
                    "You need to provide a Session to fetch the daily quest score."), p, None) /\
        fetch_skill_point (fun _ => mkResponse 200 None) p None
          = (Err (InfinitodeError
                    "You need to provide a Session to fetch the skill point score."), p, None)
  | Err _ => False
  end.
Proof.
  destruct (parse_player_fields sample_page sample_pid) as [f |] eqn:Ef;
    [| vm_compute in Ef; discriminate].
  destruct (Player_init [] (("beta", OVal (PBool false)) :: player_kwargs f)) as [p |] eqn:Ep.
  - exists p. split; [reflexivity |].
    exact (fetch_without_session_raises [] _ p (fun _ => mkResponse 200 None) Ep).
  - vm_compute in Ef. injection Ef as <-. vm_compute in Ep. discriminate.
Defined.

(** ** The expiring caches of the anonymous Session calls *)

Lemma dict_get_set_key_same {A} (k : string) (v d0 : A) (d : list (string * A)) :
  dict_get k (set_key k v d) d0 = v.
Proof. unfold dict_get. rewrite lookup_set_key_same. reflexivity. Qed.

Lemma leaderboards_anonymous_miss (post : Request -> Response) (mapname mode difficulty : PyVal)
    (s s1 : SessionState) (lb : Leaderboard) :
  leaderboards post mapname PNone mode difficulty s = (Ok lb, s1) -> sent s1 <> sent s ->
  _kwarg_check mapname PNone mode difficulty = Ok tt /\
  s1 = store_Leaderboards (py_str difficulty ++ py_str mode ++ py_str mapname) lb
         (log_request (api_request "getLeaderboards"
                         (basic_levels_data mapname PNone mode difficulty)) s).
Proof.
  intros H Hs. unfold leaderboards, mbind, mlift, get_state in H.
  destruct (_kwarg_check mapname PNone mode difficulty) as [[] | e] eqn:Hc;
    cbn beta iota zeta in H; [| injection H as _ <-; contradiction].
  split; [reflexivity |]. cbn [truthy negb andb] in H.
  destruct (clock s <? _) eqn:Eh; [injection H as _ <-; contradiction |].
  unfold _post in H. cbn beta iota zeta in H.
  destruct (post_result _) as [payload |]; cbn beta iota zeta in H; [| discriminate].
  destruct (Leaderboard_from_payload _ _ _ _ _ _ _ _) as [lb0 |] eqn:Ef;
    cbn beta iota zeta in H; [| discriminate].
  rewrite (from_payload_anonymous_no_player _ _ _ _ _ _ _ _ Ef) in H.
  unfold modify, mret in H. cbn beta iota zeta in H. injection H as <- <-. reflexivity.
Qed.

(** [Session.leaderboards] without a player id: once a call has fetched a
    Leaderboard from the server (and stored it), the same call made less
    than 60 seconds later returns that very Leaderboard from the cache,
    whatever the server would answer, and sends no request; made 60 seconds
    or more later it sends exactly one new request. *)
Theorem leaderboards_anonymous_expiring_cache (post post' : Request -> Response)
    (mapname mode difficulty : PyVal) (s s1 : SessionState) (lb : Leaderboard) (dt : Z) :
  leaderboards post mapname PNone mode difficulty s = (Ok lb, s1) -> sent s1 <> sent s ->
  (0 <= dt < 60 ->
   leaderboards post' mapname PNone mode difficulty (advance dt s1) = (Ok lb, advance dt s1)) /\
  (60 <= dt ->
   sent (snd (leaderboards post' mapname PNone mode difficulty (advance dt s1)))
   = (sent s1 ++ [api_request "getLeaderboards"
                    (basic_levels_data mapname PNone mode difficulty)])%list).
Proof.
  intros H Hs. destruct (leaderboards_anonymous_miss _ _ _ _ _ _ _ H Hs) as [Hc ->].
  unfold leaderboards, mbind, mlift, get_state. rewrite Hc. cbn beta iota zeta.
  cbn [truthy negb andb advance store_Leaderboards log_request clock cd_Leaderboards
       c_Leaderboards].
  rewrite dict_get_set_key_same. split; intros Hdt.
  - destruct (clock s + dt <? clock s + 60) eqn:E; [| apply Z.ltb_ge in E; lia].
    rewrite lookup_set_key_same. reflexivity.
  - destruct (clock s + dt <? clock s + 60) eqn:E; [apply Z.ltb_lt in E; lia |].
    unfold _post. cbn beta iota zeta.
    destruct (post_result _) as [payload |]; cbn beta iota zeta; [| reflexivity].
    destruct (Leaderboard_from_payload _ _ _ _ _ _ _ _) as [lb0 |]; cbn beta iota zeta;
      [| reflexivity].
    destruct (lb_player lb0); reflexivity.
Qed.

Lemma leaderboards_anonymous_expiring_cache_witness :
  let post := fun _ : Request => mkResponse 200 (Some (PDict [("status", PStr "success");
                 ("player", PDict [("total", PInt 0)]); ("leaderboards", PList [])])) in
  let '(r, s1) := leaderboards post (PStr "1.1") PNone (PStr "score") (PStr "NORMAL")
                    (new_session 100) in
  exists lb, r = Ok lb /\ sent s1 <> sent (new_session 100) /\
  ((0 <= 30 < 60 ->
    leaderboards (fun _ => mkResponse 500 None) (PStr "1.1") PNone (PStr "score")
      (PStr "NORMAL") (advance 30 s1) = (Ok lb, advance 30 s1)) /\
   (60 <= 30 ->
    sent (snd (leaderboards (fun _ => mkResponse 500 None) (PStr "1.1") PNone (PStr "score")
                 (PStr "NORMAL") (advance 30 s1)))
    = (sent s1 ++ [api_request "getLeaderboards"
                     (basic_levels_data (PStr "1.1") PNone (PStr "score") (PStr "NORMAL"))])%list)).
Proof.
  intros post.
  destruct (leaderboards post (PStr "1.1") PNone (PStr "score") (PStr "NORMAL")
              (new_session 100)) as [r s1] eqn:E.
  destruct r as [lb | e]; [| vm_compute in E; discriminate].
  assert (Hs : sent s1 <> sent (new_session 100))
    by (vm_compute in E; injection E as _ <-; vm_compute; discriminate).
  exists lb. split; [reflexivity |]. split; [exact Hs |].
  exact (leaderboards_anonymous_expiring_cache post (fun _ => mkResponse 500 None) _ _ _
           (new_session 100) s1 lb 30 E Hs).
Defined.

Lemma daily_quest_anonymous_miss (post : Request -> Response) (ds : string) (ymd : Z * Z * Z)
    (w : bool) (s s1 : SessionState) (lb : Leaderboard) :
  strptime_ymd ds = Some ymd ->
  daily_quest_leaderboards post (AVal (PStr ds)) PNone w s = (Ok lb, s1) -> sent s1 <> sent s ->
  s1 = store_DailyQuestLeaderboards ds lb
         (log_request (api_request "getDailyQuestLeaderboards"
                         [("date", PStr ds); ("playerid", PNone)]) s).
Proof.
  intros Hp H Hs. unfold daily_quest_leaderboards, normalize_date, mbind, mlift, get_state in H.
  rewrite Hp in H. cbn beta iota zeta in H. cbn [truthy negb andb] in H.
  destruct (clock s <? _) eqn:Eh; [injection H as _ <-; contradiction |].
  unfold _post in H. cbn beta iota zeta in H.
  destruct (post_result _) as [payload |]; cbn beta iota zeta in H; [| discriminate].
  destruct (Leaderboard_from_payload _ _ _ _ _ _ _ _) as [lb0 |] eqn:Ef;
    cbn beta iota zeta in H; [| discriminate].
  rewrite (from_payload_anonymous_no_player _ _ _ _ _ _ _ _ Ef) in H.
  unfold modify, mret in H. cbn beta iota zeta in H. injection H as <- <-. reflexivity.
Qed.

(** [Session.daily_quest_leaderboards] without a player id and with a date
    string that parses as YYYY-MM-DD: once a call has fetched the date's
    Leaderboard, the same call made less than 60 seconds later returns it
    from the cache and sends no request; made 60 seconds or more later it
    sends exactly one new request. *)
Theorem daily_quest_anonymous_expiring_cache (post post' : Request -> Response)
    (ds : string) (ymd : Z * Z * Z) (w w' : bool) (s s1 : SessionState) (lb : Leaderboard)
    (dt : Z) :
  strptime_ymd ds = Some ymd ->
  daily_quest_leaderboards post (AVal (PStr ds)) PNone w s = (Ok lb, s1) -> sent s1 <> sent s ->
  (0 <= dt < 60 ->
   daily_quest_leaderboards post' (AVal (PStr ds)) PNone w' (advance dt s1)
   = (Ok lb, advance dt s1)) /\
  (60 <= dt ->
   sent (snd (daily_quest_leaderboards post' (AVal (PStr ds)) PNone w' (advance dt s1)))
   = (sent s1 ++ [api_request "getDailyQuestLeaderboards"
                    [("date", PStr ds); ("playerid", PNone)]])%list).
Proof.
  intros Hp H Hs. rewrite (daily_quest_anonymous_miss _ _ _ _ _ _ _ Hp H Hs).
  unfold daily_quest_leaderboards, normalize_date, mbind, mlift, get_state. rewrite Hp.
  cbn beta iota zeta.
  cbn [truthy negb andb advance store_DailyQuestLeaderboards log_request clock
       cd_DailyQuestLeaderboards c_DailyQuestLeaderboards].
  rewrite dict_get_set_key_same. split; intros Hdt.
  - destruct (clock s + dt <? clock s + 60) eqn:E; [| apply Z.ltb_ge in E; lia].
    rewrite lookup_set_key_same. reflexivity.
  - destruct (clock s + dt <? clock s + 60) eqn:E; [apply Z.ltb_lt in E; lia |].
    unfold _post. cbn beta iota zeta.
    destruct (post_result _) as [payload |]; cbn beta iota zeta; [| reflexivity].
    destruct (Leaderboard_from_payload _ _ _ _ _ _ _ _) as [lb0 |]; cbn beta iota zeta;
      [| reflexivity].
    destruct (lb_player lb0); reflexivity.
Qed.

Lemma daily_quest_anonymous_expiring_cache_witness :
  let post := fun _ : Request => mkResponse 200 (Some (PDict [("status", PStr "success");
                 ("player", PDict [("total", PInt 0)]); ("leaderboards", PList [])])) in
  let '(r, s1) := daily_quest_leaderboards post (AVal (PStr "2024-02-29")) PNone true
                    (new_session 100) in
  strptime_ymd "2024-02-29" = Some (2024, 2, 29) /\
  exists lb, r = Ok lb /\ sent s1 <> sent (new_session 100) /\
  ((0 <= 59 < 60 ->
    daily_quest_leaderboards (fun _ => mkResponse 500 None) (AVal (PStr "2024-02-29")) PNone
      false (advance 59 s1) = (Ok lb, advance 59 s1)) /\
   (60 <= 59 ->
    sent (snd (daily_quest_leaderboards (fun _ => mkResponse 500 None)
                 (AVal (PStr "2024-02-29")) PNone false (advance 59 s1)))
    = (sent s1 ++ [api_request "getDailyQuestLeaderboards"
                     [("date", PStr "2024-02-29"); ("playerid", PNone)]])%list)).
Proof.
  intros post.
  destruct (daily_quest_leaderboards post (AVal (PStr "2024-02-29")) PNone true
              (new_session 100)) as [r s1] eqn:E.
  assert (Hp : strptime_ymd "2024-02-29" = Some (2024, 2, 29)) by (vm_compute; reflexivity).
  split; [exact Hp |].
  destruct r as [lb | e]; [| vm_compute in E; discriminate].
  assert (Hs : sent s1 <> sent (new_session 100))
    by (vm_compute in E; injection E as _ <-; vm_compute; discriminate).
  exists lb. split; [reflexivity |]. split; [exact Hs |].
  exact (daily_quest_anonymous_expiring_cache post (fun _ => mkResponse 500 None) _ _ true false
           (new_session 100) s1 lb 59 Hp E Hs).
Defined.

Lemma skill_point_anonymous_miss (post : Request -> Response) (s s1 : SessionState)
    (lb : Leaderboard) :
  skill_point_leaderboard post PNone s = (Ok lb, s1) -> sent s1 <> sent s ->
  s1 = store_SkillPointLeaderboard lb
         (log_request (api_request "getSkillPointLeaderboard" [("playerid", PNone)]) s).
Proof.
  intros H Hs. unfold skill_point_leaderboard, mbind, mlift, get_state in H.
  cbn beta iota zeta in H.
  destruct (clock s <? _) eqn:Eh; [injection H as _ <-; contradiction |].
  unfold _post in H. cbn beta iota zeta in H.
  destruct (post_result _) as [payload |]; cbn beta iota zeta in H; [| discriminate].
  destruct (Leaderboard_from_payload _ _ _ _ _ _ _ _) as [lb0 |] eqn:Ef;
    cbn beta iota zeta in H; [| discriminate].
  rewrite (from_payload_anonymous_no_player _ _ _ _ _ _ _ _ Ef) in H.
  unfold modify, mret in H. cbn beta iota zeta in H. injection H as <- <-. reflexivity.
Qed.

(** [Session.skill_point_leaderboard()] without a player id: once a call
    has fetched the Leaderboard, a call less than 60 seconds later returns it
    from the cache and sends no request; 60 seconds or more later it sends
    exactly one new request. *)
Theorem skill_point_anonymous_expiring_cache (post post' : Request -> Response)
    (s s1 : SessionState) (lb : Leaderboard) (dt : Z) :
  skill_point_leaderboard post PNone s = (Ok lb, s1) -> sent s1 <> sent s ->
  (0 <= dt < 60 -> skill_point_leaderboard post' PNone (advance dt s1) = (Ok lb, advance dt s1)) /\
  (60 <= dt ->
   sent (snd (skill_point_leaderboard post' PNone (advance dt s1)))
   = (sent s1 ++ [api_request "getSkillPointLeaderboard" [("playerid", PNone)]])%list).
Proof.
  intros H Hs. rewrite (skill_point_anonymous_miss _ _ _ _ H Hs).
  unfold skill_point_leaderboard, mbind, mlift, get_state. cbn beta iota zeta.
  cbn [advance store_SkillPointLeaderboard log_request clock cd_SkillPointLeaderboard
       c_SkillPointLeaderboard].
  split; intros Hdt.
  - destruct (clock s + dt <? clock s + 60) eqn:E; [| apply Z.ltb_ge in E; lia].
    reflexivity.
  - destruct (clock s + dt <? clock s + 60) eqn:E; [apply Z.ltb_lt in E; lia |].
    unfold _post. cbn beta iota zeta.
    destruct (post_result _) as [payload |]; cbn beta iota zeta; [| reflexivity].
    destruct (Leaderboard_from_payload _ _ _ _ _ _ _ _) as [lb0 |]; cbn beta iota zeta;
      [| reflexivity].
    destruct (lb_player lb0); reflexivity.
Qed.

Lemma skill_point_anonymous_expiring_cache_witness :
  let post := fun _ : Request => mkResponse 200 (Some (PDict [("status", PStr "success");
                 ("player", PDict [("total", PInt 0)]); ("leaderboards", PList [])])) in
  let '(r, s1) := skill_point_leaderboard post PNone (new_session 100) in
  exists lb, r = Ok lb /\ sent s1 <> sent (new_session 100) /\
  ((0 <= 60 < 60 ->
    skill_point_leaderboard (fun _ => mkResponse 500 None) PNone (advance 60 s1)
    = (Ok lb, advance 60 s1)) /\
   (60 <= 60 ->
    sent (snd (skill_point_leaderboard (fun _ => mkResponse 500 None) PNone (advance 60 s1)))
    = (sent s1 ++ [api_request "getSkillPointLeaderboard" [("playerid", PNone)]])%list)).
Proof.
  intros post.
  destruct (skill_point_leaderboard post PNone (new_session 100)) as [r s1] eqn:E.
  destruct r as [lb | e]; [| vm_compute in E; discriminate].
  assert (Hs : sent s1 <> sent (new_session 100))
    by (vm_compute in E; injection E as _ <-; vm_compute; discriminate).
  exists lb. split; [reflexivity |]. split; [exact Hs |].
  exact (skill_point_anonymous_expiring_cache post (fun _ => mkResponse 500 None)
           (new_session 100) s1 lb 60 E Hs).
Defined.

(** ** The uncached Session calls *)

(** [Session.runtime_leaderboards] and [Session.leaderboards_rank] use no
    cache: once the arguments pass [_kwarg_check], each call sends exactly
    one request and changes nothing else in the Session, whatever the
    response; when the check fails, nothing is sent and the Session is left
    as it was. *)
Theorem uncached_calls_send_one_request (post : Request -> Response)
    (mapname playerid mode difficulty : PyVal) (s : SessionState) :
  snd (runtime_leaderboards post mapname playerid mode difficulty s)
  = match _kwarg_check mapname playerid mode difficulty with
    | Ok _ => log_request (api_request "getRuntimeLeaderboards"
                             (basic_levels_data mapname playerid mode difficulty)) s
    | Err _ => s
    end /\
  snd (leaderboards_rank post mapname playerid mode difficulty s)
  = match _kwarg_check mapname playerid mode difficulty with
    | Ok _ => log_request (api_request "getLeaderboardsRank"
                             (basic_levels_data mapname playerid mode difficulty)) s
    | Err _ => s
    end.
Proof.
  unfold runtime_leaderboards, leaderboards_rank, mbind, mlift, _post.
  destruct (_kwarg_check mapname playerid mode difficulty); cbn beta iota zeta;
    [| split; reflexivity].
  split; destruct (post_result _); reflexivity.
Qed.

(** ** [Player.__init__] on the fields [_parse_player] computes *)

Lemma parse_player_fields_totals (doc : ProfileDoc) (pid : string) (f : ProfileFields) :
  parse_player_fields doc pid = Ok f ->
  exists a b, f_total_score f = PInt a /\ f_total_rank f = PInt b.
Proof.
  intros H. unfold parse_player_fields in H.
  repeat (rewrite ?rbind_ok in H; cbn beta iota zeta in H;
          match type of H with
          | context [rbind ?m _] =>
              let E := fresh "E" in
              destruct m eqn:E; [| rewrite rbind_err in H; discriminate]
          | context [match ?t with pair _ _ => _ end] => destruct t
          end).
  injection H as <-. simpl.
  match goal with
  | E : (match d_totals doc with _ => _ end) = Ok (?x, ?y, ?z) |- _ => revert E
  end.
  destruct (d_totals doc) as [labels |]; [destruct (4 <=? length labels)%nat |]; intros Et.
  - rsplit Et. injection Et as <- <- <-. do 2 eexists. split; reflexivity.
  - injection Et as <- <- <-. do 2 eexists. split; reflexivity.
  - injection Et as <- <- <-. do 2 eexists. split; reflexivity.
Qed.

(** The dict [t] that [_parse_player] builds fits the keyword parameters of
    [Player.__init__] exactly: given [beta] as well, [Player(beta, **t)]
    succeeds for every page [_parse_player] gets through, with the parsed
    player id, levels and totals and both lazy Scores [MISSING]. *)
Theorem Player_init_accepts_parsed_fields (doc : ProfileDoc) (pid : string)
    (f : ProfileFields) (beta : Obj) :
  parse_player_fields doc pid = Ok f ->
  exists p, Player_init [beta] (player_kwargs f) = Ok p /\
    p_beta p = beta /\ p_playerid p = OVal (PStr (f_playerid f)) /\
    p_levels p = OScores (f_levels f) /\
    OVal (PInt (p_total_score p)) = OVal (f_total_score f) /\
    OVal (PInt (p_total_rank p)) = OVal (f_total_rank f) /\
    p_daily_quest p = MISSING /\ p_skill_point p = MISSING.
Proof.
  intros H. destruct (parse_player_fields_totals _ _ _ H) as [a [b [Ha Hb]]].
  unfold Player_init, player_kwargs. rewrite Ha, Hb.
  eexists. split; [cbn; reflexivity |]. cbn. repeat split.
Qed.

Lemma Player_init_accepts_parsed_fields_witness :
  match parse_player_fields sample_page sample_pid with
  | Ok f =>
      exists p, Player_init [OVal (PBool false)] (player_kwargs f) = Ok p /\
        p_beta p = OVal (PBool false) /\ p_playerid p = OVal (PStr (f_playerid f)) /\
        p_levels p = OScores (f_levels f) /\
        OVal (PInt (p_total_score p)) = OVal (f_total_score f) /\
        OVal (PInt (p_total_rank p)) = OVal (f_total_rank f) /\
        p_daily_quest p = MISSING /\ p_skill_point p = MISSING
  | Err _ => False
  end.
Proof.
  destruct (parse_player_fields sample_page sample_pid) as [f |] eqn:Ef;
    [| vm_compute in Ef; discriminate].
  exact (Player_init_accepts_parsed_fields sample_page sample_pid f (OVal (PBool false)) Ef).
Defined.

(** ** Dates: [strftime] and [strptime] *)

Lemma pad4_digits : forall y, 1000 <= y <= 9999 ->
  exists a b c d, pad4 y = String a (String b (String c (String d EmptyString))) /\
    is_digit a && is_digit b && is_digit c && is_digit d = true /\
    digit_val a * 1000 + digit_val b * 100 + digit_val c * 10 + digit_val d = y.
Proof.
  assert (Hall : forallb (fun y =>
            match pad4 y with
            | String a (String b (String c (String d EmptyString))) =>
                is_digit a && is_digit b && is_digit c && is_digit d &&
                Z.eqb (digit_val a * 1000 + digit_val b * 100 + digit_val c * 10 + digit_val d) y
            | _ => false
            end) (map Z.of_nat (seq 1000 (Z.to_nat 9000))) = true) by (vm_compute; reflexivity).
  intros y Hy. rewrite forallb_forall in Hall.
  assert (Hin : In y (map Z.of_nat (seq 1000 (Z.to_nat 9000)))).
  { apply in_map_iff. exists (Z.to_nat y). split; [lia | apply in_seq; lia]. }
  specialize (Hall y Hin).
  destruct (pad4 y) as [| a [| b [| c [| d [| e r]]]]]; try discriminate.
  apply andb_prop in Hall. destruct Hall as [Hd Hv]. apply Z.eqb_eq in Hv.
  exists a, b, c, d. auto.
Qed.

Lemma match_Y_pad4 (y : Z) (r : string) :
  1000 <= y <= 9999 -> match_Y (pad4 y ++ r) = Some (y, r).
Proof.
  intros Hy. destruct (pad4_digits y Hy) as [a [b [c [d [Hp [Hd Hv]]]]]].
  rewrite Hp. simpl. rewrite Hd, Hv. reflexivity.
Qed.

Lemma month_day_parse (m d : Z) :
  1 <= m <= 12 -> 1 <= d <= 31 ->
  find_first
    (fun mr => match match_lit "-" (snd mr) with
               | Some r3 => match alts_d r3 with
                            | dr :: _ => Some (fst mr, fst dr, snd dr)
                            | [] => None
                            end
               | None => None
               end) (alts_m (pad2 m ++ "-" ++ pad2 d)) = Some (m, d, "").
Proof.
  assert (Hall : forallb (fun md =>
            match find_first
                    (fun mr => match match_lit "-" (snd mr) with
                               | Some r3 => match alts_d r3 with
                                            | dr :: _ => Some (fst mr, fst dr, snd dr)
                                            | [] => None
                                            end
                               | None => None
                               end) (alts_m (pad2 (fst md) ++ "-" ++ pad2 (snd md))) with
            | Some (m', d', rest) => Z.eqb m' (fst md) && Z.eqb d' (snd md) && String.eqb rest ""
            | None => false
            end)
            (list_prod (map Z.of_nat (seq 1 12)) (map Z.of_nat (seq 1 31))) = true)
    by (vm_compute; reflexivity).
  intros Hm Hd. rewrite forallb_forall in Hall.
  assert (Hin : In (m, d) (list_prod (map Z.of_nat (seq 1 12)) (map Z.of_nat (seq 1 31)))).
  { apply in_prod.
    - apply in_map_iff. exists (Z.to_nat m). split; [lia | apply in_seq; lia].
    - apply in_map_iff. exists (Z.to_nat d). split; [lia | apply in_seq; lia]. }
  specialize (Hall _ Hin). cbn [fst snd] in Hall.
  destruct (find_first _ _) as [[[m' d'] rest] |]; [| discriminate].
  apply andb_prop in Hall. destruct Hall as [Hall Hr]. apply andb_prop in Hall.
  destruct Hall as [H1 H2]. apply Z.eqb_eq in H1, H2. apply String.eqb_eq in Hr. subst. reflexivity.
Qed.

Lemma days_in_month_le_31 (y m : Z) : days_in_month y m <= 31.
Proof.
  unfold days_in_month. destruct (is_leap y);
    repeat match goal with |- context [match ?x with _ => _ end] => destruct x end; lia.
Qed.

(** [strptime(s, "%Y-%m-%d")] reads back what [strftime("%Y-%m-%d")] writes
    for every date with a four-digit year; so [daily_quest_leaderboards]
    given a datetime or its YYYY-MM-DD string makes the same call (same
    cache key, same request, same result), with no warning. *)
Theorem strptime_strftime_roundtrip (y m d : Z) :
  1000 <= y <= 9999 -> 1 <= m <= 12 -> 1 <= d <= days_in_month y m ->
  strptime_ymd (strftime_ymd y m d) = Some (y, m, d) /\
  forall (post : Request -> Response) (pid : PyVal) (w : bool) (s : SessionState),
    daily_quest_leaderboards post (ADatetime y m d) pid w s
    = daily_quest_leaderboards post (AVal (PStr (strftime_ymd y m d))) pid w s.
Proof.
  intros Hy Hm Hd.
  assert (Hr : strptime_ymd (strftime_ymd y m d) = Some (y, m, d)).
  { pose proof (days_in_month_le_31 y m) as H31.
    unfold strptime_ymd, strftime_ymd. rewrite match_Y_pad4 by exact Hy.
    cbn [match_lit append]. change (Ascii.eqb "-" "-") with true. cbn iota.
    change (String "-" (pad2 d)) with ("-" ++ pad2 d). rewrite month_day_parse by lia.
    destruct (1 <=? y) eqn:E1; [| apply Z.leb_gt in E1; lia].
    destruct (d <=? days_in_month y m) eqn:E2; [| apply Z.leb_gt in E2; lia].
    reflexivity. }
  split; [exact Hr |].
  intros post pid w s. unfold daily_quest_leaderboards, mbind, normalize_date.
  rewrite Hr. reflexivity.
Qed.

Lemma strptime_strftime_roundtrip_witness :
  1000 <= 2024 <= 9999 /\ 1 <= 2 <= 12 /\ 1 <= 29 <= days_in_month 2024 2 /\
  strptime_ymd (strftime_ymd 2024 2 29) = Some (2024, 2, 29).
Proof.
  split; [lia | split; [lia | split; [vm_compute; split; discriminate |]]].
  apply (strptime_strftime_roundtrip 2024 2 29); [lia | lia | vm_compute; split; discriminate].
Defined.

(** ** Argument checking *)

(** [Session._kwarg_check] on four str arguments passes exactly when the
    map is a known level name, the player id matches [ID_REGEX], the mode is
    score or waves and the difficulty is EASY, NORMAL or ENDLESS_I; every
    failure is a [BadArgument]. *)
Theorem kwarg_check_strings (m p mo d : string) :
  (_kwarg_check (PStr m) (PStr p) (PStr mo) (PStr d) = Ok tt <->
   str_in m LEVELS = true /\ ID_REGEX_match p <> None /\
   str_in mo ["score"; "waves"] = true /\ str_in d ["EASY"; "NORMAL"; "ENDLESS_I"] = true) /\
  (forall e, _kwarg_check (PStr m) (PStr p) (PStr mo) (PStr d) = Err e ->
   exists msg, e = BadArgument msg).
Proof.
  unfold _kwarg_check, id_match. cbn beta iota. rewrite !val_in_PStr, py_str_PStr.
  destruct (str_in m LEVELS); destruct (ID_REGEX_match p);
    destruct (str_in mo ["score"; "waves"]); destruct (str_in d ["EASY"; "NORMAL"; "ENDLESS_I"]);
    cbn;
    (split; [split; [intros H; first [discriminate | repeat split; congruence]
                    | intros [H1 [H2 [H3 H4]]]; first [reflexivity | discriminate | congruence]]
            | intros e H; first [discriminate | injection H as <-; eexists; reflexivity]]).
Qed.

(** ** [Score.from_payload] *)

Lemma bind_params_pos_no_kw {V} : forall (params : list (Param V)) pos kw vs i p,
  bind_params params pos kw = Ok vs -> (i < length pos)%nat ->
  nth_error params i = Some p -> lookup (pname p) kw = None.
Proof.
  induction params as [| p0 ps IH]; intros pos kw vs i p H Hi Hp; [destruct i; discriminate |].
  destruct pos as [| v0 pos']; [simpl in Hi; lia |].
  cbn [bind_params] in H. destruct (pkwonly p0); [discriminate |].
  destruct (lookup (pname p0) kw) eqn:El; [discriminate |].
  destruct (bind_params ps pos' kw) as [vs' |] eqn:E; [| discriminate].
  destruct i as [| i']; simpl in Hp.
  - injection Hp as <-. exact El.
  - exact (IH _ _ _ i' _ E ltac:(simpl in Hi; lia) Hp).
Qed.

Lemma bind_params_required {V} : forall (params : list (Param V)) pos kw vs i p,
  bind_params params pos kw = Ok vs -> (length pos <= i)%nat ->
  nth_error params i = Some p -> pdefault p = None -> lookup (pname p) kw <> None.
Proof.
  induction params as [| p0 ps IH]; intros pos kw vs i p H Hi Hp Hd; [destruct i; discriminate |].
  destruct pos as [| v0 pos'].
  - cbn [bind_params] in H. rsplit H. destruct i as [| i']; simpl in Hp.
    + injection Hp as <-. intros Hn. rewrite Hn, Hd in E. discriminate.
    + exact (IH _ _ _ i' _ E0 ltac:(simpl; lia) Hp Hd).
  - cbn [bind_params] in H. destruct (pkwonly p0); [discriminate |].
    destruct (lookup (pname p0) kw); [discriminate |].
    destruct (bind_params ps pos' kw) as [vs' |] eqn:E; [| discriminate].
    destruct i as [| i']; [simpl in Hi; lia |]. simpl in Hp.
    exact (IH _ _ _ i' _ E ltac:(simpl in Hi; lia) Hp Hd).
Qed.

(** [Score.from_payload] builds [Score(method, mapname, mode, difficulty,
    playerid, **payload["player"])]: it succeeds only when
    [payload["player"]] is a dict with a [rank] and a [score], without any
    of the keys given positionally (method, mapname, mode, difficulty,
    playerid: "multiple values") and with no key [Score.__init__] does not
    know; the Score then carries the five positional values. *)
Theorem Score_from_payload_keys (m mp mo d pid payload : PyVal) (sc : Score) :
  Score_from_payload m mp mo d pid payload = Ok sc ->
  exists kv, getitem payload "player" = Ok (PDict kv) /\
    Forall (fun k => lookup k kv = None) ["method"; "mapname"; "mode"; "difficulty"; "playerid"] /\
    lookup "rank" kv <> None /\ lookup "score" kv <> None /\
    Forall (fun e => In (fst e) (map pname Score_params)) kv /\
    s_method sc = m /\ s_mapname sc = mp /\ s_mode sc = mo /\ s_difficulty sc = d /\
    s_playerid sc = pid.
Proof.
  intros H. unfold Score_from_payload in H. rsplit H.
  destruct a as [| b | z | s0 | l0 | l0 | kv]; try discriminate.
  unfold merge_kwargs in E0. cbn in E0. injection E0 as <-.
  exists kv. split; [reflexivity |].
  unfold Score_init, bind_call in H.
  destruct (forallb _ kv) eqn:Ek; [| discriminate].
  destruct (bind_params Score_params [m; mp; mo; d; pid] kv) as [args |] eqn:Eb;
    [| discriminate].
  rewrite rbind_ok in H.
  assert (Hno : forall i p, (i < 5)%nat -> nth_error Score_params i = Some p ->
                            lookup (pname p) kv = None)
    by (intros i p Hi Hp; exact (bind_params_pos_no_kw _ _ _ _ i p Eb Hi Hp)).
  split.
  { repeat apply Forall_cons;
      [exact (Hno 0%nat (req "method") ltac:(lia) eq_refl)
      | exact (Hno 1%nat (req "mapname") ltac:(lia) eq_refl)
      | exact (Hno 2%nat (req "mode") ltac:(lia) eq_refl)
      | exact (Hno 3%nat (req "difficulty") ltac:(lia) eq_refl)
      | exact (Hno 4%nat (req "playerid") ltac:(lia) eq_refl)
      | apply Forall_nil]. }
  split; [exact (bind_params_required _ _ _ _ 5 (req "rank") Eb ltac:(simpl; lia) eq_refl eq_refl) |].
  split; [exact (bind_params_required _ _ _ _ 6 (req "score") Eb ltac:(simpl; lia) eq_refl eq_refl) |].
  split.
  { apply Forall_forall. intros e He. rewrite forallb_forall in Ek.
    specialize (Ek e He). apply existsb_exists in Ek. destruct Ek as [p [Hp Hn]].
    apply String.eqb_eq in Hn. rewrite Hn. apply in_map. exact Hp. }
  pose proof (bind_params_pos _ _ _ _ Eb) as Hpos.
  destruct args as [| a0 [| a1 [| a2 [| a3 [| a4 [| a5 [| a6 [| a7 [| a8 [| a9
                   [| a10 [| a11 [| a12 [| a13 [| a14 [| ]]]]]]]]]]]]]]]];
    try (cbn in H; discriminate).
  simpl in Hpos. injection Hpos as -> -> -> -> ->.
  rsplit H. injection H as <-. simpl. auto.
Qed.

Lemma Score_from_payload_keys_witness :
  exists sc, Score_from_payload (PStr "leaderboards_rank") (PStr "1.1") (PStr "score")
    (PStr "NORMAL") (PStr sample_pid)
    (PDict [("status", PStr "success");
            ("player", PDict [("rank", PInt 3); ("score", PInt 12000)])]) = Ok sc /\
  exists kv, getitem (PDict [("status", PStr "success");
            ("player", PDict [("rank", PInt 3); ("score", PInt 12000)])]) "player" = Ok (PDict kv) /\
    Forall (fun k => lookup k kv = None) ["method"; "mapname"; "mode"; "difficulty"; "playerid"] /\
    lookup "rank" kv <> None /\ lookup "score" kv <> None /\
    Forall (fun e => In (fst e) (map pname Score_params)) kv /\
    s_method sc = PStr "leaderboards_rank" /\ s_mapname sc = PStr "1.1" /\
    s_mode sc = PStr "score" /\ s_difficulty sc = PStr "NORMAL" /\
    s_playerid sc = PStr sample_pid.
Proof.
  destruct (Score_from_payload (PStr "leaderboards_rank") (PStr "1.1") (PStr "score")
    (PStr "NORMAL") (PStr sample_pid)
    (PDict [("status", PStr "success");
            ("player", PDict [("rank", PInt 3); ("score", PInt 12000)])])) as [sc |] eqn:E;
    [| vm_compute in E; discriminate].
  exists sc. split; [reflexivity |].
  exact (Score_from_payload_keys _ _ _ _ _ _ sc E).
Defined.
